(** * openclaw-doctor: the check / result / fix protocol and its orchestrator

    A shallow embedding of [openclaw_doctor/checks/base.py],
    [openclaw_doctor/checks/__init__.py], the seven registered probes under
    [openclaw_doctor/checks/] and the command layer of
    [openclaw_doctor/main.py], followed by the properties of the
    orchestration engine.

    Conventions.
    - Python [str] is [string]; [str.lower] is modelled on the ASCII letters
      (the registry names and every alias are ASCII); the Unicode case
      mapping of other code points is outside the model.
    - Python [int] is [Z]; counters that only ever grow from [0] are [nat].
    - The two [float] attributes of [SystemCheck] are quotients of a byte
      count by [1024 ** 3] and are kept as exact rationals [Q]: the
      quotient is exact for byte counts below [2 ** 53], and the comparisons
      against the integer thresholds agree with the rounded quotient for
      every byte count.
    - A call that may raise returns [exn + A].
    - What a probe learns from the machine (PATH lookups, subprocess
      results, file contents, sockets) is read from an observation record;
      the decision logic of every [run] and [fix] is transcribed in full.
    - The orchestrator is a state-and-exception monad over a machine that
      holds the outside world, the chronological trace of probe calls and
      console output, and the counter naming probe instances. *)

From Stdlib Require Import String Ascii List ZArith QArith_base Bool Arith Lia.
From Stdlib Require Import DecimalString DecimalPos.
Import ListNotations.
Close Scope Q_scope.
Open Scope string_scope.
Open Scope list_scope.

Set Implicit Arguments.
Set Warnings "-register-all".

(** An exception other than [typer.Exit], identified by its class. *)
Inductive exn := Raise (class_name : string) (msg : string).

(* ================================================================== *)
(** * Python values used by the code *)
(* ================================================================== *)

Module Py.

(** Truthiness of [str | None] as tested by [if not x]. *)
Definition truthy_str (x : option string) : bool :=
  match x with
  | None => false
  | Some s => negb (s =? "")
  end.

(** Truthiness of a list. *)
Definition truthy_list {A} (l : list A) : bool :=
  match l with [] => false | _ => true end.

(** [str(n)] for an integer. *)
Definition str_of_Z (z : Z) : string := NilZero.string_of_int (Z.to_int z).
Definition str_of_nat (n : nat) : string := str_of_Z (Z.of_nat n).

(** [sep.join(items)] *)
Definition join (sep : string) (items : list string) : string :=
  String.concat sep items.

Definition is_upper (c : ascii) : bool :=
  (("A" <=? c) && (c <=? "Z"))%char.
Definition is_lower (c : ascii) : bool :=
  (("a" <=? c) && (c <=? "z"))%char.

Definition lower_char (c : ascii) : ascii :=
  if is_upper c then ascii_of_nat (nat_of_ascii c + 32) else c.
Definition upper_char (c : ascii) : ascii :=
  if is_lower c then ascii_of_nat (nat_of_ascii c - 32) else c.

(** [s.lower()] *)
Fixpoint lower (s : string) : string :=
  match s with
  | EmptyString => EmptyString
  | String c s' => String (lower_char c) (lower s')
  end.

(** [s.replace(old, new)] where [old] and [new] are one character long:
    every occurrence of the character is replaced. *)
Fixpoint replace_char (old new : ascii) (s : string) : string :=
  match s with
  | EmptyString => EmptyString
  | String c s' =>
      String (if Ascii.eqb c old then new else c) (replace_char old new s')
  end.

(** [s.replace(old, new)] for a non-empty [old]: leftmost non-overlapping
    occurrences, scanned left to right.  [fuel] bounds the scan and
    [length s] always suffices. *)
Fixpoint replace_fuel (fuel : nat) (old new s : string) : string :=
  match fuel with
  | O => s
  | S fuel' =>
      match s with
      | EmptyString => EmptyString
      | String c s' =>
          if String.prefix old s
          then new ++ replace_fuel fuel'
                        old new
                        (String.substring (String.length old)
                           (String.length s - String.length old) s)
          else String c (replace_fuel fuel' old new s')
      end
  end.
Definition replace (old new s : string) : string :=
  replace_fuel (String.length s) old new s.

(** [needle in haystack] on strings. *)
Fixpoint contains (needle haystack : string) : bool :=
  String.prefix needle haystack
  || match haystack with
     | EmptyString => false
     | String _ h' => contains needle h'
     end.

(** [s.title()] on ASCII: a letter that follows a non-letter is
    upper-cased, every other letter is lower-cased. *)
Fixpoint title_from (prev_cased : bool) (s : string) : string :=
  match s with
  | EmptyString => EmptyString
  | String c s' =>
      let cased := is_upper c || is_lower c in
      String (if cased
              then (if prev_cased then lower_char c else upper_char c)
              else c)
             (title_from cased s')
  end.
Definition title (s : string) : string := title_from false s.

(** [a or b] on [int | None]. *)
Definition or_int (a : option Z) (b : Z) : Z :=
  match a with
  | Some n => if (n =? 0)%Z then b else n
  | None => b
  end.

Definition Qltb (x y : Q) : bool := negb (Qle_bool y x).

(** [f"{x:.<d>f}"] for [x >= 0]: [x] rounded to [d] decimals, ties to
    the even digit. *)
Definition format_f (d : nat) (x : Q) : string :=
  let scaled := (Qnum x * 10 ^ Z.of_nat d)%Z in
  let den := Z.pos (Qden x) in
  let q := (scaled / den)%Z in
  let r := (scaled mod den)%Z in
  let up := ((den <? 2 * r) || ((den =? 2 * r) && Z.odd q))%Z in
  let n := if up then (q + 1)%Z else q in
  match d with
  | O => str_of_Z n
  | _ =>
      let unit := (10 ^ Z.of_nat d)%Z in
      let frac := str_of_Z (n mod unit) in
      let pad := String.concat ""
                   (repeat "0" (d - String.length frac)) in
      str_of_Z (n / unit) ++ "." ++ pad ++ frac
  end.

(** Lexicographic [<] on [tuple[int, ...]]. *)
Fixpoint tuple_lt (a b : list Z) : bool :=
  match a, b with
  | [], [] => false
  | [], _ :: _ => true
  | _ :: _, [] => false
  | x :: a', y :: b' =>
      if (x <? y)%Z then true
      else if (y <? x)%Z then false
      else tuple_lt a' b'
  end.

End Py.

(* ================================================================== *)
(** * checks/base.py *)
(* ================================================================== *)

(** [class CheckStatus(Enum)] *)
Inductive CheckStatus := PASS | WARN | FAIL | SKIP.

(** [CheckStatus.value] *)
Definition CheckStatus_value (s : CheckStatus) : string :=
  match s with
  | PASS => "pass"
  | WARN => "warn"
  | FAIL => "fail"
  | SKIP => "skip"
  end.

Definition CheckStatus_eqb (a b : CheckStatus) : bool :=
  match a, b with
  | PASS, PASS | WARN, WARN | FAIL, FAIL | SKIP, SKIP => true
  | _, _ => false
  end.

(** [@dataclass class CheckResult] *)
Record CheckResult := mkCheckResult {
  name : string;
  status : CheckStatus;
  message : string;
  details : option string;
  can_auto_fix : bool;
  fix_suggestions : list string;
}.

(** [CheckResult.passed]: [self.status in (PASS, WARN)] *)
Definition passed (r : CheckResult) : bool :=
  CheckStatus_eqb (status r) PASS || CheckStatus_eqb (status r) WARN.

(** [CheckResult.is_warning] *)
Definition is_warning (r : CheckResult) : bool :=
  CheckStatus_eqb (status r) WARN.

(** The call [CheckResult(...)] through the [__init__] that [@dataclass]
    generates.  An argument is [None] when the caller omits it:
    [name], [status] and [message] have no default, so omitting one raises
    [TypeError]; [details], [can_auto_fix] and [fix_suggestions] fall back
    to [None], [False] and [field(default_factory=list)].  The class has no
    [__post_init__], so no argument is inspected. *)
Definition CheckResult_init
    (a_name : option string) (a_status : option CheckStatus)
    (a_message : option string) (a_details : option (option string))
    (a_can_auto_fix : option bool) (a_fix_suggestions : option (list string))
  : exn + CheckResult :=
  match a_name, a_status, a_message with
  | Some n, Some s, Some m =>
      inr {| name := n; status := s; message := m;
             details := match a_details with Some d => d | None => None end;
             can_auto_fix :=
               match a_can_auto_fix with Some b => b | None => false end;
             fix_suggestions :=
               match a_fix_suggestions with Some l => l | None => [] end |}
  | _, _, _ =>
      inl (Raise "TypeError"
             "__init__() missing required positional argument")
  end.

(** JSON-like values, for [to_dict]. *)
Inductive json :=
| JNull
| JBool (b : bool)
| JInt (n : nat)
| JStr (s : string)
| JList (l : list json)
| JObj (fields : list (string * json)).

(** [CheckResult.to_dict] *)
Definition to_dict (r : CheckResult) : json :=
  JObj [ ("name", JStr (name r));
         ("status", JStr (CheckStatus_value (status r)));
         ("message", JStr (message r));
         ("details", match details r with Some d => JStr d | None => JNull end);
         ("can_auto_fix", JBool (can_auto_fix r));
         ("fix_suggestions", JList (map JStr (fix_suggestions r))) ].

(* ================================================================== *)
(** * console.py, as seen by the command layer *)
(* ================================================================== *)

(** One call into the console module.  Rendering (panels, colours, the
    transient progress spinner) belongs to [rich]; the model records which
    helper was called and with what. *)
Inductive console_call :=
| Print (text : string)                     (* console.print(text) *)
| Rule (title : string)                     (* console.rule(...) *)
| PrintHeader
| PrintCheckResult (r_name : string) (r_passed : bool) (r_message : string)
                   (r_warning : bool) (r_details : option string)
| PrintFixAction (text : string)
| PrintSuggestion (title : string) (steps : list string)
| PrintSummary (n_passed n_warnings n_failed : nat)
| PrintError (text : string)
| PrintSuccess (text : string)
| PrintJSON (output : json)                 (* console.print(RichJSON(json.dumps(output))) *)
| ProgressAddTask (description : string) (total : nat)
| ProgressUpdate (description : string)
| ProgressAdvance.

(** What the process does that the properties speak about. *)
Inductive event :=
| EvInit (inst : nat) (cls : string)        (* check = check_class() *)
| EvRun (inst : nat)                        (* check.run() *)
| EvFix (inst : nat)                        (* check.fix() *)
| EvConsole (c : console_call).

(** How a command ends when it does not return: [raise typer.Exit(code)],
    or any other exception, which nothing in [main.py] catches. *)
Inductive raised :=
| Exit (code : Z)
| Uncaught (e : exn).

(* ================================================================== *)
(** * The probe contract and the command layer of main.py *)
(* ================================================================== *)

Section Orchestrator.

(** The machine outside the process: what probes inspect and what a
    remediation may change. *)
Variable World : Type.

(** What one call of [fix] does: its console output, its return value or
    the exception it raises, and the world it leaves behind. *)
Record fix_effect := mkFixEffect {
  fix_console : list console_call;
  fix_return : exn + bool;
  fix_world : World;
}.

(** A subclass of [BaseCheck]: the class attributes [name] and
    [description], the instance attributes set by [__init__], and the two
    abstract methods.  [run] stores what it discovered on the instance and
    returns a result or raises; [fix] reads the instance. *)
Record check_class := mkCheckClass {
  cls_name : string;
  cls_description : string;
  cls_state : Type;
  cls_init : cls_state;
  cls_run : cls_state -> World -> (exn + CheckResult) * cls_state;
  cls_fix : cls_state -> World -> fix_effect;
}.

(** A probe object: its identity, its class and its attributes. *)
Record instance := mkInstance {
  inst_id : nat;
  inst_class : check_class;
  inst_state : cls_state inst_class;
}.

Record machine := mkMachine {
  world : World;
  trace : list event;          (* oldest first *)
  next_instance : nat;
}.

Definition M (A : Type) : Type := machine -> (raised + A) * machine.

Definition ret {A} (a : A) : M A := fun m => (inr a, m).

Definition bind {A B} (c : M A) (k : A -> M B) : M B :=
  fun m =>
    match c m with
    | (inl r, m') => (inl r, m')
    | (inr a, m') => k a m'
    end.

Definition raise {A} (r : raised) : M A := fun m => (inl r, m).

Definition emit (e : event) : M unit :=
  fun m => (inr tt, {| world := world m;
                       trace := trace m ++ [e];
                       next_instance := next_instance m |}).

Definition console (c : console_call) : M unit := emit (EvConsole c).

Local Notation "x <- c ;; k" := (bind c (fun x => k))
  (at level 61, c at next level, right associativity).
Local Notation "c ;; k" := (bind c (fun _ => k))
  (at level 61, right associativity).

Fixpoint for_each {A} (l : list A) (body : A -> M unit) : M unit :=
  match l with
  | [] => ret tt
  | x :: l' => body x ;; for_each l' body
  end.

Definition when (b : bool) (c : M unit) : M unit :=
  if b then c else ret tt.

(** [check_class()] *)
Definition instantiate (c : check_class) : M instance :=
  fun m =>
    let i := next_instance m in
    (inr {| inst_id := i; inst_class := c; inst_state := cls_init c |},
     {| world := world m;
        trace := trace m ++ [EvInit i (cls_name c)];
        next_instance := S i |}).

(** [check.run()]: the result, with the object as [run] left it. *)
Definition call_run (o : instance) : M (CheckResult * instance) :=
  fun m =>
    let '(r, st) := cls_run (inst_class o) (inst_state o) (world m) in
    let m' := {| world := world m;
                 trace := trace m ++ [EvRun (inst_id o)];
                 next_instance := next_instance m |} in
    match r with
    | inl e => (inl (Uncaught e), m')
    | inr res =>
        (inr (res, {| inst_id := inst_id o; inst_class := inst_class o;
                      inst_state := st |}), m')
    end.

(** [check.fix()] *)
Definition call_fix (o : instance) : M bool :=
  fun m =>
    let eff := cls_fix (inst_class o) (inst_state o) (world m) in
    let m' := {| world := fix_world eff;
                 trace := trace m ++ EvFix (inst_id o)
                            :: map EvConsole (fix_console eff);
                 next_instance := next_instance m |} in
    match fix_return eff with
    | inl e => (inl (Uncaught e), m')
    | inr b => (inr b, m')
    end.

(** The registry imported from [checks/__init__.py] and the package's
    [__version__] (declared in the package [__init__.py]). *)
Variable ALL_CHECKS : list check_class.
Variable version__ : string.

(** ** run_all_checks

    The parameter [fix] of the commands is spelled [do_fix]. *)

(** The loop under [with create_progress() as progress:]. *)
Fixpoint run_loop (classes : list check_class) (results : list CheckResult)
  : M (list CheckResult) :=
  match classes with
  | [] => ret results
  | check_class :: rest =>
      check <- instantiate check_class ;;
      console (ProgressUpdate
                 ("Checking " ++ cls_name (inst_class check) ++ "...")) ;;
      rc <- call_run check ;;
      let result := fst rc in
      console ProgressAdvance ;;
      run_loop rest (results ++ [result])
  end.

(** The loop under [# Display results], which also tallies. *)
Fixpoint display_loop (verbose : bool) (results : list CheckResult)
    (n_passed n_warnings n_failed : nat) : M (nat * nat * nat) :=
  match results with
  | [] => ret (n_passed, n_warnings, n_failed)
  | result :: rest =>
      console (PrintCheckResult (name result) (passed result)
                 (message result) (is_warning result)
                 (if verbose then details result else None)) ;;
      if CheckStatus_eqb (status result) PASS
      then display_loop verbose rest (n_passed + 1) n_warnings n_failed
      else if CheckStatus_eqb (status result) WARN
      then display_loop verbose rest n_passed (n_warnings + 1) n_failed
      else display_loop verbose rest n_passed n_warnings (n_failed + 1)
  end.

(** [not r.passed or r.is_warning] *)
Definition fixable (r : CheckResult) : bool :=
  negb (passed r) || is_warning r.

(** [next((c for c in ALL_CHECKS if c.name == result.name), None)] *)
Definition class_named (n : string) : option check_class :=
  find (fun c => cls_name c =? n) ALL_CHECKS.

(** The body of [for result in fixable_results:]. *)
Definition fix_one (result : CheckResult) : M unit :=
  if can_auto_fix result then
    match class_named (name result) with
    | Some check_class =>
        check <- instantiate check_class ;;
        rc <- call_run check ;;             (* Re-run to populate state *)
        let check := snd rc in
        console (PrintFixAction ("Attempting to fix: " ++ name result)) ;;
        success <- call_fix check ;;
        when success (console (PrintSuccess (name result ++ " fixed!"))) ;;
        console (Print "")
    | None => ret tt
    end
  else if Py.truthy_list (fix_suggestions result) then
    console (Print ("[bold]" ++ name result
                      ++ "[/bold] - Manual fix required:")) ;;
    for_each (fix_suggestions result)
      (fun suggestion =>
         console (Print ("  [dim]•[/dim] " ++ suggestion))) ;;
    console (Print "")
  else ret tt.

Definition run_all_checks (do_fix verbose : bool)
  : M (list CheckResult * nat * nat * nat) :=
  console (ProgressAddTask "Running health checks..." (length ALL_CHECKS)) ;;
  results <- run_loop ALL_CHECKS [] ;;
  counts <- display_loop verbose results 0 0 0 ;;
  let '(n_passed, n_warnings, n_failed) := counts in
  when do_fix
    (let fixable_results := filter fixable results in
     when (Py.truthy_list fixable_results)
       (console (Print "") ;;
        console (Rule "[bold magenta]Auto-Fix[/bold magenta]") ;;
        console (Print "") ;;
        for_each fixable_results fix_one)) ;;
  ret (results, n_passed, n_warnings, n_failed).

(** ** doctor *)

(** The loop of the [if json_output:] branch. *)
Fixpoint json_loop (classes : list check_class) (results : list CheckResult)
  : M (list CheckResult) :=
  match classes with
  | [] => ret results
  | check_class :: rest =>
      check <- instantiate check_class ;;
      rc <- call_run check ;;
      json_loop rest (results ++ [fst rc])
  end.

(** [sum(1 for r in results if r.status == s)] *)
Definition count_status (s : CheckStatus) (results : list CheckResult) : nat :=
  length (filter (fun r => CheckStatus_eqb (status r) s) results).

Definition json_summary (results : list CheckResult) : nat * nat * nat :=
  (count_status PASS results, count_status WARN results,
   count_status FAIL results).

Definition json_document (results : list CheckResult) : json :=
  let '(p, w, f) := json_summary results in
  JObj [ ("version", JStr version__);
         ("checks", JList (map to_dict results));
         ("summary", JObj [ ("passed", JInt p); ("warnings", JInt w);
                            ("failed", JInt f) ]) ].

Definition doctor (do_fix verbose json_output : bool) : M unit :=
  if json_output then
    results <- json_loop ALL_CHECKS [] ;;
    let output := json_document results in
    console (PrintJSON output) ;;
    if (0 <? count_status FAIL results)%nat then raise (Exit 1) else ret tt
  else
    console PrintHeader ;;
    r <- run_all_checks do_fix verbose ;;
    let '(results, n_passed, n_warnings, n_failed) := r in
    console (PrintSummary n_passed n_warnings n_failed) ;;
    if (0 <? n_failed)%nat then raise (Exit 1) else ret tt.

(** ** callback *)

Definition callback (invoked_subcommand : option string)
    (do_fix verbose json_output version : bool) : M unit :=
  if version then
    console (Print ("openclaw-doctor v" ++ version__)) ;;
    raise (Exit 0)
  else
    match invoked_subcommand with
    | None => doctor do_fix verbose json_output
    | Some _ => ret tt
    end.

(** ** check *)

Definition name_map : list (string * string) :=
  [ ("nodejs", "Node.js"); ("node", "Node.js");
    ("openclaw", "OpenClaw"); ("claw", "OpenClaw");
    ("docker", "Docker");
    ("system", "System");
    ("config", "Config"); ("configuration", "Config");
    ("api_keys", "API Keys"); ("apikeys", "API Keys"); ("keys", "API Keys");
    ("network", "Network"); ("net", "Network") ].

(** [name_map.get(key)] *)
Fixpoint dict_get (d : list (string * string)) (key : string)
  : option string :=
  match d with
  | [] => None
  | (k, v) :: d' => if k =? key then Some v else dict_get d' key
  end.

(** [name.lower().replace("-", "_").replace(" ", "_")] *)
Definition normalize (check_name : string) : string :=
  Py.replace_char " " "_" (Py.replace_char "-" "_" (Py.lower check_name)).

(** [cls.name == target_name], where [target_name] may be [None]. *)
Definition eq_target (n : string) (target_name : option string) : bool :=
  match target_name with
  | Some t => n =? t
  | None => false
  end.

(** The search loop of [check]: the first class that matches, if any. *)
Definition find_check (check_name : string) : option check_class :=
  let name_lower := normalize check_name in
  let target_name := dict_get name_map name_lower in
  find (fun cls => eq_target (cls_name cls) target_name
                   || (Py.lower (cls_name cls) =? name_lower))
       ALL_CHECKS.

Definition available_line (cls : check_class) : string :=
  "  • " ++ Py.replace_char " " "_" (Py.lower (cls_name cls))
    ++ " - " ++ cls_description cls.

Definition check (check_name : string) (do_fix verbose : bool) : M unit :=
  match find_check check_name with
  | None =>
      console (PrintError ("Unknown check: " ++ check_name)) ;;
      console (Print "
Available checks:") ;;
      for_each ALL_CHECKS (fun cls => console (Print (available_line cls))) ;;
      raise (Exit 1)
  | Some check_class =>
      console PrintHeader ;;
      check <- instantiate check_class ;;
      rc <- call_run check ;;
      let '(result, check) := rc in
      console (PrintCheckResult (name result) (passed result)
                 (message result) (is_warning result)
                 (if verbose then details result else None)) ;;
      when (do_fix && (negb (passed result) || is_warning result))
        (console (Print "") ;;
         if can_auto_fix result then
           console (PrintFixAction ("Attempting to fix: " ++ name result)) ;;
           success <- call_fix check ;;
           when success (console (PrintSuccess (name result ++ " fixed!")))
         else if Py.truthy_list (fix_suggestions result) then
           console (Print "[bold]Manual fix required:[/bold]") ;;
           for_each (fix_suggestions result)
             (fun suggestion =>
                console (Print ("  [dim]•[/dim] " ++ suggestion)))
         else ret tt) ;;
      if CheckStatus_eqb (status result) FAIL then raise (Exit 1) else ret tt
  end.

(** ** list_checks *)

Definition list_checks : M unit :=
  console (Print "
[bold]Available Health Checks:[/bold]
") ;;
  for_each ALL_CHECKS
    (fun check_class =>
       console (Print ("  [cyan]" ++ cls_name check_class ++ "[/cyan]")) ;;
       console (Print ("    " ++ cls_description check_class)) ;;
       console (Print "")).

End Orchestrator.

Arguments ret {World A} a.
Arguments bind {World A B} c k.
Arguments raise {World A} r.

(* ================================================================== *)
(** * The machine the probes inspect *)
(* ================================================================== *)

(** From here on [++] joins strings unless marked [%list]. *)
Open Scope string_scope.

(** [subprocess.run(...)]: it completes, or raises. *)
Inductive proc_result :=
| Completed (returncode : Z) (stdout stderr : string)
| TimeoutExpired
| FileNotFoundError
| ProcRaises (e : exn).

(** One [client.head(url)] under [httpx.Client(timeout=10.0)]. *)
Inductive http_result :=
| Responded
| TimeoutException
| ConnectError
| HttpRaises (type_name : string).

(** A document as [json.loads] / [yaml.safe_load] return it (floats are left
    out: the code below tests a value only for truth and for membership,
    where a float does what an [int] does; so are mapping keys that are
    not strings). *)
Inductive pyval :=
| PyNone
| PyBool (b : bool)
| PyInt (z : Z)
| PyStr (s : string)
| PyList (l : list pyval)
| PyDict (d : list (string * pyval)).

(** What the private helpers that talk to the machine return (or raise)
    when called now.  The helpers are [_get_node_info],
    [_get_openclaw_info], [_get_home_directory], [_check_docker],
    [_check_compose], [_find_config], [_parse_config], [_check_env_keys],
    [_check_env_file], [_check_config_keys], the [psutil] / [shutil] calls
    of [SystemCheck.run], the requests of [NetworkCheck.run] and the
    commands issued by the [fix] methods. *)
Record observations := mkObservations {
  sys_platform : string;
  (* NodeJSCheck *)
  node_info : exn + (option string * option (list Z));
  (* OpenClawCheck *)
  openclaw_info : exn + (option string * option string);
  openclaw_home : exn + option string;
  install_script : proc_result;
  (* DockerCheck *)
  docker_info : exn + (option string * bool);
  compose_info : exn + option string;
  open_docker : proc_result;
  systemctl_start_docker : proc_result;
  (* SystemCheck *)
  mem_total : exn + Z;                 (* psutil.virtual_memory().total *)
  disk_free : exn + Z;                 (* shutil.disk_usage(path).free *)
  cpu_count_physical : option Z;       (* psutil.cpu_count(logical=False) *)
  cpu_count_logical : option Z;        (* psutil.cpu_count() *)
  (* ConfigCheck *)
  found_config : exn + option string;
  parsed_config : exn + pyval;
  home : string;                       (* Path.home() *)
  write_default_config : option exn;   (* mkdir + open + yaml.dump *)
  (* APIKeysCheck *)
  env_keys : exn + (list string * list string);
  env_file : exn + (list string * option string);
  config_keys : exn + list string;
  (* NetworkCheck *)
  head_request : string -> http_result;
}.

(** The world is what can be observed now, followed by what will be
    observed after each command that changes the machine (an installer, a
    daemon start, a file creation).  When the list is exhausted the
    machine no longer changes. *)
Record World := mkWorld {
  now : observations;
  later : list observations;
}.

Definition changed (w : World) : World :=
  match later w with
  | [] => w
  | o :: l => {| now := o; later := l |}
  end.

Definition platform (w : World) : string := sys_platform (now w).

(** A [fix] that only prints. *)
Definition prints (w : World) (out : list console_call) (b : bool)
  : fix_effect World :=
  {| fix_console := out; fix_return := inr b; fix_world := w |}.

(** [f"{x}"] for [x : str | None]. *)
Definition fmt (x : option string) : string :=
  match x with Some s => s | None => "None" end.

(** Results are built with [mkCheckResult name status message details
    can_auto_fix fix_suggestions]; an argument the source omits is written
    as its default ([None], [false], [[]]). *)

(* ================================================================== *)
(** * checks/nodejs.py *)
(* ================================================================== *)

Module NodeJSCheck.

Definition name := "Node.js".
Definition description := "Verifies Node.js >= 18.x is installed".
Definition min_version : list Z := [18; 0; 0]%Z.

Record state := mkState {
  _version : option (list Z);
  _path : option string;
}.

Definition __init__ : state := {| _version := None; _path := None |}.

Definition _get_install_suggestions (w : World) : list string :=
  if platform w =? "darwin" then
    [ "Install via Homebrew: brew install node";
      "Or use nvm: curl -o- https://raw.githubusercontent.com/nvm-sh/nvm/v0.39.0/install.sh | bash";
      "Then: nvm install 20" ]
  else if platform w =? "win32" then
    [ "Download from: https://nodejs.org/en/download/";
      "Or use winget: winget install OpenJS.NodeJS.LTS";
      "Or use nvm-windows: https://github.com/coreybutler/nvm-windows" ]
  else
    [ "Install via nvm: curl -o- https://raw.githubusercontent.com/nvm-sh/nvm/v0.39.0/install.sh | bash";
      "Then: nvm install 20";
      "Or via package manager (Ubuntu): sudo apt install nodejs npm" ].

(** [".".join(str(v) for v in version)] *)
Definition dotted (version : list Z) : string :=
  Py.join "." (map Py.str_of_Z version).

Definition run (self : state) (w : World) : (exn + CheckResult) * state :=
  match node_info (now w) with
  | inl e => (inl e, self)
  | inr (path, version) =>
      let self := {| _version := version; _path := path |} in
      if negb (Py.truthy_str (_path self)) then
        (inr (mkCheckResult name FAIL "Node.js is not installed"
                (Some "OpenClaw requires Node.js >= 18.x")
                true (_get_install_suggestions w)), self)
      else
        match _version self with
        | None | Some [] =>
            (inr (mkCheckResult name WARN
                    "Node.js found but version could not be determined"
                    (Some ("Path: " ++ fmt (_path self)))
                    false ["Try running 'node --version' manually"]), self)
        | Some v =>
            let version_str := dotted v in
            if Py.tuple_lt v min_version then
              let min_str := dotted min_version in
              (inr (mkCheckResult name FAIL
                      ("Node.js v" ++ version_str ++ " is below minimum v"
                         ++ min_str)
                      None true (_get_install_suggestions w)), self)
            else
              (inr (mkCheckResult name PASS
                      ("Node.js v" ++ version_str ++ " installed")
                      (Some ("Path: " ++ fmt (_path self)))
                      false []), self)
        end
  end.

Definition fix_ (self : state) (w : World) : fix_effect World :=
  prints w
    [ PrintSuggestion "Install Node.js" (_get_install_suggestions w);
      (* Can't auto-install Node.js, but we show suggestions *)
      Print "
[dim]After installing Node.js, run openclaw-doctor again.[/dim]" ]
    false.

Definition cls : check_class World :=
  {| cls_name := name; cls_description := description;
     cls_init := __init__; cls_run := run; cls_fix := fix_ |}.

End NodeJSCheck.

(* ================================================================== *)
(** * checks/openclaw.py *)
(* ================================================================== *)

Module OpenClawCheck.

Definition name := "OpenClaw".
Definition description := "Checks OpenClaw CLI installation".

Record state := mkState {
  _version : option string;
  _path : option string;
  _home_dir : option string;
}.

Definition __init__ : state :=
  {| _version := None; _path := None; _home_dir := None |}.

Definition run (self : state) (w : World) : (exn + CheckResult) * state :=
  match openclaw_info (now w) with
  | inl e => (inl e, self)
  | inr (path, version) =>
      let self := {| _version := version; _path := path;
                     _home_dir := _home_dir self |} in
      match openclaw_home (now w) with
      | inl e => (inl e, self)
      | inr home_dir =>
          let self := {| _version := _version self; _path := _path self;
                         _home_dir := home_dir |} in
          if negb (Py.truthy_str (_path self)) then
            (inr (mkCheckResult name FAIL "OpenClaw CLI is not installed"
                    None true
                    [ "Run the OpenClaw installer:";
                      "curl -fsSL https://openclawd.ai/install.sh | bash";
                      "Or visit: https://github.com/openclaw/openclaw" ]),
             self)
          else if negb (Py.truthy_str (_version self)) then
            (inr (mkCheckResult name WARN
                    "OpenClaw found but version could not be determined"
                    (Some ("Path: " ++ fmt (_path self)))
                    false ["Try running 'openclaw --version' manually"]),
             self)
          else
            let details := "Path: " ++ fmt (_path self) in
            let details :=
              match _home_dir self with
              | Some h => details ++ "
Home: " ++ h
              | None => details
              end in
            (inr (mkCheckResult name PASS
                    ("OpenClaw v" ++ fmt (_version self) ++ " installed")
                    (Some details) false []), self)
      end
  end.

Definition fix_ (self : state) (w : World) : fix_effect World :=
  if platform w =? "win32" then
    prints w
      [ PrintSuggestion "Install OpenClaw on Windows"
          [ "Open PowerShell as Administrator";
            "Run: iwr -useb https://openclawd.ai/install.ps1 | iex";
            "Or download from: https://github.com/openclaw/openclaw/releases" ] ]
      false
  else
    let started :=
      [ PrintFixAction "Attempting to install OpenClaw...";
        Print "[dim]Running install script...[/dim]" ] in
    match install_script (now w) with
    | Completed returncode _ stderr =>
        if (returncode =? 0)%Z then
          prints (changed w)
            (started ++ [Print "[green]OpenClaw installed successfully![/green]"])%list
            true
        else
          prints (changed w)
            (started ++
             [ Print ("[red]Installation failed:[/red] " ++ stderr);
               PrintSuggestion "Manual Installation"
                 [ "Visit: https://github.com/openclaw/openclaw";
                   "Follow the installation instructions for your OS" ] ])%list
            false
    | TimeoutExpired =>
        prints (changed w)
          (started ++ [Print "[red]Installation timed out[/red]"])%list false
    | FileNotFoundError =>
        prints w
          (started ++
           [ PrintSuggestion "Install OpenClaw"
               [ "curl -fsSL https://openclawd.ai/install.sh | bash";
                 "Or visit: https://github.com/openclaw/openclaw" ] ])%list
          false
    | ProcRaises e =>
        {| fix_console := started; fix_return := inl e; fix_world := w |}
    end.

Definition cls : check_class World :=
  {| cls_name := name; cls_description := description;
     cls_init := __init__; cls_run := run; cls_fix := fix_ |}.

End OpenClawCheck.

(* ================================================================== *)
(** * checks/docker.py *)
(* ================================================================== *)

Module DockerCheck.

Definition name := "Docker".
Definition description := "Validates Docker & Compose setup (optional)".

Record state := mkState {
  _docker_version : option string;
  _compose_version : option string;
  _docker_running : bool;
}.

Definition __init__ : state :=
  {| _docker_version := None; _compose_version := None;
     _docker_running := false |}.

Definition _get_install_suggestions (w : World) : list string :=
  if platform w =? "darwin" then
    [ "Install Docker Desktop: https://www.docker.com/products/docker-desktop/";
      "Or via Homebrew: brew install --cask docker" ]
  else if platform w =? "win32" then
    [ "Install Docker Desktop: https://www.docker.com/products/docker-desktop/";
      "Or via winget: winget install Docker.DockerDesktop" ]
  else
    [ "Install Docker: https://docs.docker.com/engine/install/";
      "For Ubuntu: sudo apt install docker.io docker-compose-v2";
      "Then: sudo systemctl enable --now docker" ].

Definition run (self : state) (w : World) : (exn + CheckResult) * state :=
  match docker_info (now w) with
  | inl e => (inl e, self)
  | inr (version, running) =>
      let self := {| _docker_version := version;
                     _compose_version := _compose_version self;
                     _docker_running := running |} in
      match compose_info (now w) with
      | inl e => (inl e, self)
      | inr compose =>
          let self := {| _docker_version := _docker_version self;
                         _compose_version := compose;
                         _docker_running := _docker_running self |} in
          (* Docker is optional for OpenClaw *)
          if negb (Py.truthy_str (_docker_version self)) then
            (inr (mkCheckResult name WARN
                    "Docker is not installed (optional for desktop use)"
                    (Some "Docker is only required for server deployments")
                    false (_get_install_suggestions w)), self)
          else if negb (_docker_running self) then
            (inr (mkCheckResult name WARN
                    ("Docker " ++ fmt (_docker_version self)
                       ++ " installed but not running")
                    None true
                    ["Start Docker Desktop or the Docker daemon"]), self)
          else
            let details := "Docker " ++ fmt (_docker_version self) in
            let details :=
              if Py.truthy_str (_compose_version self)
              then details ++ ", Compose " ++ fmt (_compose_version self)
              else details ++ " (Compose not found)" in
            (inr (mkCheckResult name PASS
                    ("Docker " ++ fmt (_docker_version self) ++ " running")
                    (Some details) false []), self)
      end
  end.

Definition start_manually : console_call :=
  PrintSuggestion "Start Docker Manually"
    [ "On macOS: Open Docker Desktop application";
      "On Linux: sudo systemctl start docker";
      "On Windows: Start Docker Desktop from Start Menu" ].

Definition fix_ (self : state) (w : World) : fix_effect World :=
  if negb (Py.truthy_str (_docker_version self)) then
    prints w [PrintSuggestion "Install Docker" (_get_install_suggestions w)]
      false
  else if negb (_docker_running self) then
    let started := [PrintFixAction "Attempting to start Docker..."] in
    if platform w =? "darwin" then
      match open_docker (now w) with
      | Completed _ _ _ =>
          prints (changed w)
            (started ++
             [ Print "[dim]Docker Desktop is starting...[/dim]";
               Print "[dim]Please wait a moment and run openclaw-doctor again.[/dim]" ])%list
            true
      | TimeoutExpired => prints (changed w) (started ++ [start_manually])%list false
      | FileNotFoundError | ProcRaises _ =>   (* except Exception: pass *)
          prints w (started ++ [start_manually])%list false
      end
    else if platform w =? "linux" then
      match systemctl_start_docker (now w) with
      | Completed returncode _ _ =>
          if (returncode =? 0)%Z then
            prints (changed w)
              (started ++ [Print "[green]Docker daemon started![/green]"])%list
              true
          else prints (changed w) (started ++ [start_manually])%list false
      | TimeoutExpired => prints (changed w) (started ++ [start_manually])%list false
      | FileNotFoundError | ProcRaises _ =>   (* except Exception: pass *)
          prints w (started ++ [start_manually])%list false
      end
    else prints w (started ++ [start_manually])%list false
  else prints w [] false.

Definition cls : check_class World :=
  {| cls_name := name; cls_description := description;
     cls_init := __init__; cls_run := run; cls_fix := fix_ |}.

End DockerCheck.

(* ================================================================== *)
(** * checks/system.py *)
(* ================================================================== *)

Module SystemCheck.

Definition name := "System".
Definition description := "RAM (2GB+), Disk (20GB+), CPU".

(* Minimum requirements *)
Definition MIN_RAM_GB : Z := 2.
Definition RECOMMENDED_RAM_GB : Z := 4.
Definition MIN_DISK_GB : Z := 20.
Definition MIN_CPU_CORES : Z := 2.

Record state := mkState {
  _ram_gb : Q;
  _disk_gb : Q;
  _cpu_cores : Z;
  _issues : list string;
  _warnings : list string;
}.

Definition __init__ : state :=
  {| _ram_gb := 0; _disk_gb := 0; _cpu_cores := 0;
     _issues := []; _warnings := [] |}.

(** [n / (1024 ** 3)] *)
Definition to_gb (n : Z) : Q := Qmake n (Z.to_pos (1024 ^ 3)).

Definition lt_int (x : Q) (n : Z) : bool := Py.Qltb x (inject_Z n).

Definition _get_suggestions (self : state) : list string :=
  let suggestions := [] in
  let suggestions :=
    if lt_int (_ram_gb self) RECOMMENDED_RAM_GB
    then
      let line := "Consider upgrading to " ++ Py.str_of_Z RECOMMENDED_RAM_GB
                    ++ "GB+ RAM for better performance" in
      (suggestions ++ [line])%list
    else suggestions in
  let suggestions :=
    if lt_int (_disk_gb self) MIN_DISK_GB
    then (suggestions ++
          [ "Free up disk space by:";
            "  - Removing unused applications";
            "  - Clearing temporary files";
            "  - Moving large files to external storage" ])%list
    else suggestions in
  suggestions.

Definition set_memory (self : state) (ram : Q) (issues warnings : list string)
  : state :=
  {| _ram_gb := ram; _disk_gb := _disk_gb self;
     _cpu_cores := _cpu_cores self;
     _issues := issues; _warnings := warnings |}.

Definition run (self : state) (w : World) : (exn + CheckResult) * state :=
  let self := set_memory self (_ram_gb self) [] [] in
  (* Check RAM *)
  match mem_total (now w) with
  | inl e => (inl e, self)
  | inr total =>
      let ram := to_gb total in
      let issues :=
        if lt_int ram MIN_RAM_GB
        then [ "RAM: " ++ Py.format_f 1 ram ++ "GB (minimum "
                 ++ Py.str_of_Z MIN_RAM_GB ++ "GB required)" ]
        else [] in
      let warnings :=
        if lt_int ram MIN_RAM_GB then []
        else if lt_int ram RECOMMENDED_RAM_GB
        then [ "RAM: " ++ Py.format_f 1 ram ++ "GB (recommended "
                 ++ Py.str_of_Z RECOMMENDED_RAM_GB ++ "GB+)" ]
        else [] in
      let self := set_memory self ram issues warnings in
      (* Check disk space *)
      match disk_free (now w) with
      | inl e => (inl e, self)
      | inr free =>
          let disk := to_gb free in
          let issues :=
            if lt_int disk MIN_DISK_GB
            then
              let line := "Disk: " ++ Py.format_f 1 disk
                            ++ "GB free (minimum "
                            ++ Py.str_of_Z MIN_DISK_GB ++ "GB required)" in
              (_issues self ++ [line])%list
            else _issues self in
          (* Check CPU cores *)
          let cores :=
            Py.or_int (cpu_count_physical (now w))
              (Py.or_int (cpu_count_logical (now w)) 1) in
          let warnings :=
            if (cores <? MIN_CPU_CORES)%Z
            then
              let line := "CPU: " ++ Py.str_of_Z cores
                            ++ " cores (recommended "
                            ++ Py.str_of_Z MIN_CPU_CORES ++ "+)" in
              (_warnings self ++ [line])%list
            else _warnings self in
          let self := {| _ram_gb := ram; _disk_gb := disk;
                         _cpu_cores := cores;
                         _issues := issues; _warnings := warnings |} in
          (* Build result *)
          if Py.truthy_list (_issues self) then
            (inr (mkCheckResult name FAIL
                    "System does not meet minimum requirements"
                    (Some (Py.join "
" (_issues self ++ _warnings self)%list))
                    false (_get_suggestions self)), self)
          else
            let summary :=
              Py.format_f 1 (_ram_gb self) ++ "GB RAM, "
                ++ Py.format_f 0 (_disk_gb self) ++ "GB free, "
                ++ Py.str_of_Z (_cpu_cores self) ++ " cores" in
            if Py.truthy_list (_warnings self) then
              (inr (mkCheckResult name WARN
                      ("System meets minimum requirements (" ++ summary ++ ")")
                      (Some (Py.join "
" (_warnings self)))
                      false (_get_suggestions self)), self)
            else
              (inr (mkCheckResult name PASS
                      ("System requirements met (" ++ summary ++ ")")
                      None false []), self)
      end
  end.

(** Cannot auto-fix hardware limitations. *)
Definition fix_ (self : state) (w : World) : fix_effect World :=
  prints w
    [ PrintSuggestion "System Requirements"
        (if Py.truthy_list (_get_suggestions self)
         then _get_suggestions self
         else [ "Your system meets the minimum requirements.";
                "For best performance, ensure you have 4GB+ RAM and 20GB+ free disk space." ]) ]
    false.

Definition cls : check_class World :=
  {| cls_name := name; cls_description := description;
     cls_init := __init__; cls_run := run; cls_fix := fix_ |}.

End SystemCheck.

(* ================================================================== *)
(** * checks/config.py *)
(* ================================================================== *)

Module ConfigCheck.

Definition name := "Config".
Definition description := "Validates OpenClaw configuration".

(* Required config fields *)
Definition REQUIRED_FIELDS : list string := ["provider"].
Definition OPTIONAL_FIELDS : list string := ["model"; "channels"; "skills"].

Record state := mkState {
  _config_path : option string;
  _config : pyval;
  _missing_fields : list string;
}.

Definition __init__ : state :=
  {| _config_path := None; _config := PyNone; _missing_fields := [] |}.

(** [not v] *)
Definition falsy (v : pyval) : bool :=
  match v with
  | PyNone => true
  | PyBool b => negb b
  | PyInt z => (z =? 0)%Z
  | PyStr s => s =? ""
  | PyList l => negb (Py.truthy_list l)
  | PyDict d => negb (Py.truthy_list d)
  end.

(** [field in config] *)
Definition contains_field (field : string) (config : pyval) : exn + bool :=
  match config with
  | PyDict d => inr (existsb (fun kv => fst kv =? field) d)
  | PyList l =>
      inr (existsb (fun v => match v with
                             | PyStr s => s =? field
                             | _ => false
                             end) l)
  | PyStr s => inr (Py.contains field s)
  | PyNone | PyBool _ | PyInt _ =>
      inl (Raise "TypeError" "argument is not iterable")
  end.

(** [config[field]] *)
Definition getitem (config : pyval) (field : string) : exn + pyval :=
  match config with
  | PyDict d =>
      match find (fun kv => fst kv =? field) d with
      | Some kv => inr (snd kv)
      | None => inl (Raise "KeyError" field)
      end
  | PyList _ | PyStr _ =>
      inl (Raise "TypeError" "indices must be integers")
  | PyNone | PyBool _ | PyInt _ =>
      inl (Raise "TypeError" "object is not subscriptable")
  end.

(** [field not in config or not config[field]] *)
Definition is_missing (config : pyval) (field : string) : exn + bool :=
  match contains_field field config with
  | inl e => inl e
  | inr false => inr true
  | inr true =>
      match getitem config field with
      | inl e => inl e
      | inr v => inr (falsy v)
      end
  end.

Fixpoint collect_missing (config : pyval) (fields missing : list string)
  : exn + list string :=
  match fields with
  | [] => inr missing
  | field :: rest =>
      match is_missing config field with
      | inl e => inl e
      | inr true => collect_missing config rest (missing ++ [field])%list
      | inr false => collect_missing config rest missing
      end
  end.

Definition _validate_config (config : pyval) : exn + list string :=
  collect_missing config REQUIRED_FIELDS [].

(** [except ValueError] also catches the subclasses a parse can raise. *)
Definition is_ValueError (e : exn) : bool :=
  match e with
  | Raise c _ =>
      (c =? "ValueError") || (c =? "UnicodeDecodeError")
      || (c =? "JSONDecodeError")
  end.

Definition str_of_exn (e : exn) : string :=
  match e with Raise _ msg => msg end.

Definition run (self : state) (w : World) : (exn + CheckResult) * state :=
  match found_config (now w) with
  | inl e => (inl e, self)
  | inr config_path =>
      let self := {| _config_path := config_path; _config := _config self;
                     _missing_fields := _missing_fields self |} in
      match _config_path self with
      | None =>
          (inr (mkCheckResult name WARN "No OpenClaw config file found"
                  (Some "Config will be created during OpenClaw setup")
                  true
                  [ "Run 'openclaw init' to create initial config";
                    "Or create ~/.openclaw/config.yaml manually" ]), self)
      | Some path =>
          match parsed_config (now w) with
          | inl e =>
              if is_ValueError e then
                (inr (mkCheckResult name FAIL "Config file has syntax errors"
                        (Some (str_of_exn e)) false
                        [ "Fix the syntax errors in: " ++ path;
                          "Use a YAML/JSON validator to check the file" ]),
                 self)
              else (inl e, self)
          | inr config =>
              let self := {| _config_path := _config_path self;
                             _config := config;
                             _missing_fields := _missing_fields self |} in
              if falsy (_config self) then
                (inr (mkCheckResult name WARN "Config file is empty"
                        (Some ("Path: " ++ path)) true
                        [ "Add configuration to the file or run 'openclaw init'" ]),
                 self)
              else
                match _validate_config (_config self) with
                | inl e => (inl e, self)
                | inr missing =>
                    let self := {| _config_path := _config_path self;
                                   _config := _config self;
                                   _missing_fields := missing |} in
                    if Py.truthy_list (_missing_fields self) then
                      (inr (mkCheckResult name WARN
                              ("Config missing fields: "
                                 ++ Py.join ", " (_missing_fields self))
                              (Some ("Path: " ++ path)) false
                              [ "Add the following to your config: "
                                  ++ Py.join ", " (_missing_fields self);
                                "Run 'openclaw init' to reconfigure" ]),
                       self)
                    else
                      (inr (mkCheckResult name PASS "Configuration valid"
                              (Some ("Path: " ++ path)) false []), self)
                end
          end
      end
  end.

Definition fix_ (self : state) (w : World) : fix_effect World :=
  match _config_path self with
  | None =>
      (* Create default config directory *)
      let config_path := home (now w) ++ "/.openclaw/config.yaml" in
      let started := PrintFixAction "Creating default OpenClaw config..." in
      match write_default_config (now w) with
      | None =>
          prints (changed w)
            [ started;
              Print ("[green]Created config at:[/green] " ++ config_path);
              Print "[dim]Edit this file to add your API keys and configure channels.[/dim]" ]
            true
      | Some e =>
          prints (changed w)
            [ started;
              Print ("[red]Failed to create config:[/red] " ++ str_of_exn e) ]
            false
      end
  | Some path =>
      prints w
        [ PrintSuggestion "Fix Config Issues"
            [ "Edit your config file: " ++ path;
              "Or run 'openclaw init' to reconfigure" ] ]
        false
  end.

Definition cls : check_class World :=
  {| cls_name := name; cls_description := description;
     cls_init := __init__; cls_run := run; cls_fix := fix_ |}.

End ConfigCheck.

(* ================================================================== *)
(** * checks/api_keys.py *)
(* ================================================================== *)

Module APIKeysCheck.

Definition name := "API Keys".
Definition description := "Checks AI provider keys configured".

Record state := mkState {
  _found_keys : list string;
  _invalid_keys : list string;
  _config_keys : list string;
  _env_file_keys : list string;
  _env_file_path : option string;
}.

Definition __init__ : state :=
  {| _found_keys := []; _invalid_keys := []; _config_keys := [];
     _env_file_keys := []; _env_file_path := None |}.

(** Return a safe display name for the key. *)
Definition _mask_key_name (key_name : string) : string :=
  Py.title (Py.replace_char "_" " " (Py.replace "_API_KEY" "" key_name)).

Definition run (self : state) (w : World) : (exn + CheckResult) * state :=
  match env_keys (now w) with
  | inl e => (inl e, self)
  | inr (found, invalid) =>
      let self := {| _found_keys := found; _invalid_keys := invalid;
                     _config_keys := _config_keys self;
                     _env_file_keys := _env_file_keys self;
                     _env_file_path := _env_file_path self |} in
      match env_file (now w) with
      | inl e => (inl e, self)
      | inr (file_keys, file_path) =>
          let self := {| _found_keys := _found_keys self;
                         _invalid_keys := _invalid_keys self;
                         _config_keys := _config_keys self;
                         _env_file_keys := file_keys;
                         _env_file_path := file_path |} in
          match config_keys (now w) with
          | inl e => (inl e, self)
          | inr in_config =>
              let self := {| _found_keys := _found_keys self;
                             _invalid_keys := _invalid_keys self;
                             _config_keys := in_config;
                             _env_file_keys := _env_file_keys self;
                             _env_file_path := _env_file_path self |} in
              let all_keys :=
                (_found_keys self ++ _env_file_keys self
                   ++ _config_keys self)%list in
              if Py.truthy_list (_invalid_keys self) then
                (inr (mkCheckResult name WARN
                        ("Some API keys appear invalid: "
                           ++ Py.join ", " (_invalid_keys self))
                        (Some "Keys may be malformed or using old format")
                        false
                        [ "Verify your API keys are correct";
                          "Get new keys from your AI provider's dashboard" ]),
                 self)
              else if negb (Py.truthy_list all_keys) then
                (inr (mkCheckResult name WARN
                        "No AI provider API keys found"
                        (Some "OpenClaw requires at least one AI provider API key")
                        true
                        [ "Set environment variable: export ANTHROPIC_API_KEY=your_key";
                          "Or create ~/.openclaw/.env file with your keys";
                          "Or add to ~/.openclaw/config.yaml";
                          "Get API keys from:";
                          "  - Anthropic: https://console.anthropic.com/";
                          "  - OpenAI: https://platform.openai.com/";
                          "  - Google: https://aistudio.google.com/" ]),
                 self)
              else
                (* Mask keys for display *)
                let masked := map _mask_key_name all_keys in
                (inr (mkCheckResult name PASS
                        ("API keys configured ("
                           ++ Py.str_of_nat (length all_keys) ++ " found)")
                        (Some ("Found: " ++ Py.join ", " masked))
                        false []), self)
          end
      end
  end.

(** Guide user to set up API keys. *)
Definition fix_ (self : state) (w : World) : fix_effect World :=
  prints w
    ([ Print "
[bold]Setting up AI Provider API Keys[/bold]
";
       PrintSuggestion "Get an API Key"
         [ "[bold]Anthropic (Claude)[/bold] - Recommended";
           "  Visit: https://console.anthropic.com/";
           "  Set: export ANTHROPIC_API_KEY=sk-ant-...";
           "";
           "[bold]OpenAI (GPT)[/bold]";
           "  Visit: https://platform.openai.com/api-keys";
           "  Set: export OPENAI_API_KEY=sk-...";
           "";
           "[bold]Google (Gemini)[/bold]";
           "  Visit: https://aistudio.google.com/apikey";
           "  Set: export GOOGLE_API_KEY=AIza...";
           "";
           "[bold]Groq (Llama/Mixtral)[/bold]";
           "  Visit: https://console.groq.com/keys";
           "  Set: export GROQ_API_KEY=gsk_..." ] ]
     ++ (if platform w =? "win32"
         then [ Print "
[dim]On Windows, use:[/dim]";
                Print "[dim]  $env:ANTHROPIC_API_KEY = 'your_key'[/dim]";
                Print "[dim]Or set via System Environment Variables[/dim]" ]
         else [ Print "
[dim]Add to your ~/.bashrc or ~/.zshrc for persistence[/dim]" ]))%list
    false.

Definition cls : check_class World :=
  {| cls_name := name; cls_description := description;
     cls_init := __init__; cls_run := run; cls_fix := fix_ |}.

End APIKeysCheck.

(* ================================================================== *)
(** * checks/network.py *)
(* ================================================================== *)

Module NetworkCheck.

Definition name := "Network".
Definition description := "Tests connectivity to AI providers".

(* Endpoints to test *)
Definition ENDPOINTS : list (string * string) :=
  [ ("Anthropic", "https://api.anthropic.com");
    ("OpenAI", "https://api.openai.com");
    ("Google AI", "https://generativelanguage.googleapis.com");
    ("Groq", "https://api.groq.com") ].

Record state := mkState {
  _reachable : list string;
  _unreachable : list string;
}.

Definition __init__ : state := {| _reachable := []; _unreachable := [] |}.

(** The body of [for name, url in self.ENDPOINTS.items():]. *)
Fixpoint probe_endpoints (w : World) (endpoints : list (string * string))
    (self : state) : state :=
  match endpoints with
  | [] => self
  | (endpoint, url) :: rest =>
      let self :=
        match head_request (now w) url with
        | Responded =>
            (* Any response (even 4xx for auth) means we can reach the server *)
            {| _reachable := (_reachable self ++ [endpoint])%list;
               _unreachable := _unreachable self |}
        | TimeoutException =>
            let entry := endpoint ++ " (timeout)" in
            {| _reachable := _reachable self;
               _unreachable := (_unreachable self ++ [entry])%list |}
        | ConnectError =>
            let entry := endpoint ++ " (connection failed)" in
            {| _reachable := _reachable self;
               _unreachable := (_unreachable self ++ [entry])%list |}
        | HttpRaises type_name =>
            let entry := endpoint ++ " (" ++ type_name ++ ")" in
            {| _reachable := _reachable self;
               _unreachable := (_unreachable self ++ [entry])%list |}
        end in
      probe_endpoints w rest self
  end.

Definition _get_suggestions : list string :=
  [ "Check your internet connection";
    "If behind a proxy, configure HTTP_PROXY and HTTPS_PROXY";
    "Check if firewall is blocking outbound connections";
    "Try: curl https://api.anthropic.com to test manually" ].

Definition run (self : state) (w : World) : (exn + CheckResult) * state :=
  let self := {| _reachable := []; _unreachable := [] |} in
  let self := probe_endpoints w ENDPOINTS self in
  if negb (Py.truthy_list (_reachable self)) then
    (inr (mkCheckResult name FAIL "Cannot reach any AI providers"
            (Some "All connection attempts failed")
            false _get_suggestions), self)
  else if Py.truthy_list (_unreachable self) then
    (inr (mkCheckResult name WARN
            ("Some providers unreachable: "
               ++ Py.join ", " (_unreachable self))
            (Some ("Reachable: " ++ Py.join ", " (_reachable self)))
            false _get_suggestions), self)
  else
    (inr (mkCheckResult name PASS "Network connectivity OK"
            (Some ("Reachable: " ++ Py.join ", " (_reachable self)))
            false []), self).

(** Cannot auto-fix network issues. *)
Definition fix_ (self : state) (w : World) : fix_effect World :=
  prints w [PrintSuggestion "Network Troubleshooting" _get_suggestions] false.

Definition cls : check_class World :=
  {| cls_name := name; cls_description := description;
     cls_init := __init__; cls_run := run; cls_fix := fix_ |}.

End NetworkCheck.

(* ================================================================== *)
(** * checks/__init__.py *)
(* ================================================================== *)

(* All available checks in order *)
Definition ALL_CHECKS : list (check_class World) :=
  [ NodeJSCheck.cls;
    OpenClawCheck.cls;
    DockerCheck.cls;
    SystemCheck.cls;
    ConfigCheck.cls;
    APIKeysCheck.cls;
    NetworkCheck.cls ].


(* ================================================================== *)
(** * Traces: vocabulary *)
(* ================================================================== *)

Section TraceModel.

Variable World : Type.
Implicit Types (m : machine World) (c : check_class World).
Implicit Types (t : list event).

(** A process starts with an empty trace and no probe object. *)
Definition start (w : World) : machine World :=
  {| world := w; trace := []; next_instance := 0 |}.

(** The machine after events [t] that created [k] objects. *)
Definition advance m t (k : nat) : machine World :=
  {| world := world m; trace := (trace m ++ t)%list;
     next_instance := next_instance m + k |}.

(** ** Observers *)

(** The objects on which [run] was called, in order. *)
Definition runs t : list nat :=
  flat_map (fun e => match e with EvRun i => [i] | _ => [] end) t.

(** The objects on which [fix] was called, in order. *)
Definition fixes t : list nat :=
  flat_map (fun e => match e with EvFix i => [i] | _ => [] end) t.

(** The objects created, with the name of their class. *)
Definition inits t : list (nat * string) :=
  flat_map (fun e => match e with EvInit i n => [(i, n)] | _ => [] end) t.

(** The console calls. *)
Definition output t : list console_call :=
  flat_map (fun e => match e with EvConsole c => [c] | _ => [] end) t.

(** ** What a probe does in a given world *)

(** [run] on a new object of class [c] returns [r] / raises [e]. *)
Definition returns (w : World) c (r : CheckResult) : Prop :=
  fst (cls_run c (cls_init c) w) = inr r.

Definition raises (w : World) c (e : exn) : Prop :=
  fst (cls_run c (cls_init c) w) = inl e.

(** The events of the first loop of [run_all_checks] over classes whose
    [run] returns, the first object being number [n]. *)
Fixpoint run_events (n : nat) (cs : list (check_class World)) : list event :=
  match cs with
  | [] => []
  | c :: cs' =>
      EvInit n (cls_name c)
      :: EvConsole (ProgressUpdate ("Checking " ++ cls_name c ++ "..."))
      :: EvRun n
      :: EvConsole ProgressAdvance
      :: run_events (S n) cs'
  end.

(** The events of that loop up to the call of [run] that raises. *)
Definition run_raise_events (n : nat) c : list event :=
  [ EvInit n (cls_name c);
    EvConsole (ProgressUpdate ("Checking " ++ cls_name c ++ "..."));
    EvRun n ].

(** The same for the loop of the JSON branch of [doctor]. *)
Fixpoint json_events (n : nat) (cs : list (check_class World)) : list event :=
  match cs with
  | [] => []
  | c :: cs' => EvInit n (cls_name c) :: EvRun n :: json_events (S n) cs'
  end.

Definition json_raise_events (n : nat) c : list event :=
  [ EvInit n (cls_name c); EvRun n ].

(** The line the display loop prints for a result. *)
Definition shown (verbose : bool) (r : CheckResult) : event :=
  EvConsole (PrintCheckResult (name r) (passed r) (message r) (is_warning r)
               (if verbose then details r else None)).

(** ** The order of probe calls

    [sequenced last t]: in [t], every [fix] on an object comes right
    after a [run] on that same object, with no other probe call and no
    instantiation in between; [last] is the object whose [run] was the
    latest probe call before [t], if the latest was a [run]. *)
Fixpoint sequenced (last : option nat) t : bool :=
  match t with
  | [] => true
  | EvInit _ _ :: t' => sequenced None t'
  | EvRun i :: t' => sequenced (Some i) t'
  | EvFix i :: t' =>
      match last with Some j => Nat.eqb i j | None => false end
      && sequenced None t'
  | EvConsole _ :: t' => sequenced last t'
  end.

Fixpoint last_run (last : option nat) t : option nat :=
  match t with
  | [] => last
  | EvInit _ _ :: t' => last_run None t'
  | EvRun i :: t' => last_run (Some i) t'
  | EvFix _ :: t' => last_run None t'
  | EvConsole _ :: t' => last_run last t'
  end.

(** [fix] is only called on objects numbered [n] or more.  With [n] the
    number of objects whose [run] produced the results of the pass, this
    says that [fix] is never called on an object that produced a result:
    the object is a new one. *)
Definition fixes_from (n : nat) t : Prop := Forall (fun i => n <= i) (fixes t).

(** [t] is a well-ordered piece of trace whose fixed objects are all
    numbered [n] or more. *)
Definition tidy (n : nat) t : Prop :=
  (forall last, sequenced last t = true) /\ fixes_from n t.

Definition no_fix (n : nat) t : Prop := fixes t = [].

(** ** Commands that only append to the trace *)

Definition emits {A} (P : nat -> list event -> Prop) (k : M World A) : Prop :=
  forall m,
    exists t,
      trace (snd (k m)) = (trace m ++ t)%list
      /\ next_instance m <= next_instance (snd (k m))
      /\ P (next_instance m) t.

(** A property of trace pieces that holds of every step other than
    [fix] and is kept by sequencing. *)
Record stable (P : nat -> list event -> Prop) : Prop := {
  P_nil : forall n, P n [];
  P_app : forall n n' t1 t2,
    P n t1 -> n <= n' -> P n' t2 -> P n (t1 ++ t2)%list;
  P_console : forall n k, P n [EvConsole k];
  P_init : forall n s, P n [EvInit n s];
  P_run : forall n i, P n [EvRun i];
}.

(** ** Pieces of the commands, named *)

Implicit Types (registry : list (check_class World)).

(** The fix pass of [run_all_checks] over the results [rs]. *)
Definition fix_pass registry (do_fix : bool) (rs : list CheckResult)
  : M World unit :=
  when do_fix
    (let fixable_results := filter fixable rs in
     when (Py.truthy_list fixable_results)
       (bind (console (Print ""))
          (fun _ =>
             bind (console (Rule "[bold magenta]Auto-Fix[/bold magenta]"))
               (fun _ =>
                  bind (console (Print ""))
                    (fun _ => for_each fixable_results (fix_one registry)))))).

(** The events of [run_all_checks] before its fix pass, when every [run]
    returns and the results are [rs]. *)
Definition first_pass_events registry (n : nat) (verbose : bool)
    (rs : list CheckResult) : list event :=
  (EvConsole (ProgressAddTask "Running health checks..." (length registry))
   :: run_events n registry ++ map (shown verbose) rs)%list.

(** [raise typer.Exit(1)] when [b], a plain return otherwise. *)
Definition exit_if (b : bool) : raised + unit :=
  if b then inl (Exit 1) else inr tt.

(** What [check] prints for a name it does not know. *)
Definition not_found_events registry (check_name : string) : list event :=
  EvConsole (PrintError ("Unknown check: " ++ check_name))
  :: EvConsole (Print "
Available checks:")
  :: map (fun cls => EvConsole (Print (available_line cls))) registry.

(** Every object on which [fix] is called in [t] was created, in [t],
    from a class bearing the name of a result of [rs] that the fix pass
    considers and that says it can be fixed automatically. *)
Definition fix_targets (rs : list CheckResult) t : Prop :=
  Forall (fun i => exists r,
              In r rs /\ fixable r = true /\ can_auto_fix r = true
              /\ In (i, name r) (inits t))
         (fixes t).

(** A console call that shows or serializes results. *)
Definition reports_results (k : console_call) : bool :=
  match k with
  | PrintCheckResult _ _ _ _ _ | PrintJSON _ | PrintSummary _ _ _ => true
  | _ => false
  end.

End TraceModel.

(* ================================================================== *)
(** * Results worth acting on *)
(* ================================================================== *)

(** A Warn or Fail result that is not auto-fixable names a next step. *)
Definition actionable (r : CheckResult) : Prop :=
  (status r = WARN \/ status r = FAIL) -> can_auto_fix r = false ->
  fix_suggestions r <> [].

(* ================================================================== *)
(** * Machines used as examples *)
(* ================================================================== *)

Definition GiB : Z := 1024 ^ 3.

Definition config_yaml : string := "/home/dev/.openclaw/config.yaml".

(** A Linux workstation on which everything is installed, except for what
    the arguments say: what [_get_node_info] returns, the number of
    physical cores, what [_find_config] returns and what [_parse_config]
    returns or raises. *)
Definition workstation
    (node : option string * option (list Z)) (cores : Z)
    (config_path : option string) (config : exn + pyval) : observations :=
  {| sys_platform := "linux";
     node_info := inr node;
     openclaw_info := inr (Some "/usr/local/bin/openclaw", Some "1.4.2");
     openclaw_home := inr (Some "/home/dev/.openclaw");
     install_script := Completed 0 "" "";
     docker_info := inr (Some "24.0.7", true);
     compose_info := inr (Some "v2.23.0");
     open_docker := FileNotFoundError;
     systemctl_start_docker := Completed 0 "" "";
     mem_total := inr (8 * GiB)%Z;
     disk_free := inr (100 * GiB)%Z;
     cpu_count_physical := Some cores;
     cpu_count_logical := Some (2 * cores)%Z;
     found_config := inr config_path;
     parsed_config := config;
     home := "/home/dev";
     write_default_config := None;
     env_keys := inr (["ANTHROPIC_API_KEY"], []);
     env_file := inr ([], None);
     config_keys := inr [];
     head_request := fun _ => Responded |}.

Definition node20 : option string * option (list Z) :=
  (Some "/usr/bin/node", Some [20; 10; 0]%Z).

Definition valid_config : exn + pyval :=
  inr (PyDict [("provider", PyStr "anthropic")]).

(** Everything passes. *)
Definition healthy : World :=
  {| now := workstation node20 4 (Some config_yaml) valid_config;
     later := [] |}.

(** [node] is not on the PATH. *)
Definition node_missing : World :=
  {| now := workstation (None, None) 4 (Some config_yaml) valid_config;
     later := [] |}.

(** 8 GB of RAM, 100 GB of free disk, one core. *)
Definition single_core : World :=
  {| now := workstation node20 1 (Some config_yaml) valid_config;
     later := [] |}.

(** The config file exists and cannot be read: [path.read_text] raises
    [PermissionError], which [_parse_config] does not catch and which is
    no [ValueError]. *)
Definition permission_denied : exn :=
  Raise "PermissionError" "[Errno 13] Permission denied".

Definition unreadable_config : World :=
  {| now := workstation node20 4 (Some config_yaml) (inl permission_denied);
     later := [] |}.

(** No config file yet; once one is created it is found and valid. *)
Definition no_config : World :=
  {| now := workstation node20 4 None valid_config;
     later := [workstation node20 4 (Some config_yaml) valid_config] |}.

(** A probe for an optional component that reports [SKIP] where the
    component does not apply; appended to the registry it is run like any
    other class. *)
Definition PluginsCheck : check_class World :=
  {| cls_name := "Plugins";
     cls_description := "Checks the optional plugin directory";
     cls_state := unit;
     cls_init := tt;
     cls_run := fun self _ =>
       (inr (mkCheckResult "Plugins" SKIP "No plugin directory configured"
               None false []), self);
     cls_fix := fun _ w => prints w [] false |}.

Definition with_plugins : list (check_class World) :=
  (ALL_CHECKS ++ [PluginsCheck])%list.

(** The registered probes up to the config probe, and after it. *)
Definition before_config : list (check_class World) :=
  [NodeJSCheck.cls; OpenClawCheck.cls; DockerCheck.cls; SystemCheck.cls].

Definition after_config : list (check_class World) :=
  [APIKeysCheck.cls; NetworkCheck.cls].

(** The results of the seven registered probes on [node_missing]. *)
Definition node_missing_results : list CheckResult :=
  Eval vm_compute in
    match fst (json_loop ALL_CHECKS [] (start node_missing)) with
    | inr rs => rs
    | inl _ => []
    end.

(** The results of the four probes before the config probe on
    [unreadable_config]. *)
Definition results_before_config : list CheckResult :=
  Eval vm_compute in
    match fst (json_loop before_config [] (start unreadable_config)) with
    | inr rs => rs
    | inl _ => []
    end.

(* ================================================================== *)
(** * More Python text operations *)
(* ================================================================== *)

Module PyText.

(** [c.isspace()] on ASCII: tab to carriage return, the four separators
  [\x1c] to [\x1f], and the space. *)
Definition is_space (c : ascii) : bool :=
let n := nat_of_ascii c in
((9 <=? n) && (n <=? 13))%nat || ((28 <=? n) && (n <=? 32))%nat.

(** [s.lstrip()], [s.rstrip()] and [s.strip()] *)
Fixpoint lstrip (s : string) : string :=
match s with
| EmptyString => EmptyString
| String c s' => if is_space c then lstrip s' else s
end.

Fixpoint rstrip (s : string) : string :=
match s with
| EmptyString => EmptyString
| String c s' =>
    match rstrip s' with
    | EmptyString => if is_space c then EmptyString else String c EmptyString
    | r => String c r
    end
end.

Definition strip (s : string) : string := rstrip (lstrip s).

(** [s[n:]] *)
Fixpoint drop (n : nat) (s : string) : string :=
match n, s with
| O, _ => s
| S n', String _ s' => drop n' s'
| S _, EmptyString => EmptyString
end.

(** [s[:n]] *)
Fixpoint take (n : nat) (s : string) : string :=
match n, s with
| S n', String c s' => String c (take n' s')
| _, _ => EmptyString
end.

(** [s.split(sep)[0]] and [s.split(sep, 1)[0]] for a separator of one
  character: what comes before its first occurrence. *)
Fixpoint before (sep : ascii) (s : string) : string :=
match s with
| EmptyString => EmptyString
| String c s' =>
    if Ascii.eqb c sep then EmptyString else String c (before sep s')
end.

(** What follows the first occurrence of [sub] in [s], if there is one
  ([fuel] bounds the scan; [length s] suffices). *)
Fixpoint after_first (fuel : nat) (sub s : string) : option string :=
if String.prefix sub s then Some (drop (String.length sub) s)
else
  match fuel, s with
  | S fuel', String _ s' => after_first fuel' sub s'
  | _, _ => None
  end.

(** [s.split(sub)[-1]] for a non-empty [sub]: what follows the last of
  the occurrences found from left to right. *)
Fixpoint last_piece (fuel : nat) (sub s : string) : string :=
match fuel with
| O => s
| S fuel' =>
    match after_first (String.length s) sub s with
    | Some rest => last_piece fuel' sub rest
    | None => s
    end
end.

Definition split_last (sub s : string) : string :=
last_piece (S (String.length s)) sub s.

(** [s.split(newline)] *)
Fixpoint split_lines_from (cur : string) (s : string) : list string :=
match s with
| EmptyString => [cur]
| String c s' =>
    if Ascii.eqb c "010" then cur :: split_lines_from EmptyString s'
    else split_lines_from (cur ++ String c EmptyString) s'
end.
Definition split_lines (s : string) : list string :=
split_lines_from EmptyString s.

Definition is_digit (c : ascii) : bool := (("0" <=? c) && (c <=? "9"))%char.

(** The longest prefix whose characters satisfy [p], and the rest. *)
Fixpoint span (p : ascii -> bool) (s : string) : string * string :=
match s with
| EmptyString => (EmptyString, EmptyString)
| String c s' =>
    if p c then let (a, r) := span p s' in (String c a, r)
    else (EmptyString, s)
end.

(** Every character of [s] satisfies [p]. *)
Fixpoint all_chars (p : ascii -> bool) (s : string) : bool :=
match s with
| EmptyString => true
| String c s' => p c && all_chars p s'
end.

(** [int(ds)] for a string of decimal digits. *)
Definition int_of_digits (ds : string) : Z :=
match NilZero.uint_of_string ds with
| Some u => Z.of_uint u
| None => 0%Z
end.

(** [s.endswith(suffix)] *)
Definition endswith (suffix s : string) : bool :=
(String.length suffix <=? String.length s)%nat
&& (drop (String.length s - String.length suffix) s =? suffix).

(** [key in keys] on a list of strings. *)
Definition mem (key : string) (keys : list string) : bool :=
existsb (String.eqb key) keys.

End PyText.

(* ================================================================== *)
(** * console.py *)
(* ================================================================== *)

Module Console.

(** Status icons for check results. *)
Module StatusIcon.
Definition PASS := "[bold green]✓[/bold green]".
Definition FAIL := "[bold red]✗[/bold red]".
Definition WARN := "[bold yellow]![/bold yellow]".
Definition INFO := "[bold blue]ℹ[/bold blue]".
End StatusIcon.













End Console.

(* ================================================================== *)
(** * Vocabulary for the properties of the probes *)
(* ================================================================== *)

(** A command that never ends by [raise typer.Exit]: it returns, or it
    ends by an exception that nothing catches. *)
Definition no_exit {World A} (k : M World A) : Prop :=
  forall m x, fst (k m) = inl x -> exists e, x = Uncaught e.

(** The endpoints that answer. *)
Definition answers (w : World) (endpoint : string * string) : bool :=
  match head_request (now w) (snd endpoint) with
  | Responded => true
  | _ => false
  end.


(* ================================================================== *)
(** * The machine as the helpers of the probes reach it *)
(* ================================================================== *)

(** What a parser does with a text: it returns the document, raises its
    own syntax error ([json.JSONDecodeError], [yaml.YAMLError] or a
    subclass) with a text, or raises something else. *)
Inductive parsed :=
| Parsed (document : pyval)
| Malformed (msg : string)
| ParserRaises (e : exn).

(** A [pathlib.Path] built from the home or the working directory. *)
Inductive path :=
| Home                                   (* Path.home() *)
| Cwd                                    (* Path.cwd() *)
| Child (parent : path) (name : string). (* parent / name *)

Notation "p // name" := (Child p name) (at level 40, left associativity).

(** The library calls the helpers make, as functions of their arguments.
    A call that the helper guards with [try] returns what it raises;
    [shutil.which], [os.environ.get], [Path.exists] and [str(path)] are
    taken not to raise. *)
Record host := mkHost {
  host_platform : string;                         (* sys.platform *)
  which : string -> option string;                (* shutil.which(cmd) *)
  subprocess_run : list string -> proc_result;    (* subprocess.run(cmd, ...) *)
  environ_get : string -> option string;          (* os.environ.get(key) *)
  path_exists : path -> bool;                     (* path.exists() *)
  path_str : path -> string;                      (* str(path) *)
  open_lines : path -> exn + list string;         (* the lines of open(path, encoding="utf-8") *)
  yaml_safe_load : path -> exn + pyval;           (* yaml.safe_load(open(path, encoding="utf-8")) *)
  read_text : path -> exn + string;               (* path.read_text(encoding="utf-8") *)
  json_loads : string -> parsed;                  (* json.loads(content) *)
  yaml_loads : string -> parsed;                  (* yaml.safe_load(content) *)
  virtual_memory_total : exn + Z;                 (* psutil.virtual_memory().total *)
  disk_usage_free : string -> exn + Z;            (* shutil.disk_usage(path).free *)
  cpu_count : bool -> option Z;                   (* psutil.cpu_count(logical=...) *)
  create_default_config : option exn;             (* mkdir, open and yaml.dump of ConfigCheck.fix *)
  client_head : string -> http_result;            (* httpx.Client(timeout=10.0).head(url) *)
  os_access : path -> bool -> exn + bool;         (* os.access(path, os.W_OK if write else os.R_OK) *)
  mkdir : path -> option exn;                     (* path.mkdir(parents=True, exist_ok=True) *)
  path_is_dir : path -> bool;                     (* path.is_dir() *)
  path_is_file : path -> bool;                    (* path.is_file() *)
  glob : path -> string -> list string;           (* [f.name for f in path.glob(pattern)] *)
  st_mtime : path -> exn + Z;                     (* path.stat().st_mtime, in microseconds *)
  clock : Z;                                      (* datetime.now(), in microseconds *)
  read_tail : path -> exn + string;               (* what _parse_log_file reads of a file *)
}.

(** The first path of [paths] that exists: [for path in paths: if
    path.exists(): return path], then [return None]. *)
Definition first_existing (h : host) (paths : list path) : option path :=
  find (path_exists h) paths.

(** [f(x)] for a call [f] guarded by
    [except (subprocess.TimeoutExpired, FileNotFoundError)]: the two
    exceptions are handled by [on_error], any other is raised. *)
Definition guarded {A} (r : proc_result)
    (on_completed : Z -> string -> string -> A) (on_error : A) : exn + A :=
  match r with
  | Completed returncode stdout stderr =>
      inr (on_completed returncode stdout stderr)
  | TimeoutExpired | FileNotFoundError => inr on_error
  | ProcRaises e => inl e
  end.

(* ------------------------------------------------------------------ *)
(** ** nodejs.py: [_get_node_info] *)

Module nodejs.

(** [re.match(r"v?(\d+)\.(\d+)\.(\d+)", s)]: the three groups, if the
  pattern matches a prefix of [s].  Each [\d+] takes the longest run of
  digits: the character that must follow it is not a digit. *)
Definition match_version (s : string) : option (string * string * string) :=
let s := match s with
         | String "v" s' => s'
         | _ => s
         end in
let (major, r1) := PyText.span PyText.is_digit s in
match major, r1 with
| String _ _, String "." r1' =>
    let (minor, r2) := PyText.span PyText.is_digit r1' in
    match minor, r2 with
    | String _ _, String "." r2' =>
        let (patch, _) := PyText.span PyText.is_digit r2' in
        match patch with
        | String _ _ => Some (major, minor, patch)
        | EmptyString => None
        end
    | _, _ => None
    end
| _, _ => None
end.

Definition _get_node_info (h : host)
: exn + (option string * option (list Z)) :=
let node_path := which h "node" in
if negb (Py.truthy_str node_path) then inr (None, None)
else
  guarded (subprocess_run h ["node"; "--version"])
    (fun returncode stdout _ =>
       if negb (returncode =? 0)%Z then (node_path, None)
       else
         (* Parse version string like "v20.10.0" *)
         let version_str := PyText.strip stdout in
         match match_version version_str with
         | Some (a, b, c) =>
             (node_path, Some (map PyText.int_of_digits [a; b; c]))
         | None => (node_path, None)
         end)
    (node_path, None).

End nodejs.

(* ------------------------------------------------------------------ *)
(** ** openclaw.py: [_get_openclaw_info], [_get_home_directory] *)

Module openclaw.

(** [for name in names: openclaw_path = shutil.which(name); if
  openclaw_path: break], from the value [current] of the variable. *)
Fixpoint search_path (h : host) (names : list string)
  (current : option string) : option string :=
match names with
| [] => current
| name :: rest =>
    let found := which h name in
    if Py.truthy_str found then found else search_path h rest found
end.

Definition _get_openclaw_info (h : host)
: exn + (option string * option string) :=
(* Check for openclaw CLI *)
let openclaw_path := which h "openclaw" in
let openclaw_path :=
  if negb (Py.truthy_str openclaw_path)
  then (* Also check common alternative names *)
       search_path h ["openclaw"; "oc"; "claw"] openclaw_path
  else openclaw_path in
match openclaw_path with
| None => inr (None, None)
| Some p =>
    if p =? "" then inr (None, None)
    else
      guarded (subprocess_run h [p; "--version"])
        (fun returncode stdout _ =>
           if (returncode =? 0)%Z then
             let version := PyText.strip stdout in
             (* Clean up version string *)
             let version :=
               if String.prefix "openclaw" version
               then PyText.strip (Py.replace "openclaw" "" version)
               else version in
             let version :=
               if String.prefix "v" version then PyText.drop 1 version
               else version in
             (openclaw_path, Some version)
           else (openclaw_path, None))
        (openclaw_path, None)
end.

Definition possible_paths (h : host) : list path :=
[ Home // ".openclaw"; Home // ".config" // "openclaw" ]
++ (if host_platform h =? "win32"
    then [Home // "AppData" // "Local" // "openclaw"]
    else [])%list.

Definition _get_home_directory (h : host) : option path :=
first_existing h (possible_paths h).

End openclaw.

(* ------------------------------------------------------------------ *)
(** ** docker.py: [_check_docker], [_check_compose] *)

Module docker.

Definition _check_docker (h : host) : exn + (option string * bool) :=
let docker_path := which h "docker" in
if negb (Py.truthy_str docker_path) then inr (None, false)
else
  (* Get version *)
  match guarded (subprocess_run h ["docker"; "--version"])
          (fun returncode stdout _ =>
             if (returncode =? 0)%Z then
               (* Parse "Docker version 24.0.7, build afdd53b" *)
               let parts := PyText.before "," (PyText.strip stdout) in
               Some (PyText.strip (Py.replace "Docker version" "" parts))
             else None)
          None
  with
  | inl e => inl e
  | inr version =>
      (* Check if daemon is running *)
      guarded (subprocess_run h ["docker"; "info"])
        (fun returncode _ _ => (version, (returncode =? 0)%Z))
        (version, false)
  end.

(** What the first attempt of [_check_compose] ([docker compose version])
  does: it returns a version, or falls through to the second attempt. *)
Definition compose_v2 (h : host) : exn + option string :=
guarded (subprocess_run h ["docker"; "compose"; "version"])
  (fun returncode stdout _ =>
     if (returncode =? 0)%Z then
       (* Parse "Docker Compose version v2.23.0" *)
       let version := PyText.strip stdout in
       Some (if Py.contains "version" (Py.lower version)
             then PyText.strip (PyText.split_last "version" version)
             else version)
     else None)
  None.

Definition compose_v1 (h : host) : exn + option string :=
if Py.truthy_str (which h "docker-compose") then
  guarded (subprocess_run h ["docker-compose"; "--version"])
    (fun returncode stdout _ =>
       if (returncode =? 0)%Z then
         Some (PyText.strip
                 (Py.replace "docker-compose version" ""
                    (PyText.before "," (PyText.strip stdout))))
       else None)
    None
else inr None.

Definition _check_compose (h : host) : exn + option string :=
(* Try docker compose (v2) *)
match compose_v2 h with
| inl e => inl e
| inr (Some version) => inr (Some version)
| inr None =>
    (* Try docker-compose (v1) *)
    compose_v1 h
end.

End docker.

(* ------------------------------------------------------------------ *)
(** ** config.py: [_find_config], [_parse_config] *)

Module config.

Definition possible_paths (h : host) : list path :=
[ Home // ".openclaw" // "config.yaml";
  Home // ".openclaw" // "config.yml";
  Home // ".openclaw" // "config.json";
  Home // ".config" // "openclaw" // "config.yaml";
  Home // ".config" // "openclaw" // "config.yml";
  Home // ".config" // "openclaw" // "config.json" ]
++ (if host_platform h =? "win32"
    then [ Home // "AppData" // "Local" // "openclaw" // "config.yaml";
           Home // "AppData" // "Local" // "openclaw" // "config.json" ]
    else [])%list.

Definition _find_config (h : host) : option path :=
first_existing h (possible_paths h).

(** [path.suffix == ".json"]: the last component ends with [.json] and
  is longer than that (a leading dot starts no suffix). *)
Definition is_json (p : path) : bool :=
match p with
| Child _ name =>
    PyText.endswith ".json" name && (5 <? String.length name)%nat
| _ => false
end.

(** [except json.JSONDecodeError as e: raise ValueError(f"Invalid JSON:
    {e}")], and the same for YAML; any other exception is raised as it
  is. *)
Definition as_ValueError (prefix : string) (r : parsed) : exn + pyval :=
match r with
| Parsed document => inr document
| Malformed msg => inl (Raise "ValueError" (prefix ++ msg))
| ParserRaises e => inl e
end.

Definition _parse_config (h : host) (p : path) : exn + pyval :=
match read_text h p with
| inl e => inl e
| inr content =>
    if is_json p
    then as_ValueError "Invalid JSON: " (json_loads h content)
    else (* YAML *)
         as_ValueError "Invalid YAML: " (yaml_loads h content)
end.

End config.

(* ------------------------------------------------------------------ *)
(** ** api_keys.py: [_check_env_keys], [_check_env_file],
       [_check_config_keys] *)

Module api_keys.

(** A pattern [^<prefix>[<class>]{<at_least>,<at_most>}$]. *)
Record key_pattern := mkKeyPattern {
kp_prefix : string;
kp_class : ascii -> bool;
kp_at_least : nat;
kp_at_most : option nat;
}.

(** [[a-zA-Z0-9]] and [[a-zA-Z0-9\-_]] *)
Definition alnum (c : ascii) : bool :=
Py.is_lower c || Py.is_upper c || PyText.is_digit c.
Definition alnum_dash (c : ascii) : bool :=
alnum c || Ascii.eqb c "-" || Ascii.eqb c "_".

(** Known API key patterns (for basic validation, not security) *)
Definition KEY_PATTERNS : list (string * key_pattern) :=
[ ("ANTHROPIC_API_KEY", mkKeyPattern "sk-ant-" alnum_dash 40 None);
  ("OPENAI_API_KEY", mkKeyPattern "sk-" alnum 40 None);
  ("GOOGLE_API_KEY", mkKeyPattern "AIza" alnum_dash 35 (Some 35));
  ("GROQ_API_KEY", mkKeyPattern "gsk_" alnum 50 None) ].

(** Environment variables to check *)
Definition ENV_KEYS : list string :=
[ "ANTHROPIC_API_KEY";
  "OPENAI_API_KEY";
  "GOOGLE_API_KEY";
  "GOOGLE_GENERATIVE_AI_API_KEY";
  "GROQ_API_KEY";
  "OPENROUTER_API_KEY" ].

(** [re.match(pattern, value)] for a pattern of the shape above: the
  prefix, then the longest run of characters of the class, whose length
  must be within the bounds, then the end of the value or its final
  newline (which [$] accepts). *)
Definition re_match (p : key_pattern) (value : string) : bool :=
String.prefix (kp_prefix p) value
&& let rest := PyText.drop (String.length (kp_prefix p)) value in
   let (body, tail) := PyText.span (kp_class p) rest in
   (kp_at_least p <=? String.length body)%nat
   && match kp_at_most p with
      | Some n => (String.length body <=? n)%nat
      | None => true
      end
   && ((tail =? "") || (tail =? String "010" EmptyString)).

(** [KEY_PATTERNS.get(key_name)] *)
Fixpoint pattern_of (d : list (string * key_pattern)) (key_name : string)
: option key_pattern :=
match d with
| [] => None
| (k, p) :: d' => if k =? key_name then Some p else pattern_of d' key_name
end.

(** The loop of [_check_env_keys] over [keys]. *)
Fixpoint check_keys (h : host) (keys found invalid : list string)
: list string * list string :=
match keys with
| [] => (found, invalid)
| key_name :: rest =>
    match environ_get h key_name with
    | Some (String _ _ as value) =>
        (* Basic validation *)
        match pattern_of KEY_PATTERNS key_name with
        | Some pattern =>
            if negb (re_match pattern value)
            then check_keys h rest found (invalid ++ [key_name])
            else check_keys h rest (found ++ [key_name]) invalid
        | None => check_keys h rest (found ++ [key_name]) invalid
        end
    | _ => check_keys h rest found invalid
    end
end.

Definition _check_env_keys (h : host) : list string * list string :=
check_keys h ENV_KEYS [] [].

(** What one line of an env file contributes. *)
Definition env_line (line : string) : list string :=
let line := PyText.strip line in
(* Skip comments and empty lines *)
if (line =? "") || String.prefix "#" line then []
else
  (* Parse KEY=value format *)
  if Py.contains "=" line then
    let key := PyText.strip (PyText.before "=" line) in
    if PyText.mem key ENV_KEYS then [key ++ " (in .env)"] else []
  else [].

Definition env_paths (h : host) : list path :=
[ Home // ".openclaw" // ".env";
  Home // ".openclaw" // "env";
  Home // ".config" // "openclaw" // ".env";
  Cwd // ".env" ]
++ (if host_platform h =? "win32"
    then [Home // "AppData" // "Local" // "openclaw" // ".env"]
    else [])%list.

(** The loop of [_check_env_file] over [paths]; whatever opening or
  reading a file raises is swallowed and the next path is tried. *)
Fixpoint scan_env_files (h : host) (paths : list path)
: list string * option path :=
match paths with
| [] => ([], None)
| env_path :: rest =>
    if path_exists h env_path then
      match open_lines h env_path with
      | inr lines =>
          let found := flat_map env_line lines in
          if Py.truthy_list found then (found, Some env_path)
          else scan_env_files h rest
      | inl _ => scan_env_files h rest
      end
    else scan_env_files h rest
end.

Definition _check_env_file (h : host) : list string * option path :=
scan_env_files h (env_paths h).

(** [d.get(key, default)]; only a [dict] has a [get]. *)
Definition get (d : pyval) (key : string) (default : pyval) : exn + pyval :=
match d with
| PyDict fields =>
    match find (fun kv => fst kv =? key) fields with
    | Some kv => inr (snd kv)
    | None => inr default
    end
| _ => inl (Raise "AttributeError" "object has no attribute 'get'")
end.

(** [config.get(section, {}).get("api_key")] *)
Definition nested_key (config : pyval) (section : string) : exn + pyval :=
match get config section (PyDict []) with
| inl e => inl e
| inr inner => get inner "api_key" PyNone
end.

(** The body of [if config:] in [_check_config_keys]. *)
Definition keys_of_document (config : pyval) : exn + list string :=
(* Check for api_key or provider-specific keys *)
match get config "api_key" PyNone with
| inl e => inl e
| inr top =>
    let found := if ConfigCheck.falsy top then []
                 else ["api_key (in config)"] in
    match nested_key config "anthropic" with
    | inl e => inl e
    | inr a =>
        let found := if ConfigCheck.falsy a then found
                     else (found ++ ["anthropic.api_key"])%list in
        match nested_key config "openai" with
        | inl e => inl e
        | inr o =>
            inr (if ConfigCheck.falsy o then found
                 else (found ++ ["openai.api_key"])%list)
        end
    end
end.

Definition config_paths (h : host) : list path :=
[ Home // ".openclaw" // "config.yaml";
  Home // ".openclaw" // "config.yml";
  Home // ".config" // "openclaw" // "config.yaml" ]
++ (if host_platform h =? "win32"
    then [Home // "AppData" // "Local" // "openclaw" // "config.yaml"]
    else [])%list.

(** The loop of [_check_config_keys] over [paths]. *)
Fixpoint scan_configs (h : host) (paths : list path) : list string :=
match paths with
| [] => []
| config_path :: rest =>
    if path_exists h config_path then
      match yaml_safe_load h config_path with
      | inr config =>
          if ConfigCheck.falsy config then scan_configs h rest
          else
            match keys_of_document config with
            | inr found => found
            | inl _ => scan_configs h rest
            end
      | inl _ => scan_configs h rest
      end
    else scan_configs h rest
end.

Definition _check_config_keys (h : host) : list string :=
scan_configs h (config_paths h).

End api_keys.

(* ------------------------------------------------------------------ *)
(** ** What the probes observe on a host *)

(** The observations of the seven registered probes, each obtained by
    the helper that makes it. *)
Definition observe (h : host) : observations :=
  {| sys_platform := host_platform h;
     node_info := nodejs._get_node_info h;
     openclaw_info := openclaw._get_openclaw_info h;
     openclaw_home :=
       inr (option_map (path_str h) (openclaw._get_home_directory h));
     install_script :=
       subprocess_run h
         ["bash"; "-c"; "curl -fsSL https://openclawd.ai/install.sh | bash"];
     docker_info := docker._check_docker h;
     compose_info := docker._check_compose h;
     open_docker := subprocess_run h ["open"; "-a"; "Docker"];
     systemctl_start_docker :=
       subprocess_run h ["sudo"; "systemctl"; "start"; "docker"];
     mem_total := virtual_memory_total h;
     disk_free :=
       disk_usage_free h (if host_platform h =? "win32" then "C:\" else "/");
     cpu_count_physical := cpu_count h false;
     cpu_count_logical := cpu_count h true;
     found_config := inr (option_map (path_str h) (config._find_config h));
     parsed_config :=
       match config._find_config h with
       | Some p => config._parse_config h p
       | None => inr PyNone
       end;
     home := path_str h Home;
     write_default_config := create_default_config h;
     env_keys := inr (api_keys._check_env_keys h);
     env_file :=
       inr (let (found, p) := api_keys._check_env_file h in
            (found, option_map (path_str h) p));
     config_keys := inr (api_keys._check_config_keys h);
     head_request := client_head h |}.

(** The machine as long as nothing changes it. *)
Definition at_host (h : host) : World := {| now := observe h; later := [] |}.

(* ================================================================== *)
(** * checks/folders.py *)
(* ================================================================== *)

Module FoldersCheck.

Definition name := "Folders".
Definition description := "Checks OpenClaw directory structure".

(* Expected directories in OpenClaw home *)
Definition EXPECTED_DIRS : list string := ["skills"; "channels"; "workspaces"].

(* Expected files *)
Definition EXPECTED_FILES : list string := ["config.yaml"].

Record state := mkState {
_home_dir : option path;
_missing_dirs : list string;
_missing_files : list string;
_found_dirs : list string;
_found_files : list string;
_permission_issues : list string;
}.

Definition __init__ : state :=
{| _home_dir := None; _missing_dirs := []; _missing_files := [];
   _found_dirs := []; _found_files := []; _permission_issues := [] |}.

Definition possible_paths (h : host) : list path :=
[ Home // ".openclaw"; Home // ".config" // "openclaw" ]
++ (if host_platform h =? "win32"
    then [Home // "AppData" // "Local" // "openclaw"]
    else [])%list.

Definition _find_openclaw_home (h : host) : option path :=
first_existing h (possible_paths h).

(** Check if path is readable and writable. *)
Definition _check_permissions (h : host) (p : path) : bool :=
match os_access h p false with
| inr true =>
    match os_access h p true with
    | inr true => true
    | _ => false
    end
| _ => false
end.

(** The loop over [EXPECTED_DIRS]. *)
Fixpoint check_dirs (h : host) (home : path) (dirs : list string)
  (self : state) : state :=
match dirs with
| [] => self
| dir_name :: rest =>
    let dir_path := home // dir_name in
    let self :=
      if path_exists h dir_path then
        {| _home_dir := _home_dir self;
           _missing_dirs := _missing_dirs self;
           _missing_files := _missing_files self;
           _found_dirs := _found_dirs self ++ [dir_name];
           _found_files := _found_files self;
           _permission_issues :=
             if negb (_check_permissions h dir_path)
             then _permission_issues self ++ [path_str h dir_path]
             else _permission_issues self |}
      else
        {| _home_dir := _home_dir self;
           _missing_dirs := _missing_dirs self ++ [dir_name];
           _missing_files := _missing_files self;
           _found_dirs := _found_dirs self;
           _found_files := _found_files self;
           _permission_issues := _permission_issues self |} in
    check_dirs h home rest self
end.

Definition with_file (self : state) (found : bool) (file_name : string)
: state :=
{| _home_dir := _home_dir self;
   _missing_dirs := _missing_dirs self;
   _missing_files :=
     if found then _missing_files self
     else _missing_files self ++ [file_name];
   _found_dirs := _found_dirs self;
   _found_files :=
     if found then _found_files self ++ [file_name]
     else _found_files self;
   _permission_issues := _permission_issues self |}.

(** The loop over [EXPECTED_FILES]. *)
Fixpoint check_files (h : host) (home : path) (files : list string)
  (self : state) : state :=
match files with
| [] => self
| file_name :: rest =>
    let self :=
      if path_exists h (home // file_name) then with_file self true file_name
      else
        (* Also check .yml extension *)
        if PyText.endswith ".yaml" file_name then
          let yml := Py.replace ".yaml" ".yml" file_name in
          if path_exists h (home // yml) then with_file self true yml
          else with_file self false file_name
        else with_file self false file_name in
    check_files h home rest self
end.

Definition run (self : state) (h : host) : CheckResult * state :=
let self :=
  {| _home_dir := _find_openclaw_home h;
     _missing_dirs := []; _missing_files := [];
     _found_dirs := []; _found_files := []; _permission_issues := [] |} in
match _home_dir self with
| None =>
    (mkCheckResult name WARN "OpenClaw home directory not found"
       (Some "Expected ~/.openclaw or similar") true
       [ "Run 'openclaw init' to create the directory structure";
         "Or manually create ~/.openclaw/" ], self)
| Some home =>
    (* Check home directory permissions *)
    let self :=
      if negb (_check_permissions h home)
      then {| _home_dir := _home_dir self;
              _missing_dirs := _missing_dirs self;
              _missing_files := _missing_files self;
              _found_dirs := _found_dirs self;
              _found_files := _found_files self;
              _permission_issues :=
                _permission_issues self ++ [path_str h home] |}
      else self in
    (* Check expected directories *)
    let self := check_dirs h home EXPECTED_DIRS self in
    (* Check expected files *)
    let self := check_files h home EXPECTED_FILES self in
    (* Build result *)
    if Py.truthy_list (_permission_issues self) then
      (mkCheckResult name FAIL
         ("Permission issues in "
            ++ Py.str_of_nat (length (_permission_issues self))
            ++ " path(s)")
         (Some ("Issues: " ++ Py.join ", " (_permission_issues self)))
         false
         [ "Fix permissions with: chmod 755 ~/.openclaw";
           "Ensure your user owns the directory" ], self)
    else
      let details_parts := ["Home: " ++ path_str h home] in
      let details_parts :=
        if Py.truthy_list (_found_dirs self)
        then
          let part := "Dirs: " ++ Py.join ", " (_found_dirs self) in
          (details_parts ++ [part])%list
        else details_parts in
      let details_parts :=
        if Py.truthy_list (_found_files self)
        then
          let part := "Files: " ++ Py.join ", " (_found_files self) in
          (details_parts ++ [part])%list
        else details_parts in
      if Py.truthy_list (_missing_dirs self)
         || Py.truthy_list (_missing_files self)
      then
        let missing := (_missing_dirs self ++ _missing_files self)%list in
        (mkCheckResult name WARN
           ("OpenClaw structure incomplete ("
              ++ Py.str_of_nat (length missing) ++ " missing)")
           (Some (Py.join "
" details_parts ++ "
Missing: " ++ Py.join ", " missing))
           true
           [ "Run 'openclaw init' to create missing directories";
             "Or manually create: " ++ Py.join ", " (_missing_dirs self) ],
         self)
      else
        (mkCheckResult name PASS "OpenClaw folder structure OK"
           (Some (Py.join "
" details_parts)) false [], self)
end.

(** What [fix] does: what it prints, the directories whose [mkdir]
  succeeded, what it returns, and the object afterwards. *)
Record fixed := mkFixed {
printed : list console_call;
created_paths : list path;
returned : bool;
after : state;
}.

Definition str_of_exn (e : exn) : string :=
match e with Raise _ msg => msg end.

(** The loop over [self._missing_dirs]. *)
Fixpoint make_dirs (h : host) (home : path) (dirs : list string)
  (out : list console_call) (made : list path) (created : list string)
: list console_call * list path * list string :=
match dirs with
| [] => (out, made, created)
| dir_name :: rest =>
    let dir_path := home // dir_name in
    let action :=
      PrintFixAction ("Creating directory: " ++ path_str h dir_path) in
    let out := (out ++ [action])%list in
    match mkdir h dir_path with
    | None =>
        make_dirs h home rest out (made ++ [dir_path])%list
          (created ++ [dir_name])%list
    | Some e =>
        let line := "[red]Failed to create " ++ dir_name ++ ":[/red] "
                      ++ str_of_exn e in
        make_dirs h home rest (out ++ [Print line])%list made created
    end
end.

Definition set_home (self : state) (p : path) : state :=
{| _home_dir := Some p;
   _missing_dirs := _missing_dirs self;
   _missing_files := _missing_files self;
   _found_dirs := _found_dirs self;
   _found_files := _found_files self;
   _permission_issues := _permission_issues self |}.

(** The part of [fix] after the home directory is known. *)
Definition fix_dirs (h : host) (self : state) (home : path)
  (out : list console_call) (made : list path) : fixed :=
(* Create missing directories *)
let '(out, made, created) :=
  make_dirs h home (_missing_dirs self) out made [] in
if Py.truthy_list created then
  let success :=
    PrintSuccess ("Created directories: " ++ Py.join ", " created) in
  {| printed := (out ++ [success])%list;
     created_paths := made; returned := true; after := self |}
else
  {| printed := out; created_paths := made;
     returned := Nat.eqb (length (_missing_dirs self)) 0;
     after := self |}.

Definition fix_ (self : state) (h : host) : fixed :=
match _home_dir self with
| None =>
    (* Create home directory *)
    let home_dir := Home // ".openclaw" in
    let self := set_home self home_dir in
    let action :=
      PrintFixAction ("Creating OpenClaw home: " ++ path_str h home_dir) in
    match mkdir h home_dir with
    | None =>
        let success := PrintSuccess ("Created " ++ path_str h home_dir) in
        fix_dirs h self home_dir [action; success] [home_dir]
    | Some e =>
        let line := "[red]Failed to create directory:[/red] "
                      ++ str_of_exn e in
        {| printed := [action; Print line]; created_paths := [];
           returned := false; after := self |}
    end
| Some home => fix_dirs h self home [] []
end.

End FoldersCheck.

(* ================================================================== *)
(** * checks/logs.py *)
(* ================================================================== *)

Module logs.

(** Represents a parsed error from logs. *)
Record LogError := mkLogError {
pattern : string;
message : string;
explanation : string;
suggestion : string;
severity : string;                    (* error, warning, info *)
}.

(* Common error patterns with plain language explanations *)
Definition ERROR_PATTERNS : list LogError :=
[ (* API Rate Limits *)
  mkLogError "rate.?limit|too.?many.?requests|429"
    "API rate limit exceeded"
    "You've made too many API calls in a short time period."
    "Wait a few minutes before trying again, or upgrade your API plan for higher limits."
    "warning";
  (* Authentication Errors *)
  mkLogError "invalid.?api.?key|unauthorized|401|authentication.?failed"
    "API authentication failed"
    "Your API key is invalid, expired, or not authorized."
    "Check your API key in the config or environment variables. Get a new key from your provider's dashboard."
    "error";
  mkLogError "insufficient.?quota|billing|payment.?required|402"
    "Billing/quota issue"
    "Your API account has run out of credits or has a billing problem."
    "Add credits to your API account or check your payment method."
    "error";
  (* Connection Errors *)
  mkLogError "connection.?refused|ECONNREFUSED"
    "Connection refused"
    "Could not connect to the server. The service may be down."
    "Check your internet connection. Try again in a few minutes."
    "error";
  mkLogError "connection.?timeout|ETIMEDOUT|timed?.?out"
    "Connection timeout"
    "The server took too long to respond."
    "Check your internet connection. The service may be experiencing high load."
    "warning";
  mkLogError "ENOTFOUND|DNS|name.?resolution"
    "DNS resolution failed"
    "Could not find the server's address."
    "Check your internet connection and DNS settings."
    "error";
  mkLogError "ssl|certificate|TLS|CERT"
    "SSL/TLS certificate error"
    "There's a problem with the secure connection."
    "Check your system date/time is correct. Your firewall may be intercepting traffic."
    "error";
  (* OpenClaw Specific *)
  mkLogError "config.?not.?found|missing.?config"
    "Configuration not found"
    "OpenClaw couldn't find its configuration file."
    "Run 'openclaw init' to create a new configuration."
    "error";
  mkLogError "invalid.?yaml|yaml.?parse|syntax.?error"
    "Configuration syntax error"
    "Your config file has invalid YAML syntax."
    "Check config.yaml for typos. Use a YAML validator to find errors."
    "error";
  mkLogError "permission.?denied|EACCES|access.?denied"
    "Permission denied"
    "OpenClaw doesn't have permission to access a file or directory."
    "Check file permissions. On Unix: chmod 755 ~/.openclaw"
    "error";
  mkLogError "out.?of.?memory|ENOMEM|memory.?limit"
    "Out of memory"
    "The system ran out of available memory."
    "Close other applications. Consider increasing system RAM."
    "error";
  mkLogError "model.?not.?found|invalid.?model"
    "AI model not found"
    "The specified AI model doesn't exist or isn't available."
    "Check the model name in your config. Use 'openclaw models' to see available options."
    "error";
  mkLogError "context.?length|token.?limit|too.?long"
    "Context length exceeded"
    "Your message or conversation is too long for the AI model."
    "Try a shorter message or start a new conversation."
    "warning";
  mkLogError "skill.?failed|skill.?error"
    "Skill execution failed"
    "One of OpenClaw's skills encountered an error."
    "Check the skill's configuration. Try disabling and re-enabling the skill."
    "warning";
  mkLogError "channel.?disconnected|channel.?error"
    "Messaging channel error"
    "There's a problem with a messaging channel (WhatsApp, Telegram, etc.)."
    "Re-authenticate the channel. Check your API tokens."
    "warning" ].

(** ** The regular expressions of [ERROR_PATTERNS]

  The patterns are alternatives of sequences of literal characters, [.]
  and items made optional by [?]. *)
Inductive atom :=
| Lit (c : ascii)
| Any
| OptLit (c : ascii)
| OptAny.

(** One alternative, read from its text. *)
Fixpoint compile_alternative (s : string) : list atom :=
match s with
| EmptyString => []
| String c s' =>
    match s' with
    | String "?" s'' =>
        (if Ascii.eqb c "." then OptAny else OptLit c)
        :: compile_alternative s''
    | _ =>
        (if Ascii.eqb c "." then Any else Lit c) :: compile_alternative s'
    end
end.

(** The texts between the [|] of a pattern. *)
Fixpoint alternatives_from (cur : string) (s : string) : list string :=
match s with
| EmptyString => [cur]
| String c s' =>
    if Ascii.eqb c "|" then cur :: alternatives_from EmptyString s'
    else alternatives_from (cur ++ String c EmptyString) s'
end.

Definition compile (pattern : string) : list (list atom) :=
map compile_alternative (alternatives_from EmptyString pattern).

(** Two characters that [re.IGNORECASE] identifies (on ASCII). *)
Definition same_letter (a b : ascii) : bool :=
Ascii.eqb (Py.lower_char a) (Py.lower_char b).

(** [.] matches any character except a newline. *)
Definition any_char (x : ascii) : bool := negb (Ascii.eqb x "010").

(** Some way of matching [atoms] at the start of [s]. *)
Fixpoint match_here (atoms : list atom) (s : string) : bool :=
match atoms with
| [] => true
| a :: rest =>
    let step (p : ascii -> bool) :=
      match s with
      | String x s' => p x && match_here rest s'
      | EmptyString => false
      end in
    match a with
    | Lit c => step (same_letter c)
    | Any => step any_char
    | OptLit c => step (same_letter c) || match_here rest s
    | OptAny => step any_char || match_here rest s
    end
end.

(** Some way of matching [atoms] somewhere in [s]. *)
Fixpoint search_atoms (atoms : list atom) (s : string) : bool :=
match_here atoms s
|| match s with
   | String _ s' => search_atoms atoms s'
   | EmptyString => false
   end.

(** [bool(re.search(pattern, s, re.IGNORECASE))] *)
Definition re_search (pattern : string) (s : string) : bool :=
existsb (fun atoms => search_atoms atoms s) (compile pattern).


(** ** class LogsCheck *)

Module LogsCheck.

Definition name := "Logs".
Definition description := "Parses logs for errors with explanations".

(* How far back to look in logs *)
Definition MAX_LOG_AGE_HOURS : Z := 24.
Definition MAX_ERRORS_TO_SHOW : nat := 5.

Record state := mkState {
_log_dir : option path;
_log_files : list path;
_found_errors : list (LogError * string * path);
}.

Definition __init__ : state :=
{| _log_dir := None; _log_files := []; _found_errors := [] |}.

Definition possible_paths (h : host) : list path :=
[ Home // ".openclaw" // "logs";
Home // ".openclaw" // "log";
Home // ".config" // "openclaw" // "logs" ]
++ (if host_platform h =? "win32"
  then [ Home // "AppData" // "Local" // "openclaw" // "logs";
         Home // "AppData" // "Roaming" // "openclaw" // "logs" ]
  else [])%list.

Definition _find_log_directory (h : host) : option path :=
find (fun p => path_exists h p && path_is_dir h p) (possible_paths h).

(** [timedelta(hours=n)] in microseconds. *)
Definition hours (n : Z) : Z := (n * 3600 * 1000000)%Z.

(** The files of [log_dir] that one pattern contributes. *)
Definition recent (h : host) (log_dir : path) (cutoff_time : Z)
(glob_pattern : string) : list path :=
flat_map
(fun file_name =>
   let log_file := log_dir // file_name in
   if path_is_file h log_file then
     match st_mtime h log_file with
     | inr mtime => if (cutoff_time <? mtime)%Z then [log_file] else []
     | inl _ => []
     end
   else [])
(glob h log_dir glob_pattern).

(** [key(f)] for every file, or the first exception. *)
Fixpoint keyed (h : host) (files : list path) : exn + list (Z * path) :=
match files with
| [] => inr []
| f :: rest =>
  match st_mtime h f with
  | inl e => inl e
  | inr mtime =>
      match keyed h rest with
      | inl e => inl e
      | inr l => inr ((mtime, f) :: l)
      end
  end
end.

(** [sorted(..., reverse=True)]: descending, files of equal key in their
original order. *)
Fixpoint insert_desc (x : Z * path) (l : list (Z * path))
: list (Z * path) :=
match l with
| [] => [x]
| y :: l' =>
  if (fst y <? fst x)%Z then x :: l else y :: insert_desc x l'
end.

Definition sorted_desc (l : list (Z * path)) : list (Z * path) :=
fold_left (fun acc x => insert_desc x acc) l [].

Definition _find_log_files (h : host) (log_dir : path) : exn + list path :=
let cutoff_time := (clock h - hours MAX_LOG_AGE_HOURS)%Z in
(* Look for common log file patterns *)
let patterns := ["*.log"; "*.txt"; "error*"; "openclaw*"] in
let log_files := flat_map (recent h log_dir cutoff_time) patterns in
match keyed h log_files with
| inl e => inl e
| inr l => inr (map snd (sorted_desc l))
end.

(** What the patterns find in a text. *)
Definition scan_content (content : string) : list (LogError * string) :=
(* Check each error pattern *)
flat_map
(fun error =>
   if re_search (pattern error) content then
     (* Find the actual line containing the error *)
     match find (re_search (pattern error)) (PyText.split_lines content) with
     | Some line => [(error, PyText.take 100 (PyText.strip line))]
     | None => [(error, EmptyString)]
     end
   else [])
ERROR_PATTERNS.

Definition _parse_log_file (h : host) (log_file : path)
: list (LogError * string) :=
match read_tail h log_file with
| inr content => scan_content content
| inl _ => []
end.

(** [sum(1 for e, _, _ in found if e.severity == s)] *)
Definition count_severity (s : string)
(found : list (LogError * string * path)) : nat :=
length (filter (fun x => severity (fst (fst x)) =? s) found).

(** The values of [unique_errors], a [dict] keyed by message that keeps
the first entry of each key, in insertion order. *)
Fixpoint unique_errors (seen : list string)
(found : list (LogError * string * path))
: list (LogError * string * path) :=
match found with
| [] => []
| x :: rest =>
  let key := message (fst (fst x)) in
  if PyText.mem key seen then unique_errors seen rest
  else x :: unique_errors (key :: seen) rest
end.

Definition run (self : state) (h : host) : (exn + CheckResult) * state :=
let self := {| _log_dir := _find_log_directory h;
             _log_files := []; _found_errors := [] |} in
match _log_dir self with
| None =>
  (inr (mkCheckResult name PASS
          "No log directory found (OK if OpenClaw is new)"
          (Some "Logs will appear in ~/.openclaw/logs/ after using OpenClaw")
          false []), self)
| Some log_dir =>
  match _find_log_files h log_dir with
  | inl e => (inl e, self)
  | inr files =>
      let self := {| _log_dir := _log_dir self; _log_files := files;
                     _found_errors := [] |} in
      if negb (Py.truthy_list (_log_files self)) then
        (inr (mkCheckResult name PASS "No recent logs found"
                (Some ("Checked " ++ path_str h log_dir
                         ++ " for logs from last "
                         ++ Py.str_of_Z MAX_LOG_AGE_HOURS ++ "h"))
                false []), self)
      else
        (* Parse each log file (up to 5 most recent) *)
        let found :=
          flat_map
            (fun log_file =>
               map (fun el => (fst el, snd el, log_file))
                 (_parse_log_file h log_file))
            (firstn 5 (_log_files self)) in
        let self := {| _log_dir := _log_dir self;
                       _log_files := _log_files self;
                       _found_errors := found |} in
        if negb (Py.truthy_list (_found_errors self)) then
          (inr (mkCheckResult name PASS
                  ("No errors in recent logs ("
                     ++ Py.str_of_nat (length (_log_files self))
                     ++ " files checked)")
                  (Some ("Log directory: " ++ path_str h log_dir))
                  false []), self)
        else
          (* Count by severity *)
          let error_count := count_severity "error" (_found_errors self) in
          let status :=
            if (0 <? error_count)%nat then FAIL else WARN in
          (* Build details *)
          let unique := unique_errors [] (_found_errors self) in
          let details_lines :=
            map (fun x =>
                   "â€¢ " ++ message (fst (fst x)) ++ ": "
                     ++ explanation (fst (fst x)))
              (firstn MAX_ERRORS_TO_SHOW unique) in
          (inr (mkCheckResult name status
                  ("Found " ++ Py.str_of_nat (length unique)
                     ++ " issue(s) in logs")
                  (Some (Py.join "
" details_lines))
                  false
                  (map (fun x => suggestion (fst (fst x)))
                     (firstn 3 unique))), self)
  end
end.

(** What [fix] prints for the [i]-th entry of [unique_errors]. *)
Definition explain (i : nat) (x : LogError * string * path)
: list console_call :=
let '(error, line, file) := x in
let severity_color :=
if severity error =? "error" then "red" else "yellow" in
let file_name := match file with
               | Child _ n => n
               | _ => EmptyString
               end in
([ Print ("[bold " ++ severity_color ++ "]" ++ Py.str_of_nat i ++ ". "
          ++ message error ++ "[/bold " ++ severity_color ++ "]");
 Print ("   [dim]File: " ++ file_name ++ "[/dim]") ]
++ (if line =? "" then []
   else if (80 <? String.length line)%nat
        then [Print ("   [dim]Line: " ++ PyText.take 80 line
                       ++ "...[/dim]")]
        else [Print ("   [dim]Line: " ++ line ++ "[/dim]")])
++ [ Print "";
    Print ("   [white]What happened:[/white] " ++ explanation error);
    Print ("   [green]How to fix:[/green] " ++ suggestion error);
    Print "" ])%list.

Fixpoint explain_all (i : nat) (l : list (LogError * string * path))
: list console_call :=
match l with
| [] => []
| x :: rest => (explain i x ++ explain_all (S i) rest)%list
end.

(** Display detailed error explanations. *)
Definition fix_ (self : state) : list console_call * bool :=
if negb (Py.truthy_list (_found_errors self)) then
([Print "[green]No errors found in logs![/green]"], true)
else
(Print "
[bold]Log Error Analysis[/bold]
" :: explain_all 1 (unique_errors [] (_found_errors self)), false).

End LogsCheck.

End logs.

(* ================================================================== *)
(** * Hosts used as examples *)
(* ================================================================== *)

Fixpoint path_eqb (p q : path) : bool :=
  match p, q with
  | Home, Home | Cwd, Cwd => true
  | Child p' n, Child q' m => path_eqb p' q' && (n =? m)
  | _, _ => false
  end.

Fixpoint cmd_eqb (a b : list string) : bool :=
  match a, b with
  | [], [] => true
  | x :: a', y :: b' => (x =? y) && cmd_eqb a' b'
  | _, _ => false
  end.

(** [str(path)] on a POSIX machine whose home is [/home/dev] and whose
    working directory is [/srv/app]. *)
Fixpoint posix_str (p : path) : string :=
  match p with
  | Home => "/home/dev"
  | Cwd => "/srv/app"
  | Child p' n => posix_str p' ++ "/" ++ n
  end.

Definition newline : string := String "010" EmptyString.

(** A Linux machine: [commands] lists the programs on the PATH with the
    output of the commands that run, [variables] the environment,
    [files] the paths that exist with their lines, and [config] what the
    parsers make of a config file. *)
Definition machine_of
    (programs : list (string * string))
    (commands : list (list string * proc_result))
    (variables : list (string * string))
    (files : list (path * list string))
    (config : parsed) : host :=
  {| host_platform := "linux";
     which := fun cmd =>
       option_map snd (find (fun e => fst e =? cmd) programs);
     subprocess_run := fun cmd =>
       match find (fun e => cmd_eqb (fst e) cmd) commands with
       | Some e => snd e
       | None => FileNotFoundError
       end;
     environ_get := fun key =>
       option_map snd (find (fun e => fst e =? key) variables);
     path_exists := fun p => existsb (fun e => path_eqb (fst e) p) files;
     path_str := posix_str;
     open_lines := fun p =>
       match find (fun e => path_eqb (fst e) p) files with
       | Some e => inr (snd e)
       | None => inl (Raise "FileNotFoundError" "No such file or directory")
       end;
     yaml_safe_load := fun _ => inr PyNone;
     read_text := fun p =>
       match find (fun e => path_eqb (fst e) p) files with
       | Some e => inr (String.concat "" (snd e))
       | None => inl (Raise "FileNotFoundError" "No such file or directory")
       end;
     json_loads := fun _ => config;
     yaml_loads := fun _ => config;
     virtual_memory_total := inr (8 * GiB)%Z;
     disk_usage_free := fun _ => inr (100 * GiB)%Z;
     cpu_count := fun logical => Some (if logical then 8 else 4)%Z;
     create_default_config := None;
     client_head := fun _ => Responded;
     os_access := fun _ _ => inr true;
     mkdir := fun _ => None;
     path_is_dir := fun p =>
       existsb (fun e => path_eqb (fst e) p && match snd e with
                                               | [] => true
                                               | _ => false
                                               end) files;
     path_is_file := fun p =>
       existsb (fun e => path_eqb (fst e) p && match snd e with
                                               | [] => false
                                               | _ => true
                                               end) files;
     glob := fun _ _ => [];
     st_mtime := fun _ => inr 0%Z;
     clock := 0%Z;
     read_tail := fun p =>
       match find (fun e => path_eqb (fst e) p) files with
       | Some e => inr (String.concat "" (snd e))
       | None => inl (Raise "FileNotFoundError" "No such file or directory")
       end |}.

Definition dev_programs : list (string * string) :=
  [ ("node", "/usr/bin/node");
    ("openclaw", "/usr/local/bin/openclaw");
    ("docker", "/usr/bin/docker") ].

Definition dev_commands : list (list string * proc_result) :=
  [ (["node"; "--version"], Completed 0 ("v20.10.0" ++ newline) "");
    (["/usr/local/bin/openclaw"; "--version"],
     Completed 0 ("openclaw v1.4.2" ++ newline) "");
    (["docker"; "--version"],
     Completed 0 ("Docker version 24.0.7, build afdd53b" ++ newline) "");
    (["docker"; "info"], Completed 1 "" "Cannot connect to the Docker daemon");
    (["docker"; "compose"; "version"],
     Completed 0 ("Docker Compose version v2.23.0" ++ newline) "") ].

Definition dev_files : list (path * list string) :=
  [ (Home // ".openclaw", []);
    (Home // ".openclaw" // "skills", []);
    (Home // ".openclaw" // "channels", []);
    (Home // ".openclaw" // "workspaces", []);
    (Home // ".openclaw" // "config.json", ["{"]);
    (Home // ".openclaw" // ".env", ["GROQ_API_KEY="]) ].

(** The machine of a developer: docker is installed and stopped, the
    OpenAI key is a project key, the config is a JSON file cut short. *)
Definition dev_host : host :=
  machine_of dev_programs dev_commands
    [("OPENAI_API_KEY", "sk-proj-4f9aXq")]
    dev_files
    (Malformed "Expecting property name enclosed in double quotes").

(** The same machine with a docker that does not answer [--version], no
    variable set, and a config that holds a single number. *)
Definition odd_host : host :=
  machine_of dev_programs
    [ (["docker"; "--version"], Completed 127 "" "exec format error");
      (["docker"; "info"], Completed 0 "" "") ]
    []
    dev_files
    (Parsed (PyInt 42)).

(** A machine on which nothing is installed yet. *)
Definition bare_host : host :=
  machine_of [] [] [] [] (Parsed PyNone).



(** The machine of the developer once the config file is complete. *)
Definition good_host : host :=
  machine_of dev_programs dev_commands [] dev_files
    (Parsed (PyDict [("provider", PyStr "anthropic")])).

(** [h] with a log directory that holds the files [names], all of them
    just written. *)
Definition with_logs (h : host) (names : list string)
    (content : string) : host :=
  {| host_platform := host_platform h;
     which := which h;
     subprocess_run := subprocess_run h;
     environ_get := environ_get h;
     path_exists := fun p =>
       path_eqb p (Home // ".openclaw" // "logs") || path_exists h p;
     path_str := path_str h;
     open_lines := open_lines h;
     yaml_safe_load := yaml_safe_load h;
     read_text := read_text h;
     json_loads := json_loads h;
     yaml_loads := yaml_loads h;
     virtual_memory_total := virtual_memory_total h;
     disk_usage_free := disk_usage_free h;
     cpu_count := cpu_count h;
     create_default_config := create_default_config h;
     client_head := client_head h;
     os_access := os_access h;
     mkdir := mkdir h;
     path_is_dir := fun p =>
       path_eqb p (Home // ".openclaw" // "logs") || path_is_dir h p;
     path_is_file := fun p =>
       match p with
       | Child d n =>
           path_eqb d (Home // ".openclaw" // "logs") && PyText.mem n names
       | _ => false
       end;
     glob := fun p glob_pattern =>
       if path_eqb p (Home // ".openclaw" // "logs")
          && (glob_pattern =? "*.log")
       then names else [];
     st_mtime := fun _ => inr (clock h);
     clock := clock h;
     read_tail := fun _ => inr content |}.

Definition sample_log : string :=
  "12:00:01 INFO gateway started
12:00:07 ERROR anthropic: Rate limit exceeded, retrying
12:00:09 WARN request timed out
12:00:11 ERROR skills: permission denied
".

Definition log_host : host := with_logs bare_host ["gateway.log"] sample_log.

(** What the logs probe returns and remembers on [log_host]. *)
Definition log_host_result : CheckResult :=
  Eval vm_compute in
    match fst (logs.LogsCheck.run logs.LogsCheck.__init__ log_host) with
    | inr r => r
    | inl _ => mkCheckResult "" SKIP "" None false []
    end.

Definition log_host_state : logs.LogsCheck.state :=
  Eval vm_compute in snd (logs.LogsCheck.run logs.LogsCheck.__init__ log_host).

(* ================================================================== *)
(** * Traces: general facts *)
(* ================================================================== *)

Lemma CheckStatus_eqb_spec a b : reflect (a = b) (CheckStatus_eqb a b).
Proof. destruct a, b; simpl; constructor; congruence. Qed.

Section Traces.

Variable World : Type.
Implicit Types (m : machine World) (c : check_class World).
Implicit Types (t : list event).

Lemma runs_app t1 t2 : runs (t1 ++ t2) = (runs t1 ++ runs t2)%list.
Proof. apply flat_map_app. Qed.

Lemma fixes_app t1 t2 : fixes (t1 ++ t2) = (fixes t1 ++ fixes t2)%list.
Proof. apply flat_map_app. Qed.

Lemma inits_app t1 t2 : inits (t1 ++ t2) = (inits t1 ++ inits t2)%list.
Proof. apply flat_map_app. Qed.

Lemma output_app t1 t2 : output (t1 ++ t2) = (output t1 ++ output t2)%list.
Proof. apply flat_map_app. Qed.

Lemma fixes_console l : fixes (map EvConsole l) = [].
Proof. induction l; simpl; auto. Qed.



Lemma machine_eq m w t n :
  world m = w -> trace m = t -> next_instance m = n ->
  m = {| world := w; trace := t; next_instance := n |}.
Proof. destruct m; simpl; intros; subst; reflexivity. Qed.

Ltac machine :=
  apply machine_eq; simpl; auto; try lia;
  repeat rewrite <- app_assoc; simpl;
  rewrite ?Nat.add_0_r, ?Nat.add_1_r; try reflexivity.

Lemma advance_nil m : advance m [] 0 = m.
Proof. symmetry. machine. now rewrite app_nil_r. Qed.

Lemma advance_advance m t1 k1 t2 k2 :
  advance (advance m t1 k1) t2 k2 = advance m (t1 ++ t2) (k1 + k2).
Proof.
  unfold advance; simpl. f_equal.
  - now rewrite app_assoc.
  - lia.
Qed.

Lemma emit_advance e m : emit e m = (inr tt, advance m [e] 0).
Proof. unfold emit, advance. now rewrite Nat.add_0_r. Qed.

Lemma console_advance k m :
  console k m = (inr tt, advance m [EvConsole k] 0).
Proof. apply emit_advance. Qed.

Lemma instantiate_advance c m :
  instantiate c m
  = (inr {| inst_id := next_instance m; inst_class := c;
            inst_state := cls_init c |},
     advance m [EvInit (next_instance m) (cls_name c)] 1).
Proof. unfold instantiate, advance. now rewrite Nat.add_1_r. Qed.

(** ** Every class either returns or raises *)

Lemma returns_or_raises (w : World) (cs : list (check_class World)) :
  (exists rs, Forall2 (returns w) cs rs)
  \/ (exists pre c post rs e,
        cs = (pre ++ c :: post)%list
        /\ Forall2 (returns w) pre rs /\ raises w c e).
Proof.
  induction cs as [|c cs IH].
  - left. exists []. constructor.
  - destruct (fst (cls_run c (cls_init c) w)) as [e|r] eqn:Hc.
    + right. exists [], c, cs, [], e. repeat split; auto.
    + destruct IH as [[rs H]|(pre & c' & post & rs & e & -> & H & He)].
      * left. exists (r :: rs). now constructor.
      * right. exists (c :: pre), c', post, (r :: rs), e.
        repeat split; auto.
Qed.

Lemma returns_deterministic (w : World) cs : forall rs rs',
  Forall2 (returns w) cs rs -> Forall2 (returns w) cs rs' -> rs = rs'.
Proof.
  induction cs as [|c cs IH]; intros rs rs' H H';
    inversion H; inversion H'; subst; auto.
  f_equal; [|now apply IH].
  unfold returns in *. congruence.
Qed.

(** ** The two loops that run the registry *)

Lemma run_loop_ok cs : forall rs acc m,
  Forall2 (returns (world m)) cs rs ->
  run_loop cs acc m
  = (inr (acc ++ rs)%list,
     advance m (run_events (next_instance m) cs) (length cs)).
Proof.
  induction cs as [|c cs IH]; intros rs acc m H; inversion H; subst.
  - simpl. unfold ret. now rewrite app_nil_r, advance_nil.
  - simpl. unfold bind at 1. rewrite instantiate_advance.
    unfold bind at 1. rewrite console_advance.
    unfold bind at 1. unfold call_run. simpl.
    match goal with Hr : returns _ _ _ |- _ => unfold returns in Hr end.
    destruct (cls_run c (cls_init c) (world m)) as [[e|r] st]; simpl in *;
      try discriminate.
    match goal with Hr : inr _ = inr _ |- _ => injection Hr as -> end.
    unfold bind at 1. rewrite console_advance.
    rewrite IH with (rs := l'); [|assumption].
    rewrite <- app_assoc. simpl. f_equal. machine.
Qed.

Lemma run_loop_raises pre : forall c post e rs acc m,
  Forall2 (returns (world m)) pre rs ->
  raises (world m) c e ->
  run_loop (pre ++ c :: post) acc m
  = (inl (Uncaught e),
     advance m (run_events (next_instance m) pre
                ++ run_raise_events (next_instance m + length pre) c)
             (S (length pre))).
Proof.
  induction pre as [|p pre IH]; intros c post e rs acc m H He;
    inversion H; subst.
  - simpl. unfold bind at 1. rewrite instantiate_advance.
    unfold bind at 1. rewrite console_advance.
    unfold bind at 1. unfold call_run. simpl.
    unfold raises in He.
    destruct (cls_run c (cls_init c) (world m)) as [[e'|r] st]; simpl in *;
      try discriminate.
    injection He as ->. f_equal. unfold run_raise_events. machine.
  - simpl. unfold bind at 1. rewrite instantiate_advance.
    unfold bind at 1. rewrite console_advance.
    unfold bind at 1. unfold call_run. simpl.
    match goal with Hr : returns _ _ _ |- _ => unfold returns in Hr end.
    destruct (cls_run p (cls_init p) (world m)) as [[e'|r] st]; simpl in *;
      try discriminate.
    unfold bind at 1. rewrite console_advance.
    rewrite IH with (rs := l') (e := e); [|assumption|assumption].
    f_equal. unfold run_raise_events. machine.
    now replace (S (next_instance m) + length pre)
      with (next_instance m + S (length pre)) by lia.
Qed.

Lemma json_loop_ok cs : forall rs acc m,
  Forall2 (returns (world m)) cs rs ->
  json_loop cs acc m
  = (inr (acc ++ rs)%list,
     advance m (json_events (next_instance m) cs) (length cs)).
Proof.
  induction cs as [|c cs IH]; intros rs acc m H; inversion H; subst.
  - simpl. unfold ret. now rewrite app_nil_r, advance_nil.
  - simpl. unfold bind at 1. rewrite instantiate_advance.
    unfold bind at 1. unfold call_run. simpl.
    match goal with Hr : returns _ _ _ |- _ => unfold returns in Hr end.
    destruct (cls_run c (cls_init c) (world m)) as [[e|r] st]; simpl in *;
      try discriminate.
    match goal with Hr : inr _ = inr _ |- _ => injection Hr as -> end.
    rewrite IH with (rs := l'); [|assumption].
    rewrite <- app_assoc. simpl. f_equal. machine.
Qed.

Lemma json_loop_raises pre : forall c post e rs acc m,
  Forall2 (returns (world m)) pre rs ->
  raises (world m) c e ->
  json_loop (pre ++ c :: post) acc m
  = (inl (Uncaught e),
     advance m (json_events (next_instance m) pre
                ++ json_raise_events (next_instance m + length pre) c)
             (S (length pre))).
Proof.
  induction pre as [|p pre IH]; intros c post e rs acc m H He;
    inversion H; subst.
  - simpl. unfold bind at 1. rewrite instantiate_advance.
    unfold bind at 1. unfold call_run. simpl.
    unfold raises in He.
    destruct (cls_run c (cls_init c) (world m)) as [[e'|r] st]; simpl in *;
      try discriminate.
    injection He as ->. f_equal. unfold json_raise_events. machine.
  - simpl. unfold bind at 1. rewrite instantiate_advance.
    unfold bind at 1. unfold call_run. simpl.
    match goal with Hr : returns _ _ _ |- _ => unfold returns in Hr end.
    destruct (cls_run p (cls_init p) (world m)) as [[e'|r] st]; simpl in *;
      try discriminate.
    rewrite IH with (rs := l') (e := e); [|assumption|assumption].
    f_equal. unfold json_raise_events. machine.
    now replace (S (next_instance m) + length pre)
      with (next_instance m + S (length pre)) by lia.
Qed.

(** ** The tallies of the display loop: everything that is neither PASS
    nor WARN lands in the third counter. *)

Lemma display_loop_spec verbose rs : forall p w f m,
  display_loop verbose rs p w f m
  = (inr (p + count_status PASS rs,
          w + count_status WARN rs,
          f + (count_status FAIL rs + count_status SKIP rs)),
     advance m (map (shown verbose) rs) 0).
Proof.
  induction rs as [|r rs IH]; intros p w f m.
  - simpl. unfold ret, count_status. simpl.
    now rewrite advance_nil, !Nat.add_0_r.
  - simpl. unfold bind at 1. rewrite console_advance.
    unfold count_status. simpl.
    destruct (status r); simpl; rewrite IH, advance_advance; simpl;
      unfold count_status;
      match goal with
      | |- (inr (?a, ?b, ?c), _) = (inr (?a', ?b', ?c'), _) =>
          replace a with a' by lia; replace b with b' by lia;
          replace c with c' by lia; reflexivity
      end.
Qed.

(** ** Order of probe calls *)

Lemma sequenced_app t1 : forall last t2,
  sequenced last (t1 ++ t2)
  = sequenced last t1 && sequenced (last_run last t1) t2.
Proof.
  induction t1 as [|e t1 IH]; intros last t2; simpl; auto.
  destruct e; simpl; auto.
  now rewrite IH, andb_assoc.
Qed.

Lemma sequenced_console l : forall last t,
  sequenced last (map EvConsole l ++ t) = sequenced last t.
Proof. induction l; simpl; auto. Qed.

Lemma sequenced_output l : forall last,
  sequenced last (map EvConsole l) = true.
Proof. induction l; simpl; auto. Qed.


Lemma tidy_nil n : tidy n [].
Proof. split; simpl; auto. constructor. Qed.

Lemma tidy_app n n' t1 t2 :
  tidy n t1 -> n <= n' -> tidy n' t2 -> tidy n (t1 ++ t2)%list.
Proof.
  intros [S1 F1] Hn [S2 F2]. split.
  - intros last. now rewrite sequenced_app, S1, S2.
  - unfold fixes_from in *. rewrite fixes_app. apply Forall_app. split; auto.
    eapply Forall_impl; [|exact F2]. simpl. intros; lia.
Qed.

Lemma tidy_stable : stable tidy.
Proof.
  constructor; try (intros; split; simpl; auto; constructor).
  intros. eapply tidy_app; eauto.
Qed.

Lemma no_fix_stable : stable no_fix.
Proof.
  constructor; try reflexivity.
  unfold no_fix. intros n n' t1 t2 H1 _ H2. now rewrite fixes_app, H1, H2.
Qed.

(** ** Rules for commands that only append *)

Section Rules.

Variable P : nat -> list event -> Prop.
Hypothesis HP : stable P.

Lemma emits_ret A (a : A) : emits P (ret a : M World A).
Proof.
  destruct HP. intros m. exists []. simpl. rewrite app_nil_r. auto.
Qed.

Lemma emits_raise A r : emits P (@raise World A r).
Proof.
  destruct HP. intros m. exists []. simpl. rewrite app_nil_r. auto.
Qed.

Lemma emits_bind A B (k : M World A) (f : A -> M World B) :
  emits P k -> (forall a, emits P (f a)) -> emits P (bind k f).
Proof.
  destruct HP. intros Hk Hf m. unfold bind.
  destruct (Hk m) as (t1 & E1 & L1 & P1).
  destruct (k m) as [[r|a] m1]; simpl in *.
  - exists t1. auto.
  - destruct (Hf a m1) as (t2 & E2 & L2 & P2).
    exists (t1 ++ t2)%list. rewrite E2, E1, app_assoc.
    repeat split; auto; try lia. eauto.
Qed.

Lemma emits_console k : emits P (console k : M World unit).
Proof. destruct HP. intros m. exists [EvConsole k]. simpl. auto. Qed.

Lemma emits_instantiate c : emits P (instantiate c).
Proof.
  destruct HP.
  intros m. exists [EvInit (next_instance m) (cls_name c)]. simpl. auto.
Qed.

Lemma emits_call_run (o : instance World) : emits P (call_run o).
Proof.
  destruct HP.
  intros m. exists [EvRun (inst_id o)]. unfold call_run.
  destruct (cls_run _ _ _) as [[e|r] st]; simpl; auto.
Qed.

Lemma emits_when b (k : M World unit) : emits P k -> emits P (when b k).
Proof. destruct b; simpl; auto using emits_ret. Qed.

Lemma emits_for_each A (l : list A) (body : A -> M World unit) :
  (forall a, emits P (body a)) -> emits P (for_each l body).
Proof.
  intros Hb. induction l as [|a l IH]; simpl.
  - apply emits_ret.
  - apply emits_bind; auto.
Qed.

End Rules.

(** [run] on a new object, then [fix] on it: the block of the batch fix
    pass. *)
Lemma emits_fix_one (registry : list (check_class World)) result :
  emits tidy (fix_one registry result).
Proof.
  unfold fix_one.
  destruct (can_auto_fix result).
  - destruct (class_named registry (name result)) as [c|];
      [|apply (emits_ret tidy_stable)].
    intros m. unfold bind, instantiate, call_run, console, emit, call_fix.
    simpl.
    destruct (cls_run c (cls_init c) (world m)) as [[e|r] st]; simpl.
    + exists [EvInit (next_instance m) (cls_name c); EvRun (next_instance m)].
      rewrite <- app_assoc. simpl. repeat split; auto. constructor.
    + destruct (fix_return (cls_fix c st (world m))) as [e|[|]]; simpl;
        eexists; repeat rewrite <- app_assoc; simpl;
        (split; [reflexivity|]); (split; [lia|]); split;
        try (intros last; simpl; rewrite Nat.eqb_refl; simpl;
             rewrite ?(sequenced_console _ None), ?sequenced_output;
             simpl; try reflexivity);
        unfold fixes_from; simpl;
        rewrite ?fixes_app, ?fixes_console; simpl; auto.
  - destruct (Py.truthy_list (fix_suggestions result)).
    + apply (emits_bind tidy_stable);
        [apply (emits_console tidy_stable)|]. intros _.
      apply (emits_bind tidy_stable).
      * apply (emits_for_each tidy_stable).
        intros a. apply (emits_console tidy_stable).
      * intros _. apply (emits_console tidy_stable).
    + apply (emits_ret tidy_stable).
Qed.

End Traces.

(* ================================================================== *)
(** * The commands, step by step *)
(* ================================================================== *)

Section Batch.

Variable World : Type.
Implicit Types (m : machine World) (c : check_class World).
Implicit Types (t : list event) (cs : list (check_class World)).
Implicit Types (registry : list (check_class World)).

Ltac machine :=
  apply machine_eq; simpl; auto; try lia;
  repeat rewrite <- app_assoc; simpl;
  rewrite ?Nat.add_0_r, ?Nat.add_1_r; try reflexivity.

Lemma for_each_console A (f : A -> console_call) (l : list A) : forall m,
  for_each l (fun a => console (f a)) m
  = (inr tt, advance m (map (fun a => EvConsole (f a)) l) 0).
Proof.
  induction l as [|a l IH]; intros m; simpl.
  - unfold ret. now rewrite advance_nil.
  - unfold bind. rewrite console_advance, IH, advance_advance. reflexivity.
Qed.

Lemma runs_run_events cs : forall n,
  runs (run_events n cs) = seq n (length cs).
Proof. induction cs as [|c cs IH]; intros n; simpl; auto. now rewrite IH. Qed.

Lemma runs_json_events cs : forall n,
  runs (json_events n cs) = seq n (length cs).
Proof. induction cs as [|c cs IH]; intros n; simpl; auto. now rewrite IH. Qed.

Lemma inits_run_events cs : forall n,
  inits (run_events n cs) = combine (seq n (length cs)) (map (@cls_name World) cs).
Proof. induction cs as [|c cs IH]; intros n; simpl; auto. now rewrite IH. Qed.

Lemma inits_json_events cs : forall n,
  inits (json_events n cs) = combine (seq n (length cs)) (map (@cls_name World) cs).
Proof. induction cs as [|c cs IH]; intros n; simpl; auto. now rewrite IH. Qed.

Lemma fixes_run_events cs : forall n, fixes (run_events n cs) = [].
Proof. induction cs as [|c cs IH]; intros n; simpl; auto. Qed.

Lemma fixes_json_events cs : forall n, fixes (json_events n cs) = [].
Proof. induction cs as [|c cs IH]; intros n; simpl; auto. Qed.

Lemma fixes_shown verbose rs : fixes (map (shown verbose) rs) = [].
Proof. induction rs; simpl; auto. Qed.

Lemma runs_shown verbose rs : runs (map (shown verbose) rs) = [].
Proof. induction rs; simpl; auto. Qed.

Lemma inits_shown verbose rs : inits (map (shown verbose) rs) = [].
Proof. induction rs; simpl; auto. Qed.

(** ** run_all_checks *)




Lemma run_all_checks_ok registry do_fix verbose rs m :
  Forall2 (returns (world m)) registry rs ->
  run_all_checks registry do_fix verbose m
  = bind (fix_pass registry do_fix rs)
      (fun _ => ret (rs, count_status PASS rs, count_status WARN rs,
                     count_status FAIL rs + count_status SKIP rs))
      (advance m (first_pass_events registry (next_instance m) verbose rs)
         (length registry)).
Proof.
  intros H. unfold run_all_checks.
  unfold bind at 1. rewrite console_advance.
  unfold bind at 1. rewrite run_loop_ok with (rs := rs) by exact H.
  unfold bind at 1. rewrite display_loop_spec. simpl.
  rewrite !advance_advance. simpl. rewrite !Nat.add_0_r. reflexivity.
Qed.

Lemma run_all_checks_raises do_fix verbose pre c post e rs m :
  Forall2 (returns (world m)) pre rs ->
  raises (world m) c e ->
  run_all_checks (pre ++ c :: post) do_fix verbose m
  = (inl (Uncaught e),
     advance m
       (EvConsole (ProgressAddTask "Running health checks..."
                     (length (pre ++ c :: post)))
        :: run_events (next_instance m) pre
        ++ run_raise_events (next_instance m + length pre) c)
       (S (length pre))).
Proof.
  intros H He. unfold run_all_checks.
  unfold bind at 1. rewrite console_advance.
  unfold bind at 1.
  rewrite run_loop_raises with (rs := rs) (e := e) by assumption.
  rewrite advance_advance. simpl. rewrite ?Nat.add_0_r. reflexivity.
Qed.

Lemma emits_fix_pass registry do_fix rs :
  emits tidy (fix_pass registry do_fix rs).
Proof.
  unfold fix_pass.
  apply (emits_when tidy_stable). apply (emits_when tidy_stable).
  repeat (apply (emits_bind tidy_stable);
          [apply (emits_console tidy_stable)|intros _]).
  apply (emits_for_each tidy_stable). intros r. apply emits_fix_one.
Qed.

(** ** doctor *)


Lemma doctor_json_ok registry version__ do_fix verbose rs m :
  Forall2 (returns (world m)) registry rs ->
  doctor registry version__ do_fix verbose true m
  = (exit_if (0 <? count_status FAIL rs)%nat,
     advance m
       (json_events (next_instance m) registry
        ++ [EvConsole (PrintJSON (json_document version__ rs))])
       (length registry)).
Proof.
  intros H. unfold doctor.
  unfold bind at 1. rewrite json_loop_ok with (rs := rs) by exact H. simpl.
  unfold bind. rewrite console_advance, advance_advance. simpl.
  rewrite Nat.add_0_r.
  unfold exit_if. destruct (0 <? count_status FAIL rs)%nat; reflexivity.
Qed.

Lemma doctor_json_raises version__ do_fix verbose pre c post e rs m :
  Forall2 (returns (world m)) pre rs ->
  raises (world m) c e ->
  doctor (pre ++ c :: post) version__ do_fix verbose true m
  = (inl (Uncaught e),
     advance m
       (json_events (next_instance m) pre
        ++ json_raise_events (next_instance m + length pre) c)
       (S (length pre))).
Proof.
  intros H He. unfold doctor. unfold bind at 1.
  now rewrite json_loop_raises with (rs := rs) (e := e).
Qed.

Lemma doctor_text_raises version__ do_fix verbose pre c post e rs m :
  Forall2 (returns (world m)) pre rs ->
  raises (world m) c e ->
  doctor (pre ++ c :: post) version__ do_fix verbose false m
  = (inl (Uncaught e),
     advance m
       (EvConsole PrintHeader
        :: EvConsole (ProgressAddTask "Running health checks..."
                        (length (pre ++ c :: post)))
        :: run_events (next_instance m) pre
        ++ run_raise_events (next_instance m + length pre) c)
       (S (length pre))).
Proof.
  intros H He. unfold doctor.
  unfold bind at 1. rewrite console_advance.
  unfold bind at 1.
  rewrite run_all_checks_raises with (rs := rs) (e := e) by assumption.
  rewrite advance_advance. simpl. rewrite ?Nat.add_0_r. reflexivity.
Qed.


Lemma bind_from A B (k k' : M World A) (f : A -> M World B) m m' :
  k m = k' m' -> bind k f m = bind k' f m'.
Proof. unfold bind. now intros ->. Qed.


(** ** check *)


Lemma check_not_found registry check_name do_fix verbose m :
  find_check registry check_name = None ->
  check registry check_name do_fix verbose m
  = (inl (Exit 1), advance m (not_found_events registry check_name) 0).
Proof.
  intros H. unfold check. rewrite H.
  unfold bind. rewrite !console_advance, for_each_console.
  rewrite !advance_advance. reflexivity.
Qed.

Lemma fixes_prints A (f : A -> console_call) (l : list A) :
  fixes (map (fun a => EvConsole (f a)) l) = [].
Proof. induction l; simpl; auto. Qed.








(** ** What the loops print, create and run *)

Lemma output_run_events cs : forall n,
  existsb reports_results (output (run_events n cs)) = false.
Proof. induction cs as [|c cs IH]; intros n; simpl; auto. Qed.

Lemma output_json_events cs : forall n, output (json_events n cs) = [].
Proof. induction cs as [|c cs IH]; intros n; simpl; auto. Qed.

Lemma inits_snoc cs c n :
  (combine (seq n (length cs)) (map (@cls_name World) cs)
     ++ [(n + length cs, cls_name c)])%list
  = combine (seq n (S (length cs))) (map (@cls_name World) (cs ++ [c])).
Proof.
  revert n. induction cs as [|c' cs IH]; intros n; simpl.
  - now rewrite Nat.add_0_r.
  - f_equal. rewrite Nat.add_succ_r. exact (IH (S n)).
Qed.

Lemma combine_app_l A B (a : list A) (l1 l2 : list B) :
  length a = length l1 -> combine a (l1 ++ l2) = combine a l1.
Proof.
  revert l1. induction a as [|x a IH]; intros [|y l1] H; simpl in *;
    try discriminate; auto.
  f_equal. apply IH. now injection H.
Qed.

Lemma seq_snoc n k : (seq n k ++ [n + k])%list = seq n (S k).
Proof. now rewrite seq_S. Qed.

(** ** The tallies [run_all_checks] returns *)

Lemma run_all_checks_tallies registry do_fix verbose m rs p w f m' :
  run_all_checks registry do_fix verbose m = (inr (rs, p, w, f), m') ->
  Forall2 (returns (world m)) registry rs
  /\ p = count_status PASS rs
  /\ w = count_status WARN rs
  /\ f = count_status FAIL rs + count_status SKIP rs.
Proof.
  destruct (returns_or_raises (world m) registry)
    as [[rs' H]|(pre & c & post & rs' & e & -> & H & He)].
  - rewrite run_all_checks_ok with (rs := rs') by exact H.
    unfold bind.
    destruct (fix_pass registry do_fix rs' _) as [[r|[]] m3]; simpl;
      intros E; [discriminate E|].
    injection E as <- <- <- <- _. auto.
  - rewrite run_all_checks_raises with (rs := rs') (e := e) by assumption.
    discriminate.
Qed.

(** ** Looking a check up by name *)




(** ** Which objects the batch fix pass fixes *)

Lemma fix_targets_stable rs : stable (fun _ => fix_targets rs).
Proof.
  constructor; try (intros; constructor).
  intros n n' t1 t2 H1 _ H2. unfold fix_targets in *.
  rewrite fixes_app. apply Forall_app. split.
  - eapply Forall_impl; [|exact H1]. simpl.
    intros i (r & ? & ? & ? & Hi). exists r. repeat split; auto.
    rewrite inits_app. apply in_or_app. now left.
  - eapply Forall_impl; [|exact H2]. simpl.
    intros i (r & ? & ? & ? & Hi). exists r. repeat split; auto.
    rewrite inits_app. apply in_or_app. now right.
Qed.

Lemma emits_for_each_in (P : nat -> list event -> Prop) A (l : list A)
    (body : A -> M World unit) :
  stable P ->
  (forall a, In a l -> emits P (body a)) -> emits P (for_each l body).
Proof.
  intros HP Hb. induction l as [|a l IH]; simpl.
  - apply (emits_ret HP).
  - apply (emits_bind HP).
    + apply Hb. now left.
    + intros _. apply IH. intros b Hin. apply Hb. now right.
Qed.

Lemma class_named_name registry n c :
  class_named registry n = Some c -> cls_name c = n.
Proof.
  unfold class_named. intros H. apply find_some in H as [_ H].
  now apply String.eqb_eq.
Qed.

Lemma emits_fix_one_target registry rs result :
  In result rs -> fixable result = true ->
  emits (fun _ => fix_targets rs) (fix_one registry result).
Proof.
  intros Hin Hfixable. unfold fix_one.
  destruct (can_auto_fix result) eqn:Hauto.
  - destruct (class_named registry (name result)) as [c|] eqn:Hc;
      [|apply (emits_ret (fix_targets_stable rs))].
    apply class_named_name in Hc.
    intros m. unfold bind, instantiate, call_run, console, emit, call_fix.
    simpl.
    destruct (cls_run c (cls_init c) (world m)) as [[e|r] st]; simpl.
    + exists [EvInit (next_instance m) (cls_name c); EvRun (next_instance m)].
      rewrite <- app_assoc. simpl. repeat split; auto. constructor.
    + destruct (fix_return (cls_fix c st (world m))) as [e|[|]]; simpl;
        eexists; repeat rewrite <- app_assoc; simpl;
        (split; [reflexivity|]); (split; [lia|]);
        unfold fix_targets; simpl;
        rewrite ?fixes_app, ?fixes_console; simpl;
        (constructor; [|constructor]);
        exists result; rewrite Hc; repeat split; auto; now left.
  - destruct (Py.truthy_list (fix_suggestions result)).
    + apply (emits_bind (fix_targets_stable rs));
        [apply (emits_console (fix_targets_stable rs))|]. intros _.
      apply (emits_bind (fix_targets_stable rs)).
      * apply (emits_for_each (fix_targets_stable rs)).
        intros a. apply (emits_console (fix_targets_stable rs)).
      * intros _. apply (emits_console (fix_targets_stable rs)).
    + apply (emits_ret (fix_targets_stable rs)).
Qed.

Lemma emits_fix_pass_target registry do_fix rs :
  emits (fun _ => fix_targets rs) (fix_pass registry do_fix rs).
Proof.
  unfold fix_pass.
  apply (emits_when (fix_targets_stable rs)).
  apply (emits_when (fix_targets_stable rs)).
  repeat (apply (emits_bind (fix_targets_stable rs));
          [apply (emits_console (fix_targets_stable rs))|intros _]).
  apply (emits_for_each_in _ _ (fix_targets_stable rs)).
  intros r Hr. apply filter_In in Hr as [Hin Hf].
  now apply emits_fix_one_target.
Qed.

Lemma doctor_targets registry version__ do_fix verbose json_output m rs :
  Forall2 (returns (world m)) registry rs ->
  exists t,
    trace (snd (doctor registry version__ do_fix verbose json_output m))
    = (trace m ++ t)%list
    /\ fix_targets rs t.
Proof.
  intros H. destruct json_output.
  - rewrite doctor_json_ok with (rs := rs) by exact H. simpl.
    eexists; split; [reflexivity|]. unfold fix_targets.
    rewrite fixes_app, fixes_json_events. constructor.
  - unfold doctor. unfold bind at 1. rewrite console_advance.
    erewrite bind_from by (apply run_all_checks_ok; exact H).
    match goal with
    | |- context [bind (bind ?k ?r) ?f ?m1] =>
        destruct (@emits_bind World (fun _ => fix_targets rs) (fix_targets_stable rs)
                    _ _ (bind k r) f) with (m := m1)
          as (t & E & L & T)
    end.
    + apply (emits_bind (fix_targets_stable rs));
        [apply emits_fix_pass_target|].
      intros _. apply (emits_ret (fix_targets_stable rs)).
    + intros [[[? ?] ?] ?].
      apply (emits_bind (fix_targets_stable rs));
        [apply (emits_console (fix_targets_stable rs))|].
      intros _. destruct (0 <? _)%nat;
        [apply (emits_raise (fix_targets_stable rs))
        |apply (emits_ret (fix_targets_stable rs))].
    + rewrite E. simpl. rewrite <- !app_assoc. simpl.
      eexists; split; [reflexivity|].
      unfold fix_targets in *. unfold first_pass_events.
      cbn [fixes flat_map app].
      rewrite !fixes_app, fixes_run_events, fixes_shown. simpl.
      eapply Forall_impl; [|exact T]. simpl.
      intros i (r & ? & ? & ? & Hi). exists r. repeat split; auto.
      cbn [inits flat_map app]. rewrite !inits_app.
      repeat (apply in_or_app; right). exact Hi.
Qed.

End Batch.

(* ================================================================== *)
(** * The registered probes, path by path *)
(* ================================================================== *)

(** Case analysis on every test of a [run] whose outcome is [H]; what is
    left of [H] equates the result of the path with the result at hand. *)
Ltac run_paths H :=
  cbv beta zeta delta
    [NodeJSCheck.run OpenClawCheck.run DockerCheck.run
     ConfigCheck.run APIKeysCheck.run NetworkCheck.run] in H;
  repeat match type of H with
         | context [match ?x with _ => _ end] =>
             destruct x; cbv beta iota zeta in H
         end;
  try discriminate H;
  injection H as H _; rewrite <- H; clear H.

Lemma NodeJSCheck_suggestions w : NodeJSCheck._get_install_suggestions w <> [].
Proof.
  unfold NodeJSCheck._get_install_suggestions.
  destruct (platform w =? "darwin"); [discriminate|].
  destruct (platform w =? "win32"); discriminate.
Qed.

Lemma DockerCheck_suggestions w : DockerCheck._get_install_suggestions w <> [].
Proof.
  unfold DockerCheck._get_install_suggestions.
  destruct (platform w =? "darwin"); [discriminate|].
  destruct (platform w =? "win32"); discriminate.
Qed.

(** On every path: the name, a status other than SKIP, and a suggestion
    where one is due. *)
Ltac shape H :=
  run_paths H; unfold actionable;
  cbn [name status can_auto_fix fix_suggestions];
  (split; [reflexivity|]); (split; [discriminate|]);
  intros [?|?] ?; try discriminate;
  auto using NodeJSCheck_suggestions, DockerCheck_suggestions.

Lemma NodeJSCheck_run_shape self w r self' :
  NodeJSCheck.run self w = (inr r, self') ->
  name r = NodeJSCheck.name /\ status r <> SKIP /\ actionable r.
Proof. intros H. shape H. Qed.

Lemma OpenClawCheck_run_shape self w r self' :
  OpenClawCheck.run self w = (inr r, self') ->
  name r = OpenClawCheck.name /\ status r <> SKIP /\ actionable r.
Proof. intros H. shape H. Qed.

Lemma DockerCheck_run_shape self w r self' :
  DockerCheck.run self w = (inr r, self') ->
  name r = DockerCheck.name /\ status r <> SKIP /\ actionable r.
Proof. intros H. shape H. Qed.

Lemma ConfigCheck_run_shape self w r self' :
  ConfigCheck.run self w = (inr r, self') ->
  name r = ConfigCheck.name /\ status r <> SKIP /\ actionable r.
Proof. intros H. shape H. Qed.

Lemma APIKeysCheck_run_shape self w r self' :
  APIKeysCheck.run self w = (inr r, self') ->
  name r = APIKeysCheck.name /\ status r <> SKIP /\ actionable r.
Proof. intros H. shape H. Qed.

Lemma NetworkCheck_run_shape self w r self' :
  NetworkCheck.run self w = (inr r, self') ->
  name r = NetworkCheck.name /\ status r <> SKIP /\ actionable r.
Proof. intros H. shape H. Qed.

(** The comparison of the quotient with a threshold in GB is the
    comparison of the byte count with the threshold in bytes. *)
Lemma lt_int_to_gb total n :
  SystemCheck.lt_int (SystemCheck.to_gb total) n
  = (total <? n * 1024 ^ 3)%Z.
Proof.
  unfold SystemCheck.lt_int, SystemCheck.to_gb, Py.Qltb, Qle_bool, inject_Z.
  cbn [Qnum Qden].
  rewrite Z.mul_1_r.
  change (Z.pos (Z.to_pos (1024 ^ 3))) with (1024 ^ 3)%Z.
  destruct (Z.leb_spec (n * 1024 ^ 3) total), (Z.ltb_spec total (n * 1024 ^ 3));
    simpl; auto; lia.
Qed.

(** [SystemCheck.run]: a result without suggestions is a pass, or a
    warning on a machine with too few cores. *)
Lemma SystemCheck_run_shape self w r self' :
  SystemCheck.run self w = (inr r, self') ->
  name r = SystemCheck.name
  /\ status r <> SKIP
  /\ can_auto_fix r = false
  /\ (fix_suggestions r = [] ->
      status r = PASS
      \/ (status r = WARN
          /\ (SystemCheck._cpu_cores self' < SystemCheck.MIN_CPU_CORES)%Z)).
Proof.
  unfold SystemCheck.run. cbv zeta.
  destruct (mem_total (now w)) as [e|total]; [discriminate|].
  destruct (disk_free (now w)) as [e|free]; [discriminate|].
  cbn [SystemCheck._issues SystemCheck._warnings SystemCheck.set_memory
       SystemCheck._ram_gb SystemCheck._disk_gb SystemCheck._cpu_cores].
  unfold SystemCheck._get_suggestions.
  cbn [SystemCheck._issues SystemCheck._warnings SystemCheck.set_memory
       SystemCheck._ram_gb SystemCheck._disk_gb SystemCheck._cpu_cores].
  rewrite !lt_int_to_gb.
  set (cores := Py.or_int _ _).
  destruct (total <? SystemCheck.MIN_RAM_GB * 1024 ^ 3)%Z eqn:R2;
    destruct (total <? SystemCheck.RECOMMENDED_RAM_GB * 1024 ^ 3)%Z eqn:R4;
    destruct (free <? SystemCheck.MIN_DISK_GB * 1024 ^ 3)%Z eqn:D;
    destruct (cores <? SystemCheck.MIN_CPU_CORES)%Z eqn:C;
    cbn [Py.truthy_list app];
    intros H; injection H as <- <-;
    cbn [name status can_auto_fix fix_suggestions SystemCheck._cpu_cores app];
    (split; [reflexivity|]); (split; [discriminate|]);
    (split; [reflexivity|]);
    intros Hs; try discriminate Hs; auto;
    try (right; split; [reflexivity|apply Z.ltb_lt; exact C]);
    try (apply Z.ltb_lt in R2; apply Z.ltb_ge in R4;
         unfold SystemCheck.MIN_RAM_GB, SystemCheck.RECOMMENDED_RAM_GB in *;
         lia).
Qed.

(** ** The registry as a whole *)

Lemma registered_run_shape c self w r self' :
  In c ALL_CHECKS ->
  cls_run c self w = (inr r, self') ->
  name r = cls_name c /\ status r <> SKIP.
Proof.
  intros Hin H. unfold ALL_CHECKS in Hin. simpl in Hin.
  repeat (destruct Hin as [<-|Hin]); try contradiction;
    [ apply NodeJSCheck_run_shape in H | apply OpenClawCheck_run_shape in H
    | apply DockerCheck_run_shape in H | apply SystemCheck_run_shape in H
    | apply ConfigCheck_run_shape in H | apply APIKeysCheck_run_shape in H
    | apply NetworkCheck_run_shape in H ];
    destruct H as (Hn & Hs & _); split; assumption.
Qed.

Lemma no_skip_count (w : World) cs : forall rs,
  (forall c, In c cs -> In c ALL_CHECKS) ->
  Forall2 (returns w) cs rs -> count_status SKIP rs = 0.
Proof.
  induction cs as [|c cs IH]; intros rs Hsub H; inversion H; subst; auto.
  unfold count_status in *. simpl.
  match goal with Hr : returns _ _ _ |- _ => unfold returns in Hr end.
  destruct (cls_run c (cls_init c) w) as [o st] eqn:E. simpl in *. subst o.
  assert (Hs : status y <> SKIP).
  { eapply registered_run_shape; [apply Hsub; now left|exact E]. }
  destruct (status y); try congruence; simpl; apply IH; auto;
    intros c' Hc'; apply Hsub; now right.
Qed.

(* ================================================================== *)
(** * Properties of the orchestration engine *)
(* ================================================================== *)

(** ** Tallies and exit code *)



(** ** Exceptions raised by a probe *)

(** C2, counterexample.  The claim says that an exception raised by a
    probe's [run] is caught, turned into a Fail result, and that the pass
    goes on.  With a config file that cannot be read, [ConfigCheck.run]
    raises [PermissionError]; both branches of [doctor] end with that
    exception uncaught, only the first five probes were instantiated, and
    nothing was reported. *)
Lemma unreadable_config_aborts_doctor :
  fst (doctor ALL_CHECKS "0.1.0" false false false (start unreadable_config))
  = inl (Uncaught permission_denied)
  /\ fst (doctor ALL_CHECKS "0.1.0" false false true (start unreadable_config))
     = inl (Uncaught permission_denied)
  /\ inits (trace (snd (doctor ALL_CHECKS "0.1.0" false false false
                          (start unreadable_config))))
     = [(0, "Node.js"); (1, "OpenClaw"); (2, "Docker"); (3, "System");
        (4, "Config")]
  /\ existsb reports_results
       (output (trace (snd (doctor ALL_CHECKS "0.1.0" false false false
                              (start unreadable_config))))) = false.
Proof. vm_compute. repeat split. Qed.

(** C2, as amended.  When the [run] of a registered probe raises, and the
    probes before it in the registry return, the batch command (either
    branch, any flags) ends with that exception uncaught: the probes up to
    the offending one were instantiated and run once each in registry
    order, no later probe was, no [fix] was called, and no result was
    displayed, summarized or serialized. *)
Theorem run_exception_propagates :
  forall World (pre : list (check_class World)) c post version__
         do_fix verbose json_output (w : World) rs e,
    Forall2 (returns w) pre rs ->
    raises w c e ->
    let r := doctor (pre ++ c :: post) version__ do_fix verbose json_output
               (start w) in
    fst r = inl (Uncaught e)
    /\ inits (trace (snd r))
       = combine (seq 0 (S (length pre))) (map (@cls_name World) (pre ++ [c]))
    /\ runs (trace (snd r)) = seq 0 (S (length pre))
    /\ fixes (trace (snd r)) = []
    /\ existsb reports_results (output (trace (snd r))) = false.
Proof.
  intros World pre c post version__ do_fix verbose json_output w rs e H He r.
  subst r. destruct json_output.
  - rewrite doctor_json_raises with (rs := rs) (e := e) by assumption.
    simpl. unfold json_raise_events.
    rewrite inits_app, runs_app, fixes_app, output_app.
    rewrite inits_json_events, runs_json_events, fixes_json_events,
      output_json_events. simpl.
    rewrite inits_snoc, seq_snoc. repeat split; reflexivity.
  - rewrite doctor_text_raises with (rs := rs) (e := e) by assumption.
    simpl. unfold run_raise_events.
    rewrite inits_app, runs_app, fixes_app, output_app.
    rewrite inits_run_events, runs_run_events, fixes_run_events. simpl.
    rewrite inits_snoc, seq_snoc. repeat split; try reflexivity.
    rewrite existsb_app, output_run_events. reflexivity.
Qed.

(** C2, witness: the registry as shipped, split at the config probe, on
    the machine whose config file cannot be read. *)
Lemma run_exception_propagates_witness :
  let r := doctor (before_config ++ ConfigCheck.cls :: after_config) "0.1.0"
             true true false (start unreadable_config) in
  Forall2 (returns unreadable_config) before_config results_before_config
  /\ raises unreadable_config ConfigCheck.cls permission_denied
  /\ fst r = inl (Uncaught permission_denied)
  /\ inits (trace (snd r))
     = combine (seq 0 (S (length before_config)))
         (map (@cls_name World) (before_config ++ [ConfigCheck.cls]))
  /\ runs (trace (snd r)) = seq 0 (S (length before_config))
  /\ fixes (trace (snd r)) = []
  /\ existsb reports_results (output (trace (snd r))) = false.
Proof.
  intros r.
  assert (H : Forall2 (returns unreadable_config) before_config
                results_before_config).
  { unfold before_config, results_before_config.
    repeat (constructor; [unfold returns; vm_compute; reflexivity|]).
    constructor. }
  assert (He : raises unreadable_config ConfigCheck.cls permission_denied)
    by (unfold raises; vm_compute; reflexivity).
  split; [exact H|]. split; [exact He|].
  exact (@run_exception_propagates World before_config ConfigCheck.cls
           after_config "0.1.0" true true false unreadable_config
           results_before_config permission_denied H He).
Defined.

(** ** The auto-fix flag and the suggestions *)


(** C5.  Claim: a Warn or Fail result that is not auto-fixable carries at
    least one suggestion.  On a machine with 8 GB of RAM, 100 GB of free
    disk and one core, [SystemCheck.run] returns a Warn result about the
    CPU with [can_auto_fix = False] and an empty [fix_suggestions]:
    [_get_suggestions] has a line for RAM and lines for disk, none for
    CPU. *)
Theorem system_cpu_warning_has_no_suggestion :
  exists r,
    returns single_core SystemCheck.cls r
    /\ status r = WARN
    /\ details r = Some "CPU: 1 cores (recommended 2+)"
    /\ can_auto_fix r = false
    /\ fix_suggestions r = [].
Proof.
  eexists. split; [unfold returns; vm_compute; reflexivity|].
  repeat split; reflexivity.
Qed.

(** ** Constructing a result *)

(** C6, counterexample.  The claim says that a result with an empty
    message is rejected.  [CheckResult(name="Test", status=PASS,
    message="")] is constructed, with the defaults for the other fields. *)
Lemma empty_message_is_accepted :
  CheckResult_init (Some "Test") (Some PASS) (Some "") None None None
  = inr {| name := "Test"; status := PASS; message := ""; details := None;
           can_auto_fix := false; fix_suggestions := [] |}.
Proof. reflexivity. Qed.

(** C6, as amended.  Constructing a result without a [message] argument
    is rejected (it raises), whatever the other arguments; with [name],
    [status] and any [message], the empty one included, and nothing else,
    the result is constructed with [details = None],
    [can_auto_fix = False] and [fix_suggestions = []]. *)
Theorem CheckResult_init_requires_message_argument :
  (forall a_name a_status a_details a_can_auto_fix a_fix_suggestions,
      exists e,
        CheckResult_init a_name a_status None a_details a_can_auto_fix
          a_fix_suggestions = inl e)
  /\ (forall n s m,
         CheckResult_init (Some n) (Some s) (Some m) None None None
         = inr {| name := n; status := s; message := m; details := None;
                  can_auto_fix := false; fix_suggestions := [] |}).
Proof.
  split.
  - intros [n|] [s|] d c f; eexists; reflexivity.
  - reflexivity.
Qed.

(** ** Looking a probe up by name *)



(** ** The order of [run] and [fix] *)




(** ** Result names *)

(** C9.  On every path of the [run] of a registered class that returns,
    whatever the object's attributes and the machine, the result's [name]
    is the class attribute [name]; and the lookup of the batch fix pass,
    by that name among the registered classes, finds the class itself. *)
Theorem result_name_is_class_name :
  forall c self w r self',
    In c ALL_CHECKS ->
    cls_run c self w = (inr r, self') ->
    name r = cls_name c
    /\ class_named ALL_CHECKS (name r) = Some c.
Proof.
  intros c self w r self' Hin H.
  assert (Hn : name r = cls_name c)
    by (eapply registered_run_shape; eassumption).
  split; [exact Hn|]. rewrite Hn.
  unfold ALL_CHECKS in Hin. simpl in Hin.
  repeat (destruct Hin as [<-|Hin]); try reflexivity. contradiction.
Qed.

(** C9, witness: the Node.js probe on the healthy machine. *)
Lemma result_name_is_class_name_witness :
  let r := mkCheckResult "Node.js" PASS "Node.js v20.10.0 installed"
             (Some "Path: /usr/bin/node") false [] in
  In NodeJSCheck.cls ALL_CHECKS
  /\ cls_run NodeJSCheck.cls NodeJSCheck.__init__ healthy
     = (inr r, NodeJSCheck.mkState (Some [20; 10; 0]%Z) (Some "/usr/bin/node"))
  /\ name r = cls_name NodeJSCheck.cls
  /\ class_named ALL_CHECKS (name r) = Some NodeJSCheck.cls.
Proof.
  intros r.
  assert (Hin : In NodeJSCheck.cls ALL_CHECKS) by (left; reflexivity).
  assert (Hrun : cls_run NodeJSCheck.cls NodeJSCheck.__init__ healthy
                 = (inr r, NodeJSCheck.mkState (Some [20; 10; 0]%Z)
                             (Some "/usr/bin/node")))
    by (vm_compute; reflexivity).
  split; [exact Hin|]. split; [exact Hrun|].
  exact (@result_name_is_class_name NodeJSCheck.cls NodeJSCheck.__init__
           healthy r _ Hin Hrun).
Defined.

(** ** Machine-readable output *)

(** C10, counterexample.  The claim says that with [--json] the [run] of
    each registered probe is invoked exactly once.  With a config file
    that cannot be read the command ends with the [PermissionError] of
    [ConfigCheck.run]: the API-keys and network probes are never
    instantiated, and nothing is printed. *)
Lemma unreadable_config_stops_json_pass :
  let r := doctor ALL_CHECKS "0.1.0" true false true
             (start unreadable_config) in
  fst r = inl (Uncaught permission_denied)
  /\ inits (trace (snd r))
     = [(0, "Node.js"); (1, "OpenClaw"); (2, "Docker"); (3, "System");
        (4, "Config")]
  /\ runs (trace (snd r)) = [0; 1; 2; 3; 4]
  /\ output (trace (snd r)) = [].
Proof. vm_compute. repeat split. Qed.

(** C10, as amended.  With [--json] the batch command never calls [fix],
    whatever the [--fix] flag, and leaves the machine as it was; the
    top-level callback without a subcommand is that very command.  The
    registered probes are instantiated and run in registry order, each at
    most once.  When the [run] of every registered probe returns, each is
    run exactly once, the only console output is the JSON document of the
    results and their summary, and the command exits with 1 exactly when
    a result is FAIL.  Otherwise the command ends with the exception of
    the first [run] that raises, and prints nothing. *)
Theorem json_output_never_fixes :
  forall World (registry : list (check_class World)) version__
         do_fix verbose (w : World),
    let r := doctor registry version__ do_fix verbose true (start w) in
    fixes (trace (snd r)) = []
    /\ world (snd r) = w
    /\ callback registry version__ None do_fix verbose true false (start w) = r
    /\ (exists k,
           k <= length registry
           /\ runs (trace (snd r)) = seq 0 k
           /\ inits (trace (snd r))
              = combine (seq 0 k) (map (@cls_name World) registry))
    /\ (forall rs,
           Forall2 (returns w) registry rs ->
           runs (trace (snd r)) = seq 0 (length registry)
           /\ output (trace (snd r))
              = [PrintJSON (json_document version__ rs)]
           /\ fst r = exit_if (0 <? count_status FAIL rs)%nat)
    /\ ((forall rs, ~ Forall2 (returns w) registry rs) ->
        exists e, fst r = inl (Uncaught e) /\ output (trace (snd r)) = []).
Proof.
  intros World registry version__ do_fix verbose w r.
  assert (Hcb : callback registry version__ None do_fix verbose true false
                  (start w) = r) by reflexivity.
  subst r.
  destruct (returns_or_raises w registry)
    as [[rs H]|(pre & c & post & rs & e & -> & H & He)].
  - rewrite doctor_json_ok with (rs := rs) in * by exact H. simpl.
    rewrite fixes_app, runs_app, inits_app, output_app.
    rewrite fixes_json_events, runs_json_events, inits_json_events,
      output_json_events. simpl. rewrite !app_nil_r.
    split; [reflexivity|]. split; [reflexivity|]. split; [exact Hcb|].
    split; [exists (length registry); auto|].
    split.
    + intros rs' H'. rewrite (returns_deterministic H' H). auto.
    + intros Hno. destruct (Hno rs H).
  - rewrite doctor_json_raises with (rs := rs) (e := e) in * by assumption.
    simpl. unfold json_raise_events.
    rewrite fixes_app, runs_app, inits_app, output_app.
    rewrite fixes_json_events, runs_json_events, inits_json_events,
      output_json_events. simpl.
    split; [reflexivity|]. split; [reflexivity|]. split; [exact Hcb|].
    split.
    + exists (S (length pre)). rewrite seq_snoc, inits_snoc.
      split; [rewrite length_app; simpl; lia|]. split; [reflexivity|].
      replace (pre ++ c :: post)%list with ((pre ++ [c]) ++ post)%list
        by (rewrite <- app_assoc; reflexivity).
      rewrite (map_app (@cls_name World) (pre ++ [c]) post).
      rewrite combine_app_l; [reflexivity|].
      rewrite length_seq, length_map, length_app. simpl. lia.
    + split.
      * intros rs' H'. exfalso.
        apply Forall2_app_inv_l in H' as (l1 & l2 & _ & H2 & _).
        inversion H2 as [|? r' ? ? Hr _]; subst.
        unfold returns in Hr. unfold raises in He. congruence.
      * intros _. exists e. auto.
Qed.

(** C10, witness: [--json --fix] on the machine without [node]: the
    Node.js result is FAIL and auto-fixable, no [fix] is called, and the
    command exits with 1. *)
Lemma json_output_never_fixes_witness :
  let r := doctor ALL_CHECKS "0.1.0" true false true (start node_missing) in
  Forall2 (returns node_missing) ALL_CHECKS node_missing_results
  /\ fixes (trace (snd r)) = []
  /\ runs (trace (snd r)) = seq 0 (length ALL_CHECKS)
  /\ output (trace (snd r))
     = [PrintJSON (json_document "0.1.0" node_missing_results)]
  /\ fst r = exit_if (0 <? count_status FAIL node_missing_results)%nat.
Proof.
  intros r.
  assert (H : Forall2 (returns node_missing) ALL_CHECKS node_missing_results).
  { unfold ALL_CHECKS, node_missing_results.
    repeat (constructor; [unfold returns; vm_compute; reflexivity|]).
    constructor. }
  split; [exact H|].
  destruct (@json_output_never_fixes World ALL_CHECKS "0.1.0" true false
              node_missing) as (Hfix & _ & _ & _ & Hall & _).
  split; [exact Hfix|]. exact (Hall node_missing_results H).
Defined.

(* ================================================================== *)
(** * How far the two defects reach on the registry as shipped *)
(* ================================================================== *)

(** The derived predicates of a result. *)
Lemma passed_iff r : passed r = true <-> status r = PASS \/ status r = WARN.
Proof.
  unfold passed. destruct (status r); simpl; split; auto;
    try discriminate; intros [H|H]; discriminate.
Qed.

Lemma is_warning_iff r : is_warning r = true <-> status r = WARN.
Proof.
  unfold is_warning. destruct (status r); simpl; split; auto; discriminate.
Qed.

(** The fix pass considers every result that is not a plain pass. *)
Lemma fixable_iff r : fixable r = true <-> status r <> PASS.
Proof.
  unfold fixable, passed, is_warning.
  destruct (status r); simpl; split; auto; try discriminate;
    intros H; exfalso; now apply H.
Qed.

(** No registered probe reports SKIP, so on the registry as shipped the
    tallies of [run_all_checks] are those of the JSON summary: the
    catch-all branch of the display loop only ever sees FAIL. *)
Lemma shipped_registry_tallies do_fix verbose (w : World) rs p n f m' :
  run_all_checks ALL_CHECKS do_fix verbose (start w)
  = (inr (rs, p, n, f), m') ->
  (p, n, f) = json_summary rs /\ count_status SKIP rs = 0.
Proof.
  intros H.
  apply run_all_checks_tallies in H as (Hr & -> & -> & ->).
  simpl in Hr.
  assert (Hs : count_status SKIP rs = 0)
    by (eapply no_skip_count; [|exact Hr]; auto).
  unfold json_summary. rewrite Hs, Nat.add_0_r. auto.
Qed.

(** Among the results of the registered probes, a Warn or Fail result
    that is not auto-fixable and carries no suggestion is a warning of the
    system probe (the one for a machine with fewer than [MIN_CPU_CORES]
    cores, see [SystemCheck_run_shape]). *)
Lemma unsuggested_results_are_system_warnings c self w r self' :
  In c ALL_CHECKS ->
  cls_run c self w = (inr r, self') ->
  status r = WARN \/ status r = FAIL ->
  can_auto_fix r = false ->
  fix_suggestions r = [] ->
  c = SystemCheck.cls /\ status r = WARN.
Proof.
  intros Hin H Hst Hfix Hnil. unfold ALL_CHECKS in Hin. simpl in Hin.
  repeat (destruct Hin as [<-|Hin]); try contradiction;
    [ apply NodeJSCheck_run_shape in H | apply OpenClawCheck_run_shape in H
    | apply DockerCheck_run_shape in H | apply SystemCheck_run_shape in H
    | apply ConfigCheck_run_shape in H | apply APIKeysCheck_run_shape in H
    | apply NetworkCheck_run_shape in H ];
    try (destruct H as (_ & _ & Hact); destruct (Hact Hst Hfix Hnil)).
  destruct H as (_ & _ & _ & Hsys).
  destruct (Hsys Hnil) as [Hp|[Hw _]]; [|auto].
  destruct Hst as [Hst|Hst]; congruence.
Qed.
(* ================================================================== *)
(** * More about the command layer *)
(* ================================================================== *)

Section MoreBatch.

Variable World : Type.
Implicit Types (m : machine World) (c : check_class World).
Implicit Types (t : list event) (cs : list (check_class World)).
Implicit Types (registry : list (check_class World)).

Ltac machine :=
  apply machine_eq; simpl; auto; try lia;
  repeat rewrite <- app_assoc; simpl;
  rewrite ?Nat.add_0_r, ?Nat.add_1_r; try reflexivity.

Lemma count_status_total (rs : list CheckResult) :
  count_status PASS rs + count_status WARN rs
  + (count_status FAIL rs + count_status SKIP rs) = length rs.
Proof.
  unfold count_status. induction rs as [|r rs IH]; [reflexivity|].
  simpl. destruct (status r); simpl; lia.
Qed.

Lemma Forall2_length_eq A B (R : A -> B -> Prop) l l' :
  Forall2 R l l' -> length l = length l'.
Proof. induction 1; simpl; congruence. Qed.

(** X1.  When [run_all_checks] returns, it returns one result for each
    registered class, and its three tallies add up to the number of
    classes: every result is counted exactly once. *)
Theorem tallies_count_every_probe_once registry do_fix verbose m rs p w f m' :
  run_all_checks registry do_fix verbose m = (inr (rs, p, w, f), m') ->
  length rs = length registry /\ p + w + f = length registry.
Proof.
  intros H. apply run_all_checks_tallies in H as (Hr & -> & -> & ->).
  apply Forall2_length_eq in Hr. split; [congruence|].
  rewrite count_status_total. congruence.
Qed.

(** ** Commands that end by returning or by an uncaught exception *)

Lemma no_exit_ret A (a : A) : no_exit (ret a : M World A).
Proof. intros m x H. discriminate H. Qed.

Lemma no_exit_bind A B (k : M World A) (f : A -> M World B) :
  no_exit k -> (forall a, no_exit (f a)) -> no_exit (bind k f).
Proof.
  intros Hk Hf m x. unfold bind.
  destruct (k m) as [[r|a] m1] eqn:E.
  - intros H. apply (Hk m). rewrite E. cbn [fst] in *. congruence.
  - apply Hf.
Qed.

Lemma no_exit_console k : no_exit (console k : M World unit).
Proof. intros m x H. discriminate H. Qed.

Lemma no_exit_instantiate c : no_exit (instantiate c).
Proof. intros m x H. discriminate H. Qed.

Lemma no_exit_call_run (o : instance World) : no_exit (call_run o).
Proof.
  intros m x. unfold call_run.
  destruct (cls_run _ _ _) as [[e|r] st]; cbn [fst]; intros H;
    [injection H as <-; eauto|discriminate].
Qed.

Lemma no_exit_call_fix (o : instance World) : no_exit (call_fix o).
Proof.
  intros m x. unfold call_fix. cbv zeta.
  destruct (fix_return _) as [e|b]; cbn [fst]; intros H;
    [injection H as <-; eauto|discriminate].
Qed.

Lemma no_exit_when b (k : M World unit) : no_exit k -> no_exit (when b k).
Proof. destruct b; simpl; intros H; [exact H|apply no_exit_ret]. Qed.

Lemma no_exit_for_each A (l : list A) (body : A -> M World unit) :
  (forall a, no_exit (body a)) -> no_exit (for_each l body).
Proof.
  intros Hb. induction l as [|a l IH]; simpl.
  - apply no_exit_ret.
  - apply no_exit_bind; auto.
Qed.

Lemma no_exit_fix_one registry result : no_exit (fix_one registry result).
Proof.
  unfold fix_one.
  destruct (can_auto_fix result).
  - destruct (class_named registry (name result)); [|apply no_exit_ret].
    repeat (apply no_exit_bind; intros);
      auto using no_exit_instantiate, no_exit_call_run, no_exit_console,
        no_exit_call_fix, no_exit_when.
  - destruct (Py.truthy_list _); [|apply no_exit_ret].
    repeat (apply no_exit_bind; intros);
      auto using no_exit_console, no_exit_for_each.
Qed.

Lemma no_exit_fix_pass registry do_fix rs :
  no_exit (fix_pass registry do_fix rs).
Proof.
  unfold fix_pass. apply no_exit_when. cbv zeta. apply no_exit_when.
  repeat (apply no_exit_bind; intros);
    auto using no_exit_console, no_exit_for_each, no_exit_fix_one.
Qed.

Lemma fix_pass_off registry rs m :
  fix_pass registry false rs m = (inr tt, m).
Proof. reflexivity. Qed.

(** What [doctor] does in text mode when every [run] returns. *)
Lemma doctor_text_split registry version__ do_fix verbose rs m :
  Forall2 (returns (world m)) registry rs ->
  let m1 := advance m
              (EvConsole PrintHeader
               :: first_pass_events registry (next_instance m) verbose rs)
              (length registry) in
  let summary := EvConsole (PrintSummary (count_status PASS rs)
                              (count_status WARN rs)
                              (count_status FAIL rs + count_status SKIP rs)) in
  doctor registry version__ do_fix verbose false m
  = match fix_pass registry do_fix rs m1 with
    | (inl x, m2) => (inl x, m2)
    | (inr _, m2) =>
        (exit_if (0 <? count_status FAIL rs + count_status SKIP rs)%nat,
         advance m2 [summary] 0)
    end.
Proof.
  intros Hr m1 summary. unfold doctor.
  unfold bind at 1. rewrite console_advance.
  unfold bind at 1.
  rewrite run_all_checks_ok with (rs := rs) by exact Hr.
  cbn [next_instance advance].
  replace (advance (advance m [EvConsole PrintHeader] 0) _ _) with m1.
  2:{ unfold m1. rewrite advance_advance, Nat.add_0_r. reflexivity. }
  unfold bind at 1.
  destruct (fix_pass registry do_fix rs m1) as [[x|[]] m2]; [reflexivity|].
  unfold ret. cbv beta iota zeta.
  unfold bind at 1. rewrite console_advance. fold summary.
  unfold exit_if.
  destruct (0 <? _)%nat; reflexivity.
Qed.


(** X2.  In text mode, a [doctor --fix] that ends without an uncaught
    exception ends exactly as [doctor] without [--fix] does, and shows
    the same report with the output of the fix pass inserted before the
    summary: the fix pass changes neither the exit code nor the
    summary. *)
Theorem fix_pass_does_not_change_the_verdict registry version__ verbose m o :
  fst (doctor registry version__ true verbose false m) = o ->
  (forall e, o <> inl (Uncaught e)) ->
  fst (doctor registry version__ false verbose false m) = o
  /\ exists before summary during,
       trace (snd (doctor registry version__ false verbose false m))
       = (before ++ [summary])%list
       /\ trace (snd (doctor registry version__ true verbose false m))
          = (before ++ during ++ [summary])%list.
Proof.
  intros Ho Hne.
  destruct (returns_or_raises (world m) registry)
    as [(rs & Hr)|(pre & c & post & rs & e & -> & Hr & He)].
  - rewrite doctor_text_split with (rs := rs) in Ho |- * by exact Hr.
    rewrite doctor_text_split with (rs := rs) by exact Hr.
    cbv zeta in *. rewrite fix_pass_off.
    set (m1 := advance m _ _) in *.
    destruct (emits_fix_pass registry true rs m1) as (t & Ht & _).
    pose proof (@no_exit_fix_pass registry true rs m1) as Hx.
    destruct (fix_pass registry true rs m1) as [[x|[]] m2]; cbn [fst snd] in *.
    + destruct (Hx x eq_refl) as (e & ->). subst o. now destruct (Hne e).
    + split; [exact Ho|].
      exists (trace m1), (EvConsole (PrintSummary (count_status PASS rs)
                                      (count_status WARN rs)
                                      (count_status FAIL rs
                                       + count_status SKIP rs))), t.
      cbn [trace advance]. rewrite Ht, <- app_assoc. auto.
  - rewrite doctor_text_raises with (rs := rs) (e := e) in Ho by assumption.
    cbn [fst] in Ho. subst o. now destruct (Hne e).
Qed.

(** What [check] does with a name it knows. *)
Lemma check_found registry check_name do_fix verbose m c :
  find_check registry check_name = Some c ->
  check registry check_name do_fix verbose m
  = let i := next_instance m in
    let began := [EvConsole PrintHeader; EvInit i (cls_name c); EvRun i] in
    match cls_run c (cls_init c) (world m) with
    | (inl e, _) => (inl (Uncaught e), advance m began 1)
    | (inr r, st) =>
        let m1 := advance m (began ++ [shown verbose r]) 1 in
        let ending m2 := (exit_if (CheckStatus_eqb (status r) FAIL), m2) in
        if do_fix && fixable r then
          if can_auto_fix r then
            let eff := cls_fix c st (world m) in
            let out :=
              (EvConsole (Print "")
               :: EvConsole (PrintFixAction ("Attempting to fix: " ++ name r))
               :: EvFix i :: map EvConsole (fix_console eff))%list in
            let m2 := {| world := fix_world eff;
                         trace := (trace m1 ++ out)%list;
                         next_instance := next_instance m1 |} in
            match fix_return eff with
            | inl e => (inl (Uncaught e), m2)
            | inr true =>
                ending (advance m2
                          [EvConsole (PrintSuccess (name r ++ " fixed!"))] 0)
            | inr false => ending m2
            end
          else if Py.truthy_list (fix_suggestions r) then
            ending
              (advance m1
                 (EvConsole (Print "")
                  :: EvConsole (Print "[bold]Manual fix required:[/bold]")
                  :: map (fun s => EvConsole
                                     (Print ("  [dim]•[/dim] " ++ s)))
                       (fix_suggestions r)) 0)
          else ending (advance m1 [EvConsole (Print "")] 0)
        else ending m1
    end.
Proof.
  intros Hf. unfold check. rewrite Hf. cbv zeta.
  unfold bind, instantiate, call_run. rewrite console_advance.
  cbn [world trace next_instance inst_id inst_class inst_state advance].
  destruct (cls_run c (cls_init c) (world m)) as [[e|r] st].
  - f_equal. machine.
  - cbn [fst snd inst_id inst_class inst_state world trace next_instance].
    rewrite console_advance. unfold fixable.
    destruct do_fix; cbn [andb when].
    2:{ unfold ret, exit_if, raise.
        destruct (CheckStatus_eqb (status r) FAIL); f_equal; machine. }
    destruct (negb (passed r) || is_warning r); cbn [when].
    2:{ unfold ret, exit_if, raise.
        destruct (CheckStatus_eqb (status r) FAIL); f_equal; machine. }
    rewrite console_advance.
    destruct (can_auto_fix r).
    + rewrite console_advance. unfold call_fix.
      cbn [world trace next_instance inst_id inst_class inst_state advance].
      destruct (fix_return (cls_fix c st (world m))) as [e|[|]];
        cbn [when]; rewrite ?console_advance; unfold ret, exit_if, raise;
        try destruct (CheckStatus_eqb (status r) FAIL); f_equal; machine.
    + destruct (Py.truthy_list (fix_suggestions r)).
      * rewrite console_advance, for_each_console. unfold ret, exit_if, raise.
        destruct (CheckStatus_eqb (status r) FAIL); f_equal; machine.
      * unfold ret, exit_if, raise.
        destruct (CheckStatus_eqb (status r) FAIL); f_equal; machine.
Qed.




End MoreBatch.


Lemma Forall2_In_r A B (R : A -> B -> Prop) l l' y :
  Forall2 R l l' -> In y l' -> exists x, In x l /\ R x y.
Proof.
  induction 1 as [|a b l l' Hab H IH]; intros Hin; [destruct Hin|].
  destruct Hin as [<-|Hin].
  - exists a. split; [now left|exact Hab].
  - destruct (IH Hin) as (x & Hx & HR). exists x. split; [now right|exact HR].
Qed.

Lemma map_JStr_injective l1 : forall l2, map JStr l1 = map JStr l2 -> l1 = l2.
Proof.
  induction l1 as [|a l1 IH]; intros [|b l2] H; try discriminate; auto.
  simpl in H. injection H as -> H. f_equal. now apply IH.
Qed.

(** X5.  [to_dict] loses nothing: two results with the same dictionary
    are the same result. *)
Theorem to_dict_injective r1 r2 : to_dict r1 = to_dict r2 -> r1 = r2.
Proof.
  destruct r1 as [n1 s1 m1 d1 c1 f1], r2 as [n2 s2 m2 d2 c2 f2].
  unfold to_dict. cbn [name status message details can_auto_fix fix_suggestions].
  intros H. injection H as Hn Hs Hm Hd Hc Hf.
  apply map_JStr_injective in Hf. subst.
  assert (s1 = s2) by (destruct s1, s2; simpl in Hs; congruence).
  assert (d1 = d2) by (destruct d1, d2; congruence).
  subst. reflexivity.
Qed.

(** A result that says it can be fixed automatically does not come from
    the system probe or the network probe. *)
Lemma auto_fixable_class c self w r self' :
  In c ALL_CHECKS ->
  cls_run c self w = (inr r, self') ->
  can_auto_fix r = true ->
  name r = cls_name c
  /\ cls_name c <> SystemCheck.name /\ cls_name c <> NetworkCheck.name.
Proof.
  intros Hin H Hfix.
  split; [eapply registered_run_shape; eauto|].
  unfold ALL_CHECKS in Hin. simpl in Hin.
  repeat (destruct Hin as [<-|Hin]); try contradiction;
    try (split; discriminate).
  - apply SystemCheck_run_shape in H as (_ & _ & Hc & _). congruence.
  - cbn [cls_run NetworkCheck.cls] in H. unfold NetworkCheck.run in H.
    cbv zeta in H.
    set (s := NetworkCheck.probe_endpoints _ _ _) in H. clearbody s.
    (destruct (negb _) in H; [|destruct (Py.truthy_list _) in H];
      injection H as <- _; discriminate Hfix).
Qed.

(** X6.  On the registry as shipped, neither [doctor] nor [check] ever
    calls [fix] on an object of the system probe or of the network probe:
    every object that is fixed was created from another class. *)
Theorem system_and_network_are_never_fixed
    version__ do_fix verbose json_output check_name (w : World) :
  let batch :=
    trace (snd (doctor ALL_CHECKS version__ do_fix verbose json_output
                  (start w))) in
  let single :=
    trace (snd (check ALL_CHECKS check_name do_fix verbose (start w))) in
  forall t i,
    t = batch \/ t = single ->
    In i (fixes t) ->
    exists n,
      In (i, n) (inits t)
      /\ n <> SystemCheck.name /\ n <> NetworkCheck.name.
Proof.
  intros batch single t i [->| ->] Hi.
  - unfold batch in *. clear batch single.
    destruct (returns_or_raises w ALL_CHECKS)
      as [(rs & Hr)|(pre & c & post & rs & e & Heq & Hr & He)].
    + destruct (@doctor_targets World ALL_CHECKS version__ do_fix verbose
                  json_output (start w) rs Hr) as (t & Ht & Htg).
      cbn [trace start app] in Ht. rewrite Ht in Hi |- *.
      unfold fix_targets in Htg. rewrite Forall_forall in Htg.
      destruct (Htg i Hi) as (r & Hin & _ & Hfix & Hinit).
      destruct (@Forall2_In_r _ _ _ _ _ r Hr Hin) as (c & Hc & Hret).
      unfold returns in Hret.
      destruct (cls_run c (cls_init c) w) as [o st] eqn:E.
      cbn [fst] in Hret. subst o.
      destruct (@auto_fixable_class c _ w r st Hc E Hfix) as (Hn & H1 & H2).
      exists (name r). rewrite <- Hn in H1, H2. auto.
    + exfalso. rewrite Heq in Hi. destruct json_output.
      * rewrite doctor_json_raises with (rs := rs) (e := e) in Hi
          by assumption.
        cbn [snd trace advance start app] in Hi.
        rewrite fixes_app, fixes_json_events in Hi. exact Hi.
      * rewrite doctor_text_raises with (rs := rs) (e := e) in Hi
          by assumption.
        cbn [snd trace advance start app fixes flat_map] in Hi.
        rewrite fixes_app, fixes_run_events in Hi. exact Hi.
  - unfold single in *. clear batch single.
    destruct (find_check ALL_CHECKS check_name) as [c|] eqn:Hf.
    + assert (Hc : In c ALL_CHECKS)
        by (unfold find_check in Hf; apply find_some in Hf; tauto).
      rewrite check_found with (c := c) in Hi |- * by exact Hf.
      cbv zeta in Hi |- *. cbn [start world next_instance] in Hi |- *.
      destruct (cls_run c (cls_init c) w) as [[e|r] st] eqn:E;
        [destruct Hi|].
      destruct (do_fix && fixable r);
        [|cbn in Hi; rewrite ?Bool.andb_false_r in Hi; destruct Hi].
      destruct (can_auto_fix r) eqn:Hfix.
      * destruct (@auto_fixable_class c _ w r st Hc E Hfix) as (_ & H1 & H2).
        exists (cls_name c). split; [|auto].
        assert (Hi0 : i = 0).
        { destruct (fix_return _) as [e|[|]];
            cbn [snd trace advance start app fixes flat_map exit_if] in Hi;
            rewrite ?app_nil_r, ?fixes_app, ?fixes_console in Hi;
            cbn [fixes flat_map app] in Hi;
            rewrite ?fixes_console in Hi;
            destruct Hi as [Hi|[]]; auto. }
        subst i.
        destruct (fix_return _) as [e|[|]];
          cbn [snd trace advance start app inits flat_map exit_if];
          now left.
      * destruct (Py.truthy_list _);
          cbn [snd trace advance start app fixes flat_map exit_if] in Hi;
          rewrite ?fixes_prints in Hi; destruct Hi.
    + rewrite check_not_found in Hi by exact Hf.
      unfold not_found_events in Hi.
      cbn [snd trace advance start app fixes flat_map] in Hi.
      rewrite fixes_prints in Hi. destruct Hi.
Qed.

(* ================================================================== *)
(** * What the user sees *)
(* ================================================================== *)







(* ================================================================== *)
(** * The verdicts of the registered probes *)
(* ================================================================== *)

(** X9.  When memory and disk can be read, the system probe returns
    FAIL iff the memory is below 2 GiB or the free disk below 20 GiB,
    otherwise WARN iff the memory is below 4 GiB or there are fewer than
    2 cores, otherwise PASS; the result is never auto-fixable. *)
Theorem system_status_thresholds self (w : World) total free :
  mem_total (now w) = inr total ->
  disk_free (now w) = inr free ->
  let cores := Py.or_int (cpu_count_physical (now w))
                 (Py.or_int (cpu_count_logical (now w)) 1) in
  exists r self',
    SystemCheck.run self w = (inr r, self')
    /\ can_auto_fix r = false
    /\ status r
       = if ((total <? 2 * GiB) || (free <? 20 * GiB))%Z then FAIL
         else if ((total <? 4 * GiB) || (cores <? 2))%Z then WARN
         else PASS.
Proof.
  intros Hm Hd cores. unfold SystemCheck.run. cbv zeta.
  rewrite Hm, Hd.
  cbn [SystemCheck._issues SystemCheck._warnings SystemCheck.set_memory
       SystemCheck._ram_gb SystemCheck._disk_gb SystemCheck._cpu_cores].
  rewrite !lt_int_to_gb. fold cores.
  change (SystemCheck.MIN_RAM_GB * 1024 ^ 3)%Z with (2 * GiB)%Z.
  change (SystemCheck.RECOMMENDED_RAM_GB * 1024 ^ 3)%Z with (4 * GiB)%Z.
  change (SystemCheck.MIN_DISK_GB * 1024 ^ 3)%Z with (20 * GiB)%Z.
  change SystemCheck.MIN_CPU_CORES with 2%Z.
  destruct (total <? 2 * GiB)%Z eqn:R2;
    destruct (total <? 4 * GiB)%Z eqn:R4;
    destruct (free <? 20 * GiB)%Z eqn:D;
    destruct (cores <? 2)%Z eqn:C;
    cbn [Py.truthy_list app orb];
    do 2 eexists; (split; [reflexivity|]); split; reflexivity.
Qed.

Lemma probe_endpoints_spec w eps : forall self,
  let self' := NetworkCheck.probe_endpoints w eps self in
  NetworkCheck._reachable self'
  = (NetworkCheck._reachable self ++ map fst (filter (answers w) eps))%list
  /\ length (NetworkCheck._unreachable self')
     = length (NetworkCheck._unreachable self)
       + length (filter (fun e => negb (answers w e)) eps).
Proof.
  induction eps as [|[n url] eps IH]; intros self; cbn zeta.
  - simpl. rewrite app_nil_r. auto.
  - cbn [NetworkCheck.probe_endpoints]. cbv zeta.
    match goal with
    | |- context [NetworkCheck.probe_endpoints w eps ?s] =>
        destruct (IH s) as (H1 & H2)
    end.
    cbv zeta in H1, H2. rewrite H1, H2. clear H1 H2 IH.
    assert (Ha : answers w (n, url)
                 = match head_request (now w) url with
                   | Responded => true
                   | _ => false
                   end) by reflexivity.
    cbn [filter]. rewrite Ha.
    destruct (head_request (now w) url);
      cbn [NetworkCheck._reachable NetworkCheck._unreachable negb filter map
           fst length];
      rewrite ?length_app, <- ?app_assoc; cbn [length app]; split;
      try reflexivity; lia.
Qed.

Lemma filter_split_length A (f : A -> bool) l :
  length (filter f l) + length (filter (fun a => negb (f a)) l) = length l.
Proof.
  induction l as [|a l IH]; [reflexivity|].
  simpl. destruct (f a); simpl; lia.
Qed.

(** X10.  The network probe always returns: it files each of the four
    endpoints as reachable or unreachable, the reachable ones being those
    that answer, and its status is FAIL when none answers, PASS when all
    four answer and WARN otherwise; the result is never auto-fixable. *)
Theorem network_status_counts_answers self (w : World) :
  let up := filter (answers w) NetworkCheck.ENDPOINTS in
  exists r self',
    NetworkCheck.run self w = (inr r, self')
    /\ NetworkCheck._reachable self' = map fst up
    /\ length (NetworkCheck._reachable self')
       + length (NetworkCheck._unreachable self')
       = length NetworkCheck.ENDPOINTS
    /\ can_auto_fix r = false
    /\ status r = match length up with
                  | 0 => FAIL
                  | 4 => PASS
                  | _ => WARN
                  end.
Proof.
  intros up. unfold NetworkCheck.run. cbv zeta.
  destruct (probe_endpoints_spec w NetworkCheck.ENDPOINTS
              {| NetworkCheck._reachable := [];
                 NetworkCheck._unreachable := [] |}) as (H1 & H2).
  cbv zeta in H1, H2. cbn [NetworkCheck._reachable NetworkCheck._unreachable
                           app length Nat.add] in H1, H2.
  fold up in H1.
  pose proof (filter_split_length (answers w) NetworkCheck.ENDPOINTS) as Hs.
  fold up in Hs. rewrite <- H2 in Hs.
  set (s := NetworkCheck.probe_endpoints _ _ _) in *. clearbody s.
  assert (Hl : length (NetworkCheck._reachable s) = length up)
    by (rewrite H1; apply length_map).
  change (length NetworkCheck.ENDPOINTS) with 4 in Hs.
  clear H2. clearbody up.
  destruct (NetworkCheck._reachable s) as [|a l] eqn:Er;
    cbn [Py.truthy_list negb];
    [|destruct (NetworkCheck._unreachable s) as [|b u] eqn:Eu;
      cbn [Py.truthy_list]];
    do 2 eexists; (split; [reflexivity|]);
    cbn [status can_auto_fix]; rewrite Er, ?Eu;
    change (length NetworkCheck.ENDPOINTS) with 4;
    cbn [length] in *;
    (split; [exact H1|]); (split; [lia|]); (split; [reflexivity|]);
    remember (length up) as n eqn:En;
    destruct n as [|[|[|[|[|k]]]]]; try reflexivity; exfalso; lia.
Qed.

(** X11.  When the config file parses to a non-zero number, to [True] or
    to a text that contains [provider], the config probe returns no
    result: [run] raises a [TypeError]. *)
Theorem config_scalar_document_raises self (w : World) path doc :
  found_config (now w) = inr (Some path) ->
  parsed_config (now w) = inr doc ->
  (exists z, doc = PyInt z /\ z <> 0%Z)
  \/ doc = PyBool true
  \/ (exists s, doc = PyStr s /\ Py.contains "provider" s = true) ->
  exists msg, fst (ConfigCheck.run self w) = inl (Raise "TypeError" msg).
Proof.
  intros Hf Hp Hdoc. unfold ConfigCheck.run. rewrite Hf, Hp. cbv zeta.
  cbn [ConfigCheck._config_path ConfigCheck._config].
  destruct Hdoc as [(z & -> & Hz)|[->|(s & -> & Hs)]].
  - cbn [ConfigCheck.falsy]. apply Z.eqb_neq in Hz. rewrite Hz.
    eexists. reflexivity.
  - eexists. reflexivity.
  - cbn [ConfigCheck.falsy].
    destruct (s =? "") eqn:E.
    + apply String.eqb_eq in E. subst s. discriminate Hs.
    + unfold ConfigCheck._validate_config, ConfigCheck.REQUIRED_FIELDS.
      cbn [ConfigCheck.collect_missing ConfigCheck.is_missing
           ConfigCheck.contains_field].
      rewrite Hs. eexists. reflexivity.
Qed.

(** X12.  The docker probe and the API keys probe never report FAIL:
    whenever their [run] returns, the status is PASS or WARN. *)
Theorem docker_and_api_keys_never_fail c self (w : World) r self' :
  c = DockerCheck.cls \/ c = APIKeysCheck.cls ->
  cls_run c self w = (inr r, self') ->
  status r = PASS \/ status r = WARN.
Proof.
  intros [-> | ->] H; cbn [cls_run DockerCheck.cls APIKeysCheck.cls] in H;
    run_paths H; cbn [status]; auto.
Qed.

(* ================================================================== *)
(** * Text: stripping, scanning, digits *)
(* ================================================================== *)





(** [rstrip] stops at a character that is not white space. *)
Lemma rstrip_cons_nonempty c s :
  PyText.rstrip s <> "" -> PyText.rstrip (String c s) = String c (PyText.rstrip s).
Proof.
  intros H. simpl. destruct (PyText.rstrip s); [contradiction|reflexivity].
Qed.

Lemma rstrip_nonspace_head c s :
  PyText.is_space c = false ->
  PyText.rstrip (String c s) = String c (PyText.rstrip s).
Proof.
  intros H. simpl. rewrite H. destruct (PyText.rstrip s); reflexivity.
Qed.

Lemma rstrip_app x z :
  PyText.rstrip z <> "" -> PyText.rstrip (x ++ z) = x ++ PyText.rstrip z.
Proof.
  intros H. induction x as [|c x IH]; [reflexivity|].
  cbn [append]. rewrite rstrip_cons_nonempty; rewrite IH; auto.
  destruct x; simpl; [exact H|discriminate].
Qed.

Lemma rstrip_no_space s :
  PyText.all_chars (fun c => negb (PyText.is_space c)) s = true ->
  PyText.rstrip s = s.
Proof.
  induction s as [|c s IH]; [reflexivity|].
  cbn [PyText.all_chars]. intros H. apply Bool.andb_true_iff in H as [H1 H2].
  apply Bool.negb_true_iff in H1.
  rewrite rstrip_nonspace_head by exact H1. now rewrite IH.
Qed.


Lemma lstrip_nonspace_head c s :
  PyText.is_space c = false -> PyText.lstrip (String c s) = String c s.
Proof. intros H. simpl. now rewrite H. Qed.

Lemma before_app sep x z :
  PyText.all_chars (fun c => negb (Ascii.eqb c sep)) x = true ->
  PyText.before sep (x ++ String sep z) = x.
Proof.
  induction x as [|c x IH]; cbn [PyText.all_chars append PyText.before].
  - now rewrite Ascii.eqb_refl.
  - intros H. apply Bool.andb_true_iff in H as [H1 H2].
    apply Bool.negb_true_iff in H1. rewrite H1. now rewrite IH.
Qed.




Lemma prefix_app old rest : String.prefix old (old ++ rest) = true.
Proof.
  induction old as [|c old IH]; simpl; [destruct rest; reflexivity|].
  destruct (ascii_dec c c); [exact IH|contradiction].
Qed.

Lemma prefix_one c s : String.prefix (String c "") (String c s) = true.
Proof. apply (prefix_app (String c "") s). Qed.




(** ** Decimal numerals *)






(* ================================================================== *)
(** * The helpers of the probes *)
(* ================================================================== *)







Lemma truthy_str_some p : p <> "" -> Py.truthy_str (Some p) = true.
Proof.
  intros H. unfold Py.truthy_str.
  destruct (String.eqb_spec p ""); [contradiction|reflexivity].
Qed.









(** X16.  When docker is on the PATH but [docker --version] does not
    succeed (and no command raises an exception of its own), the probe
    reports that docker is not installed, whether or not the daemon runs,
    and the result is not auto-fixable. *)
Theorem docker_without_version_reads_as_not_installed h self p :
  which h "docker" = Some p -> p <> "" ->
  (forall out err,
      subprocess_run h ["docker"; "--version"] <> Completed 0 out err) ->
  (forall cmd e, subprocess_run h cmd <> ProcRaises e) ->
  exists running r self',
    docker._check_docker h = inr (None, running)
    /\ DockerCheck.run self (at_host h) = (inr r, self')
    /\ status r = WARN
    /\ can_auto_fix r = false
    /\ message r = "Docker is not installed (optional for desktop use)".
Proof.
  intros Hw Hp Hver Hraise.
  assert (Hd : exists running, docker._check_docker h = inr (None, running)).
  { unfold docker._check_docker. rewrite Hw, (truthy_str_some Hp).
    cbn [negb].
    destruct (subprocess_run h ["docker"; "--version"])
      as [rc out err| | |e] eqn:E1; cbn [guarded];
      [|idtac|idtac|now destruct (Hraise _ _ E1)].
    - destruct (rc =? 0)%Z eqn:Erc.
      + apply Z.eqb_eq in Erc. subst rc. now destruct (Hver out err).
      + destruct (subprocess_run h ["docker"; "info"])
          as [rc' out' err'| | |e] eqn:E2; cbn [guarded]; eauto.
        now destruct (Hraise _ _ E2).
    - destruct (subprocess_run h ["docker"; "info"])
        as [rc' out' err'| | |e] eqn:E2; cbn [guarded]; eauto.
      now destruct (Hraise _ _ E2).
    - destruct (subprocess_run h ["docker"; "info"])
        as [rc' out' err'| | |e] eqn:E2; cbn [guarded]; eauto.
      now destruct (Hraise _ _ E2). }
  destruct Hd as (running & Hd). exists running.
  assert (Hc : exists compose, docker._check_compose h = inr compose).
  { unfold docker._check_compose, docker.compose_v2, docker.compose_v1.
    destruct (subprocess_run h ["docker"; "compose"; "version"])
      as [rc out err| | |e] eqn:E1; cbn [guarded];
      [|idtac|idtac|now destruct (Hraise _ _ E1)];
      try destruct (rc =? 0)%Z; eauto;
      destruct (Py.truthy_str (which h "docker-compose")); eauto;
      destruct (subprocess_run h ["docker-compose"; "--version"])
        as [rc' out' err'| | |e] eqn:E2; cbn [guarded]; eauto;
      now destruct (Hraise _ _ E2). }
  destruct Hc as (compose & Hc).
  unfold DockerCheck.run. cbn [at_host now observe docker_info compose_info].
  rewrite Hd, Hc. cbv zeta.
  cbn [DockerCheck._docker_version Py.truthy_str negb].
  do 2 eexists. split; [reflexivity|].
  split; [reflexivity|]. repeat split; reflexivity.
Qed.

(** ** API keys *)

(** A variable that is set and breaks its pattern ends up in [invalid]. *)
Lemma check_keys_invalid h keys : forall found invalid k,
  In k invalid
  \/ (In k keys
      /\ exists c v p,
           environ_get h k = Some (String c v)
           /\ api_keys.pattern_of api_keys.KEY_PATTERNS k = Some p
           /\ api_keys.re_match p (String c v) = false) ->
  In k (snd (api_keys.check_keys h keys found invalid)).
Proof.
  induction keys as [|key keys IH]; intros found invalid k H.
  - destruct H as [H|([] & _)]. exact H.
  - cbn [api_keys.check_keys].
    destruct H as [H|([<-|Hin] & c & v & p & Hv & Hp & Hm)].
    + destruct (environ_get h key) as [[|c v]|]; try (apply IH; now left).
      destruct (api_keys.pattern_of api_keys.KEY_PATTERNS key) as [p|];
        [|apply IH; now left].
      destruct (api_keys.re_match p (String c v)); cbn [negb];
        apply IH; left; auto using in_or_app.
    + rewrite Hv, Hp, Hm. cbn [negb]. apply IH. left.
      apply in_or_app. right. now left.
    + assert (Hk : In k keys
                   /\ exists c v p,
                        environ_get h k = Some (String c v)
                        /\ api_keys.pattern_of api_keys.KEY_PATTERNS k = Some p
                        /\ api_keys.re_match p (String c v) = false)
        by (split; [exact Hin|exists c, v, p; auto]).
      destruct (environ_get h key) as [[|c' v']|];
        [apply IH; auto| |apply IH; auto].
      destruct (api_keys.pattern_of api_keys.KEY_PATTERNS key) as [p'|];
        [|apply IH; auto].
      destruct (api_keys.re_match p' (String c' v')); cbn [negb];
        apply IH; auto.
Qed.

(** X17.  An [OPENAI_API_KEY] that starts with [sk-proj-] does not match
    the pattern for OpenAI keys, whatever follows: the key is filed as
    invalid and the probe reports a WARN that is not auto-fixable. *)
Theorem openai_project_key_is_reported_invalid h self rest :
  environ_get h "OPENAI_API_KEY" = Some ("sk-proj-" ++ rest) ->
  let invalid := snd (api_keys._check_env_keys h) in
  In "OPENAI_API_KEY" invalid
  /\ exists r self',
       APIKeysCheck.run self (at_host h) = (inr r, self')
       /\ status r = WARN
       /\ can_auto_fix r = false
       /\ message r = "Some API keys appear invalid: " ++ Py.join ", " invalid.
Proof.
  intros Hv invalid.
  assert (Hin : In "OPENAI_API_KEY" invalid).
  { apply check_keys_invalid. right. split; [cbn; tauto|].
    do 3 eexists. split; [exact Hv|]. split; reflexivity. }
  split; [exact Hin|].
  unfold APIKeysCheck.run.
  cbn [at_host now observe env_keys env_file config_keys].
  unfold invalid in *. clear invalid.
  destruct (api_keys._check_env_keys h) as [found invalid].
  destruct (api_keys._check_env_file h) as [file_keys file_path].
  cbv zeta. cbn [snd] in *.
  cbn [APIKeysCheck._invalid_keys].
  destruct invalid as [|k invalid]; [destruct Hin|].
  cbn [Py.truthy_list].
  do 2 eexists. split; [reflexivity|]. repeat split; reflexivity.
Qed.

Lemma contains_eq_app x z : Py.contains "=" (x ++ String "=" z) = true.
Proof.
  induction x as [|c x IH]; cbn [append Py.contains].
  - now rewrite prefix_one.
  - rewrite IH. apply Bool.orb_true_r.
Qed.

(** What the names of [ENV_KEYS] have in common. *)
Lemma env_key_shape k :
  In k api_keys.ENV_KEYS ->
  (exists x s, k = String x s /\ PyText.is_space x = false
               /\ String.prefix "#" (String x s) = false)
  /\ PyText.all_chars (fun c => negb (PyText.is_space c)) k = true
  /\ PyText.all_chars (fun c => negb (Ascii.eqb c "=")) k = true
  /\ PyText.mem k api_keys.ENV_KEYS = true.
Proof.
  intros Hin. unfold api_keys.ENV_KEYS in Hin. simpl in Hin.
  repeat (destruct Hin as [<-|Hin]); try contradiction;
    (split; [do 2 eexists; split; [reflexivity|split; reflexivity]|]);
    repeat split; reflexivity.
Qed.

(** A line [KEY=value] names its key, whatever the value. *)
Lemma env_line_entry k value :
  In k api_keys.ENV_KEYS ->
  api_keys.env_line (k ++ "=" ++ value) = [k ++ " (in .env)"].
Proof.
  intros Hin.
  destruct (env_key_shape Hin) as ((x & s & Ek & Hx & Hhash) & Hsp & Heq & Hmem).
  unfold api_keys.env_line. cbv zeta.
  assert (Hz : PyText.rstrip (String "=" value)
               = String "=" (PyText.rstrip value))
    by (apply rstrip_nonspace_head; reflexivity).
  assert (Hstrip : PyText.strip (k ++ "=" ++ value)
                   = k ++ String "=" (PyText.rstrip value)).
  { unfold PyText.strip. rewrite Ek at 1. cbn [append].
    rewrite lstrip_nonspace_head by exact Hx.
    change (String x (s ++ String "=" value))
      with (String x s ++ String "=" value).
    rewrite <- Ek, rstrip_app by (rewrite Hz; discriminate).
    now rewrite Hz. }
  rewrite Hstrip.
  replace (k ++ String "=" (PyText.rstrip value) =? "") with false
    by (rewrite Ek; reflexivity).
  replace (prefix "#" (k ++ String "=" (PyText.rstrip value))) with false
    by (rewrite Ek at 1; cbn [append]; symmetry;
        revert Hhash; cbn [String.prefix];
        destruct (ascii_dec "#" x); [|reflexivity];
        destruct s; discriminate).
  cbn [orb]. rewrite contains_eq_app, before_app by exact Heq.
  assert (Hk : PyText.strip k = k).
  { unfold PyText.strip. rewrite Ek at 1.
    rewrite lstrip_nonspace_head by exact Hx. rewrite <- Ek.
    now apply rstrip_no_space. }
  now rewrite Hk, Hmem.
Qed.

(** X18.  An entry [KEY=value] of the env file counts as a configured
    key whatever its value, the empty one included: when no key of the
    environment is invalid, the probe reports PASS. *)
Theorem env_file_entry_counts_whatever_its_value h self k value :
  In k api_keys.ENV_KEYS ->
  path_exists h (Home // ".openclaw" // ".env") = true ->
  open_lines h (Home // ".openclaw" // ".env") = inr [k ++ "=" ++ value] ->
  snd (api_keys._check_env_keys h) = [] ->
  api_keys._check_env_file h
  = ([k ++ " (in .env)"], Some (Home // ".openclaw" // ".env"))
  /\ exists r self',
       APIKeysCheck.run self (at_host h) = (inr r, self')
       /\ status r = PASS.
Proof.
  intros Hin He Hl Hinv.
  assert (Hf : api_keys._check_env_file h
               = ([k ++ " (in .env)"], Some (Home // ".openclaw" // ".env"))).
  { unfold api_keys._check_env_file, api_keys.env_paths.
    cbn [app api_keys.scan_env_files]. rewrite He, Hl.
    cbn [flat_map]. rewrite env_line_entry by exact Hin. reflexivity. }
  split; [exact Hf|].
  unfold APIKeysCheck.run.
  cbn [at_host now observe env_keys env_file config_keys].
  rewrite Hf.
  destruct (api_keys._check_env_keys h) as [found invalid].
  cbn [snd] in Hinv. subst invalid. cbv zeta.
  cbn [APIKeysCheck._invalid_keys APIKeysCheck._found_keys
       APIKeysCheck._env_file_keys APIKeysCheck._config_keys Py.truthy_list].
  destruct found as [|f found]; cbn [app Py.truthy_list negb];
    do 2 eexists; split; reflexivity.
Qed.

(** ** The config file *)

Lemma find_first A (f : A -> bool) before p after :
  (forall q, In q before -> f q = false) -> f p = true ->
  find f (before ++ p :: after) = Some p.
Proof.
  intros Hb Hp. induction before as [|q before IH]; cbn [app find].
  - now rewrite Hp.
  - rewrite (Hb q) by now left. apply IH. intros q' Hq'. apply Hb. now right.
Qed.

(** X19.  [_find_config] returns the first candidate path that exists,
    and when that file holds a non-empty mapping the config probe reports
    on this file: PASS when [provider] has a value, WARN otherwise. *)
Theorem config_probe_reads_the_first_candidate h self before p after :
  config.possible_paths h = (before ++ p :: after)%list ->
  (forall q, In q before -> path_exists h q = false) ->
  path_exists h p = true ->
  config._find_config h = Some p
  /\ forall fields,
       config._parse_config h p = inr (PyDict fields) -> fields <> [] ->
       exists r self',
         ConfigCheck.run self (at_host h) = (inr r, self')
         /\ details r = Some ("Path: " ++ path_str h p)
         /\ status r
            = match find (fun kv => fst kv =? "provider") fields with
              | Some kv => if ConfigCheck.falsy (snd kv) then WARN else PASS
              | None => WARN
              end.
Proof.
  intros Hpaths Hbefore Hp.
  assert (Hf : config._find_config h = Some p).
  { unfold config._find_config, first_existing. rewrite Hpaths.
    now apply find_first. }
  split; [exact Hf|].
  intros fields Hparse Hne.
  unfold ConfigCheck.run.
  cbn [at_host now observe found_config parsed_config].
  rewrite Hf, Hparse. cbn [option_map]. cbv zeta.
  cbn [ConfigCheck._config_path ConfigCheck._config ConfigCheck.falsy].
  destruct fields as [|kv fields]; [contradiction|].
  cbn [Py.truthy_list negb].
  unfold ConfigCheck._validate_config, ConfigCheck.REQUIRED_FIELDS.
  cbn [ConfigCheck.collect_missing ConfigCheck.is_missing
       ConfigCheck.contains_field ConfigCheck.getitem].
  set (d := kv :: fields).
  assert (Hex : existsb (fun kv0 => fst kv0 =? "provider") d
                = match find (fun kv0 => fst kv0 =? "provider") d with
                  | Some _ => true
                  | None => false
                  end).
  { clearbody d. induction d as [|a d IH]; [reflexivity|].
    cbn [existsb find]. destruct (fst a =? "provider"); [reflexivity|exact IH]. }
  rewrite Hex.
  destruct (find (fun kv0 => fst kv0 =? "provider") d) as [kv0|].
  - destruct (ConfigCheck.falsy (snd kv0));
      cbn [app ConfigCheck._missing_fields Py.truthy_list];
      do 2 eexists; (split; [reflexivity|]); split; reflexivity.
  - cbn [app ConfigCheck._missing_fields Py.truthy_list].
    do 2 eexists. split; [reflexivity|]. split; reflexivity.
Qed.

(** X20.  When the config file does not parse, [run] catches the
    [ValueError] of [_parse_config] and returns a FAIL that is not
    auto-fixable, carries the message of the parser and names the
    file. *)
Theorem config_syntax_error_is_reported h self p content msg :
  config._find_config h = Some p ->
  read_text h p = inr content ->
  (if config.is_json p then json_loads h content else yaml_loads h content)
  = Malformed msg ->
  exists r self',
    ConfigCheck.run self (at_host h) = (inr r, self')
    /\ status r = FAIL
    /\ can_auto_fix r = false
    /\ details r
       = Some ((if config.is_json p then "Invalid JSON: "
                else "Invalid YAML: ") ++ msg)
    /\ fix_suggestions r
       = [ "Fix the syntax errors in: " ++ path_str h p;
           "Use a YAML/JSON validator to check the file" ].
Proof.
  intros Hf Hread Hbad.
  unfold ConfigCheck.run.
  cbn [at_host now observe found_config parsed_config].
  rewrite Hf. cbn [option_map]. cbv zeta.
  unfold config._parse_config. rewrite Hread.
  destruct (config.is_json p); rewrite Hbad;
    cbn [config.as_ValueError ConfigCheck._config_path];
    do 2 eexists; (split; [reflexivity|]); repeat split; reflexivity.
Qed.

(* ================================================================== *)
(** * The folders probe *)
(* ================================================================== *)

(** X21.  When no home directory of OpenClaw exists, the folders probe
    returns an auto-fixable WARN, and its [fix] creates [~/.openclaw] and
    returns [True] without creating any of the expected
    sub-directories. *)
Theorem folders_fix_creates_only_the_home h self0 :
  FoldersCheck._find_openclaw_home h = None ->
  mkdir h (Home // ".openclaw") = None ->
  let r := fst (FoldersCheck.run self0 h) in
  let self := snd (FoldersCheck.run self0 h) in
  let f := FoldersCheck.fix_ self h in
  status r = WARN /\ can_auto_fix r = true
  /\ FoldersCheck.returned f = true
  /\ FoldersCheck.created_paths f = [Home // ".openclaw"]
  /\ forall d, In d FoldersCheck.EXPECTED_DIRS ->
               ~ In (Home // ".openclaw" // d) (FoldersCheck.created_paths f).
Proof.
  intros Hhome Hmk. unfold FoldersCheck.run. rewrite Hhome. cbv zeta.
  cbn [FoldersCheck._home_dir fst snd status can_auto_fix].
  unfold FoldersCheck.fix_. cbn [FoldersCheck._home_dir]. rewrite Hmk.
  unfold FoldersCheck.fix_dirs, FoldersCheck.set_home.
  cbn [FoldersCheck._missing_dirs FoldersCheck.make_dirs Py.truthy_list
       FoldersCheck.returned FoldersCheck.created_paths length Nat.eqb].
  repeat split; try reflexivity.
  intros d _ [H|[]]. discriminate H.
Qed.

(** When every expected directory is there and accessible, the loop over
    [EXPECTED_DIRS] only extends [_found_dirs]. *)
Lemma check_dirs_all_present h home dirs : forall self,
  (forall d, In d dirs ->
             path_exists h (home // d) = true
             /\ FoldersCheck._check_permissions h (home // d) = true) ->
  FoldersCheck.check_dirs h home dirs self
  = FoldersCheck.mkState (FoldersCheck._home_dir self)
      (FoldersCheck._missing_dirs self) (FoldersCheck._missing_files self)
      (FoldersCheck._found_dirs self ++ dirs)%list
      (FoldersCheck._found_files self) (FoldersCheck._permission_issues self).
Proof.
  induction dirs as [|d dirs IH]; intros self Hd.
  - destruct self. cbn. now rewrite app_nil_r.
  - cbn [FoldersCheck.check_dirs]. cbv zeta.
    destruct (Hd d (or_introl eq_refl)) as (-> & ->). cbn [negb].
    rewrite IH by (intros x Hx; apply Hd; now right).
    cbn [FoldersCheck._home_dir FoldersCheck._missing_dirs
         FoldersCheck._missing_files FoldersCheck._found_dirs
         FoldersCheck._found_files FoldersCheck._permission_issues].
    now rewrite <- app_assoc.
Qed.

(** X22.  When only [config.yaml] is missing, the folders probe returns
    an auto-fixable WARN, and its [fix] creates nothing, prints nothing
    and returns [True]. *)
Theorem folders_fix_reports_success_for_a_missing_file h self0 home :
  FoldersCheck._find_openclaw_home h = Some home ->
  FoldersCheck._check_permissions h home = true ->
  (forall d, In d FoldersCheck.EXPECTED_DIRS ->
             path_exists h (home // d) = true
             /\ FoldersCheck._check_permissions h (home // d) = true) ->
  path_exists h (home // "config.yaml") = false ->
  path_exists h (home // "config.yml") = false ->
  let r := fst (FoldersCheck.run self0 h) in
  let self := snd (FoldersCheck.run self0 h) in
  let f := FoldersCheck.fix_ self h in
  status r = WARN /\ can_auto_fix r = true
  /\ message r = "OpenClaw structure incomplete (1 missing)"
  /\ FoldersCheck._missing_files self = ["config.yaml"]
  /\ FoldersCheck.returned f = true
  /\ FoldersCheck.created_paths f = []
  /\ FoldersCheck.printed f = [].
Proof.
  intros Hhome Hperm Hdirs Hyaml Hyml.
  assert (Hst :
    FoldersCheck.check_files h home FoldersCheck.EXPECTED_FILES
      (FoldersCheck.check_dirs h home FoldersCheck.EXPECTED_DIRS
         (FoldersCheck.mkState (Some home) [] [] [] [] []))
    = FoldersCheck.mkState (Some home) [] ["config.yaml"]
        FoldersCheck.EXPECTED_DIRS [] []).
  { rewrite check_dirs_all_present by exact Hdirs.
    unfold FoldersCheck.EXPECTED_FILES.
    cbn [FoldersCheck.check_files]. cbv zeta. rewrite Hyaml.
    replace (PyText.endswith ".yaml" "config.yaml") with true by reflexivity.
    replace (Py.replace ".yaml" ".yml" "config.yaml") with "config.yml"
      by reflexivity.
    rewrite Hyml. reflexivity. }
  unfold FoldersCheck.run. rewrite Hhome. cbv zeta.
  cbn [FoldersCheck._home_dir]. rewrite Hperm. cbn [negb].
  rewrite Hst.
  cbn [FoldersCheck._home_dir FoldersCheck._missing_dirs
       FoldersCheck._missing_files FoldersCheck._found_dirs
       FoldersCheck._found_files FoldersCheck._permission_issues
       app Py.truthy_list orb fst snd status can_auto_fix message length].
  unfold FoldersCheck.fix_, FoldersCheck.fix_dirs.
  cbn [FoldersCheck._home_dir FoldersCheck._missing_dirs
       FoldersCheck.make_dirs Py.truthy_list FoldersCheck.returned
       FoldersCheck.created_paths FoldersCheck.printed length Nat.eqb].
  repeat split; reflexivity.
Qed.

(* ================================================================== *)
(** * The logs probe *)
(* ================================================================== *)








Lemma count_severity_positive s found :
  (0 <? logs.LogsCheck.count_severity s found)%nat = true
  <-> exists x, In x found /\ logs.severity (fst (fst x)) = s.
Proof.
  unfold logs.LogsCheck.count_severity.
  induction found as [|x found IH]; cbn [filter length].
  - split; [discriminate|]. intros (x & [] & _).
  - destruct (String.eqb_spec (logs.severity (fst (fst x))) s) as [E|E].
    + split; [|reflexivity]. intros _. exists x. split; [now left|exact E].
    + rewrite IH. split.
      * intros (y & Hy & Hs). exists y. split; [now right|exact Hs].
      * intros (y & [<-|Hy] & Hs); [contradiction|]. exists y. auto.
Qed.

(** X24.  Whenever the logs probe returns, the result is not
    auto-fixable and has at most three suggestions; it is PASS iff no
    known error was found and FAIL iff one of severity [error] was found,
    and WARN otherwise. *)
Theorem logs_verdict self h r self' :
  logs.LogsCheck.run self h = (inr r, self') ->
  can_auto_fix r = false
  /\ length (fix_suggestions r) <= 3
  /\ (status r = PASS <-> logs.LogsCheck._found_errors self' = [])
  /\ (status r = FAIL
      <-> exists x, In x (logs.LogsCheck._found_errors self')
                    /\ logs.severity (fst (fst x)) = "error")
  /\ (status r = PASS \/ status r = WARN \/ status r = FAIL).
Proof.
  unfold logs.LogsCheck.run. cbv zeta.
  cbn [logs.LogsCheck._log_dir logs.LogsCheck._log_files
       logs.LogsCheck._found_errors].
  assert (Hnone : forall A (P : A -> Prop), ~ exists x : A, In x [] /\ P x)
    by (intros A P (x & [] & _)).
  destruct (logs.LogsCheck._find_log_directory h) as [log_dir|].
  2:{ intros H. injection H as <- <-.
      cbn [status can_auto_fix fix_suggestions length
           logs.LogsCheck._found_errors].
      repeat split; auto; try discriminate; try lia.
      intros Hx. now apply Hnone in Hx. }
  destruct (logs.LogsCheck._find_log_files h log_dir) as [e|files];
    [discriminate|].
  destruct files as [|f files]; cbn [Py.truthy_list negb].
  { intros H. injection H as <- <-.
    cbn [status can_auto_fix fix_suggestions length
         logs.LogsCheck._found_errors].
    repeat split; auto; try discriminate; try lia.
    intros Hx. now apply Hnone in Hx. }
  match goal with |- context [flat_map ?f ?l] => set (all := flat_map f l) end.
  destruct all as [|x found]; cbn [Py.truthy_list negb].
  { intros H. injection H as <- <-.
    cbn [status can_auto_fix fix_suggestions length
         logs.LogsCheck._found_errors].
    repeat split; auto; try discriminate; try lia.
    intros Hx. now apply Hnone in Hx. }
  intros H. injection H as <- <-.
  cbn [status can_auto_fix fix_suggestions logs.LogsCheck._found_errors].
  split; [reflexivity|]. split.
  { cbn [length].
    destruct (logs.LogsCheck.unique_errors _ found) as [|a [|a0 l0]];
      cbn [map length]; lia. }
  pose proof (count_severity_positive "error" (x :: found)) as Hc.
  destruct (0 <? logs.LogsCheck.count_severity "error" (x :: found))%nat.
  - split; [split; discriminate|].
    split; [split; [intros _; now apply Hc|reflexivity]|]. auto.
  - split; [split; discriminate|].
    split; [split; [discriminate|]|auto].
    intros Hx. apply Hc in Hx. discriminate Hx.
Qed.

(* ================================================================== *)
(** * The properties above, on the example machines *)
(* ================================================================== *)

Lemma tallies_count_every_probe_once_witness :
  exists rs p w f m',
    run_all_checks with_plugins false false (start healthy)
    = (inr (rs, p, w, f), m')
    /\ length rs = length with_plugins
    /\ p + w + f = length with_plugins.
Proof.
  pose proof (@tallies_count_every_probe_once World with_plugins false false
                (start healthy)) as T.
  destruct (run_all_checks with_plugins false false (start healthy))
    as [[e|[[[rs p] w] f]] m'] eqn:E.
  - vm_compute in E. discriminate E.
  - exists rs, p, w, f, m'. split; [reflexivity|].
    exact (T rs p w f m' eq_refl).
Defined.

Lemma fix_pass_does_not_change_the_verdict_witness :
  fst (doctor ALL_CHECKS "1.0.0" true false false (start no_config))
  = inr tt
  /\ fst (doctor ALL_CHECKS "1.0.0" false false false (start no_config))
     = inr tt.
Proof.
  assert (H : fst (doctor ALL_CHECKS "1.0.0" true false false (start no_config))
              = inr tt) by (vm_compute; reflexivity).
  split; [exact H|].
  apply (@fix_pass_does_not_change_the_verdict World ALL_CHECKS "1.0.0" false
           (start no_config) (inr tt) H).
  intros e. discriminate.
Defined.


Lemma system_and_network_are_never_fixed_witness :
  let t := trace (snd (doctor ALL_CHECKS "1.0.0" true false false
                         (start no_config))) in
  In 7 (fixes t)
  /\ exists n, In (7, n) (inits t)
               /\ n <> SystemCheck.name /\ n <> NetworkCheck.name.
Proof.
  intros t.
  assert (H : In 7 (fixes t)) by (vm_compute; auto).
  split; [exact H|].
  exact (@system_and_network_are_never_fixed "1.0.0" true false false "node"
           no_config t 7 (or_introl eq_refl) H).
Defined.

Lemma to_dict_injective_witness :
  let r1 := mkCheckResult "Test" PASS "OK" (Some "Details here") true
              ["Fix 1"; "Fix 2"] in
  let r2 := mkCheckResult (name r1) (status r1) (message r1) (details r1)
              (can_auto_fix r1) (fix_suggestions r1) in
  to_dict r1 = to_dict r2 /\ r1 = r2.
Proof.
  intros r1 r2. split; [reflexivity|].
  apply (@to_dict_injective r1 r2). reflexivity.
Defined.


Lemma system_status_thresholds_witness :
  exists r self',
    SystemCheck.run SystemCheck.__init__ single_core = (inr r, self')
    /\ can_auto_fix r = false
    /\ status r = WARN.
Proof.
  exact (@system_status_thresholds SystemCheck.__init__ single_core
           (8 * GiB)%Z (100 * GiB)%Z eq_refl eq_refl).
Defined.

Lemma config_scalar_document_raises_witness :
  exists msg,
    fst (ConfigCheck.run ConfigCheck.__init__ (at_host odd_host))
    = inl (Raise "TypeError" msg).
Proof.
  apply (@config_scalar_document_raises ConfigCheck.__init__
           (at_host odd_host) "/home/dev/.openclaw/config.json" (PyInt 42)).
  - vm_compute. reflexivity.
  - vm_compute. reflexivity.
  - left. exists 42%Z. split; [reflexivity|discriminate].
Defined.

Lemma docker_and_api_keys_never_fail_witness :
  match fst (cls_run DockerCheck.cls DockerCheck.__init__ (at_host dev_host))
  with
  | inr r => status r = PASS \/ status r = WARN
  | inl _ => False
  end.
Proof.
  destruct (cls_run DockerCheck.cls DockerCheck.__init__ (at_host dev_host))
    as [[e|r] st] eqn:E.
  - vm_compute in E. discriminate E.
  - exact (@docker_and_api_keys_never_fail DockerCheck.cls
             DockerCheck.__init__ (at_host dev_host) r st
             (or_introl eq_refl) E).
Defined.




Lemma docker_without_version_reads_as_not_installed_witness :
  exists running r self',
    docker._check_docker odd_host = inr (None, running)
    /\ DockerCheck.run DockerCheck.__init__ (at_host odd_host)
       = (inr r, self')
    /\ status r = WARN
    /\ can_auto_fix r = false
    /\ message r = "Docker is not installed (optional for desktop use)".
Proof.
  apply (@docker_without_version_reads_as_not_installed odd_host
           DockerCheck.__init__ "/usr/bin/docker");
    [reflexivity|discriminate| |].
  - intros out err. vm_compute. discriminate.
  - intros cmd e. unfold odd_host, machine_of.
    cbn [subprocess_run find fst snd].
    destruct (cmd_eqb _ cmd); [discriminate|].
    destruct (cmd_eqb _ cmd); discriminate.
Defined.

Lemma openai_project_key_is_reported_invalid_witness :
  In "OPENAI_API_KEY" (snd (api_keys._check_env_keys dev_host))
  /\ exists r self',
       APIKeysCheck.run APIKeysCheck.__init__ (at_host dev_host)
       = (inr r, self')
       /\ status r = WARN
       /\ can_auto_fix r = false
       /\ message r = "Some API keys appear invalid: OPENAI_API_KEY".
Proof.
  apply (@openai_project_key_is_reported_invalid dev_host
           APIKeysCheck.__init__ "4f9aXq").
  reflexivity.
Defined.

Lemma env_file_entry_counts_whatever_its_value_witness :
  api_keys._check_env_file odd_host
  = (["GROQ_API_KEY (in .env)"], Some (Home // ".openclaw" // ".env"))
  /\ exists r self',
       APIKeysCheck.run APIKeysCheck.__init__ (at_host odd_host)
       = (inr r, self')
       /\ status r = PASS.
Proof.
  apply (@env_file_entry_counts_whatever_its_value odd_host
           APIKeysCheck.__init__ "GROQ_API_KEY" "");
    [|reflexivity|reflexivity|reflexivity].
  unfold api_keys.ENV_KEYS. do 4 right. left. reflexivity.
Defined.

Lemma config_probe_reads_the_first_candidate_witness :
  config._find_config good_host = Some (Home // ".openclaw" // "config.json")
  /\ exists r self',
       ConfigCheck.run ConfigCheck.__init__ (at_host good_host)
       = (inr r, self')
       /\ details r = Some "Path: /home/dev/.openclaw/config.json"
       /\ status r = PASS.
Proof.
  destruct (@config_probe_reads_the_first_candidate good_host
              ConfigCheck.__init__
              [ Home // ".openclaw" // "config.yaml";
                Home // ".openclaw" // "config.yml" ]
              (Home // ".openclaw" // "config.json")
              [ Home // ".config" // "openclaw" // "config.yaml";
                Home // ".config" // "openclaw" // "config.yml";
                Home // ".config" // "openclaw" // "config.json" ])
    as [Hfound Hrun].
  - reflexivity.
  - intros q [<-|[<-|[]]]; reflexivity.
  - reflexivity.
  - split; [exact Hfound|].
    apply (Hrun [("provider", PyStr "anthropic")]);
      [reflexivity|discriminate].
Defined.

Lemma config_syntax_error_is_reported_witness :
  exists r self',
    ConfigCheck.run ConfigCheck.__init__ (at_host dev_host) = (inr r, self')
    /\ status r = FAIL
    /\ can_auto_fix r = false
    /\ details r
       = Some "Invalid JSON: Expecting property name enclosed in double quotes"
    /\ fix_suggestions r
       = [ "Fix the syntax errors in: /home/dev/.openclaw/config.json";
           "Use a YAML/JSON validator to check the file" ].
Proof.
  apply (@config_syntax_error_is_reported dev_host ConfigCheck.__init__
           (Home // ".openclaw" // "config.json") "{"
           "Expecting property name enclosed in double quotes");
    reflexivity.
Defined.

Lemma folders_fix_creates_only_the_home_witness :
  let r := fst (FoldersCheck.run FoldersCheck.__init__ bare_host) in
  let self := snd (FoldersCheck.run FoldersCheck.__init__ bare_host) in
  let f := FoldersCheck.fix_ self bare_host in
  status r = WARN /\ can_auto_fix r = true
  /\ FoldersCheck.returned f = true
  /\ FoldersCheck.created_paths f = [Home // ".openclaw"]
  /\ forall d, In d FoldersCheck.EXPECTED_DIRS ->
               ~ In (Home // ".openclaw" // d) (FoldersCheck.created_paths f).
Proof.
  apply (@folders_fix_creates_only_the_home bare_host FoldersCheck.__init__);
    reflexivity.
Defined.

Lemma folders_fix_reports_success_for_a_missing_file_witness :
  let r := fst (FoldersCheck.run FoldersCheck.__init__ dev_host) in
  let self := snd (FoldersCheck.run FoldersCheck.__init__ dev_host) in
  let f := FoldersCheck.fix_ self dev_host in
  status r = WARN /\ can_auto_fix r = true
  /\ message r = "OpenClaw structure incomplete (1 missing)"
  /\ FoldersCheck._missing_files self = ["config.yaml"]
  /\ FoldersCheck.returned f = true
  /\ FoldersCheck.created_paths f = []
  /\ FoldersCheck.printed f = [].
Proof.
  apply (@folders_fix_reports_success_for_a_missing_file dev_host
           FoldersCheck.__init__ (Home // ".openclaw"));
    try reflexivity.
  intros d [<-|[<-|[<-|[]]]]; split; reflexivity.
Defined.


Lemma logs_verdict_witness :
  logs.LogsCheck.run logs.LogsCheck.__init__ log_host
  = (inr log_host_result, log_host_state)
  /\ status log_host_result = FAIL
  /\ length (fix_suggestions log_host_result) <= 3
  /\ exists x, In x (logs.LogsCheck._found_errors log_host_state)
               /\ logs.severity (fst (fst x)) = "error".
Proof.
  assert (H : logs.LogsCheck.run logs.LogsCheck.__init__ log_host
              = (inr log_host_result, log_host_state))
    by (vm_compute; reflexivity).
  destruct (@logs_verdict logs.LogsCheck.__init__ log_host log_host_result
              log_host_state H) as (_ & Hlen & _ & Hfail & _).
  split; [exact H|]. split; [reflexivity|]. split; [exact Hlen|].
  apply Hfail. reflexivity.
Defined.
